(** * ai-ppt-agent: outline generation, per-slide images, deck assembly

    A shallow embedding of [src/app.py].  The three functions of the
    pipeline are state-passing programs over a [world] (the Python heap,
    the requests sent to the generative service, the console and the file
    system); an exception leaves the world as it was when it was raised.
    The generative service, the JSON decoder of the standard library, the
    image decoder behind [add_picture], the file system and the encoding
    of the console (a [print] of text it cannot encode raises) are
    parameters of the development. *)

From Stdlib Require Import ZArith NArith QArith List Bool Lia Ascii String
  DecimalString.
From stdpp Require Import base strings gmap list option.

Set Warnings "-register-all".
Local Open Scope N_scope.

(** ** Python strings *)

(** A Python [str] is a sequence of Unicode code points; [bytes] is a
    sequence of octets. *)
Abbreviation str := (list N).
Abbreviation bytes := (list Byte.byte).

(** An ASCII literal as a [str]. *)
Definition lit (s : string) : str :=
  (fun a => Ascii.N_of_ascii a) <$> String.list_ascii_of_string s.

Definition dquote : N := 34.

(** [str.isspace] on one code point: the table of CPython's
    [_PyUnicode_IsWhitespace]. *)
Definition py_isspace (c : N) : bool :=
  ((9 <=? c) && (c <=? 13)) || ((28 <=? c) && (c <=? 32))
  || (c =? 133) || (c =? 160) || (c =? 5760)
  || ((8192 <=? c) && (c <=? 8202))
  || (c =? 8232) || (c =? 8233) || (c =? 8239) || (c =? 8287) || (c =? 12288).

Local Close Scope N_scope.

(** Membership of a code point in the [chars] argument of [str.strip]. *)
Definition in_chars (chars : str) (c : N) : bool :=
  existsb (N.eqb c) chars.

Fixpoint lstrip_by (p : N -> bool) (s : str) : str :=
  match s with
  | [] => []
  | c :: s' => if p c then lstrip_by p s' else s
  end.

Definition rstrip_by (p : N -> bool) (s : str) : str :=
  rev (lstrip_by p (rev s)).

(** [s.strip(chars)] and [s.strip()]: both ends lose every leading and
    trailing code point of the set, whatever their order. *)
Definition strip_by (p : N -> bool) (s : str) : str :=
  rstrip_by p (lstrip_by p s).

Definition py_strip_chars (chars s : str) : str := strip_by (in_chars chars) s.
Definition py_strip (s : str) : str := strip_by py_isspace s.

(** ** Python values *)

(** What [json.loads] returns.  A [dict] keeps its items in insertion
    order; a float is kept as the decimal it was written as,
    [mantissa * 10 ^ exponent], or as one of the three constants the
    decoder also accepts. *)
Inductive pyfloat :=
| Decimal (mantissa exponent : Z)
| NaN
| Infinity (negative : bool).

Inductive json :=
| JNull
| JBool (b : bool)
| JInt (z : Z)
| JFloat (f : pyfloat)
| JStr (s : str)
| JArr (items : list json)
| JObj (items : list (str * json)).

Fixpoint dict_get {V : Type} (k : str) (d : list (str * V)) : option V :=
  match d with
  | [] => None
  | (k', v) :: d' => if decide (k = k') then Some v else dict_get k d'
  end.

Inductive exn :=
| KeyError (key : json)
| IndexError
| TypeError
| AttributeError
| JSONDecodeError
| ServiceError (code : N)
| UnidentifiedImageError
| OSError
| SystemError
| UnicodeEncodeError.

Inductive res (A : Type) :=
| Ok (a : A)
| Raise (e : exn).
Arguments Ok {A} a.
Arguments Raise {A} e.

(** [v[key]] with a string key. *)
Definition getitem (v : json) (key : str) : res json :=
  match v with
  | JObj d => match dict_get key d with
              | Some x => Ok x
              | None => Raise (KeyError (JStr key))
              end
  | _ => Raise TypeError
  end.

(** The items a [for] loop (or [enumerate]) draws from a value: the
    elements of a list, the characters of a string, the keys of a dict. *)
Definition py_iter (v : json) : res (list json) :=
  match v with
  | JArr l => Ok l
  | JStr s => Ok ((fun c => JStr [c]) <$> s)
  | JObj d => Ok ((fun kv => JStr (fst kv)) <$> d)
  | _ => Raise TypeError
  end.

(** A decimal rounds to the float zero when it is zero or at most half
    the least subnormal, [2 ^ -1075]. *)
Definition pyfloat_is_zero (f : pyfloat) : bool :=
  match f with
  | Decimal m e =>
      if (m =? 0)%Z then true
      else if (0 <=? e)%Z then false
      else (Z.abs m * 2 ^ 1075 <=? 10 ^ (- e))%Z
  | _ => false
  end.

(** Truth value of an object in [if obj:]. *)
Definition py_truthy (v : json) : bool :=
  match v with
  | JNull => false
  | JBool b => b
  | JInt z => negb (z =? 0)%Z
  | JFloat f => negb (pyfloat_is_zero f)
  | JStr s => negb (bool_decide (s = []))
  | JArr l => negb (bool_decide (length l = 0%nat))
  | JObj d => negb (bool_decide (length d = 0%nat))
  end.

Definition as_str (v : json) : res str :=
  match v with
  | JStr s => Ok s
  | _ => Raise TypeError
  end.

#[global] Instance res_ret : MRet res := fun _ a => Ok a.
#[global] Instance res_bind : MBind res := fun _ _ f m =>
  match m with
  | Ok a => f a
  | Raise e => Raise e
  end.

#[global] Instance res_fmap : FMap res := fun _ _ f m =>
  match m with
  | Ok a => Ok (f a)
  | Raise e => Raise e
  end.

(** ** Responses of the generative service *)

(** The response objects of the client library: every level may be
    absent, as the library declares each field optional. *)
Record Blob := { data : option bytes; mime_type : option str }.
Record Part := { text : option str; inline_data : option Blob }.
Record Content := { parts : option (list Part) }.
Record Candidate := { content : option Content }.
Record GenerateContentResponse := { candidates : option (list Candidate) }.

Record GenerateContentConfig := { response_modalities : list str }.

Record request := {
  model : str;
  contents : json;
  config : option GenerateContentConfig
}.

(** [x[0]] on an optional list: [None] is not subscriptable, an empty
    list has no first item. *)
Definition item0 {A : Type} (x : option (list A)) : res A :=
  match x with
  | None => Raise TypeError
  | Some [] => Raise IndexError
  | Some (a :: _) => Ok a
  end.

(** [x.field] where [x] may be [None]. *)
Definition attr_of {A : Type} (x : option A) : res A :=
  match x with
  | None => Raise AttributeError
  | Some a => Ok a
  end.

(** [for part in x] on an optional list. *)
Definition iter_of {A : Type} (x : option (list A)) : res (list A) :=
  match x with
  | None => Raise TypeError
  | Some l => Ok l
  end.

(** ** The presentation document *)

Local Open Scope Z_scope.

(** Lengths are English Metric Units, as in the presentation library. *)
Definition Inches (inches : Q) : Z :=
  Z.quot (Qnum inches * 914400) (Zpos (Qden inches)).
Definition Pt (points : Z) : Z := points * 12700.

Inductive RGBColor := RGB (r g b : N).
Inductive PP_ALIGN := CENTER.
Inductive MSO_ANCHOR := MIDDLE.
Inductive MSO_SHAPE := RECTANGLE.

Inductive fill_format :=
| FillInherited
| FillSolid (fore_color : option RGBColor)
| FillBackground.

Record paragraph := {
  p_text : str;
  p_font_color : option RGBColor;
  p_font_size : option Z;
  p_alignment : option PP_ALIGN;
  p_space_after : option Z
}.

Record text_frame := {
  paragraphs : list paragraph;
  word_wrap : option bool;
  vertical_anchor : option MSO_ANCHOR
}.

Record box := { left : Z; top : Z; width : Z; height : Z }.

Inductive shape :=
| Placeholder (idx : nat) (tf : text_frame) (fill : fill_format)
| AutoShape (kind : MSO_SHAPE) (at_ : box) (fill line_fill : fill_format)
| TextBox (at_ : box) (tf : text_frame)
| Picture (left top width : Z) (blob : bytes).

Record slide := { layout : nat; shapes : list shape }.

Record presentation := {
  slide_width : Z;
  slide_height : Z;
  slides : list slide
}.

Local Close Scope Z_scope.

(** ** The world a run acts on *)

(** The mutable objects the program passes by reference: a decoded
    outline and the dict of images. *)
Inductive pyobj :=
| PyJson (v : json)
| PyImages (d : gmap nat (option bytes)).

(** What the program prints. *)
Inductive log_line :=
| LogGeneratingOutline (topic : str)
| LogOutlineFailed (e : exn)
| LogGeneratingImages
| LogProcessingSlide (number : nat) (slide_title : json)
| LogImageError (number : nat) (e : exn)
| LogSaved (output_filename : str).

(** The console the program prints to: which lines its encoding can
    encode.  A line with a character it cannot encode (a lone surrogate
    that [json.loads] let through, text outside the code page of the
    stream) makes [print] raise. *)
Class Console := encodes : log_line -> bool.

(** The heading of the image loop is a literal of ASCII characters, which
    every console encodes; the other lines carry text the program was
    given. *)
Definition printable {console : Console} (l : log_line) : bool :=
  match l with
  | LogGeneratingImages => true
  | _ => encodes l
  end.

Record world := {
  heap : gmap nat pyobj;
  sent : list request;
  stdout : list log_line;
  files : gmap str presentation
}.

Definition with_heap (h : gmap nat pyobj) (w : world) : world :=
  {| heap := h; sent := sent w; stdout := stdout w; files := files w |}.
Definition with_sent (l : list request) (w : world) : world :=
  {| heap := heap w; sent := l; stdout := stdout w; files := files w |}.
Definition with_stdout (l : list log_line) (w : world) : world :=
  {| heap := heap w; sent := sent w; stdout := l; files := files w |}.
Definition with_files (f : gmap str presentation) (w : world) : world :=
  {| heap := heap w; sent := sent w; stdout := stdout w; files := f |}.

(** A statement: it returns or raises, and leaves a world behind either
    way. *)
Definition M (A : Type) : Type := world -> res A * world.

#[global] Instance M_ret : MRet M := fun _ a w => (Ok a, w).
#[global] Instance M_bind : MBind M := fun _ _ f m w =>
  match m w with
  | (Ok a, w') => f a w'
  | (Raise e, w') => (Raise e, w')
  end.

Definition raise {A : Type} (e : exn) : M A := fun w => (Raise e, w).

Definition lift {A : Type} (r : res A) : M A := fun w => (r, w).

(** [try: body  except Exception as e: handler e]. *)
Definition try_except {A : Type} (body : M A) (handler : exn -> M A) : M A :=
  fun w =>
    match body w with
    | (Ok a, w') => (Ok a, w')
    | (Raise e, w') => handler e w'
    end.

(** [print(line)]: the line is written, or the encoder of the console
    raises and nothing is. *)
Definition print {console : Console} (l : log_line) : M unit :=
  fun w =>
    if printable l then (Ok tt, with_stdout (stdout w ++ [l]) w)
    else (Raise UnicodeEncodeError, w).

(** [for i, x in enumerate(l): body i x], counting from [i]. *)
Fixpoint for_enumerate {A : Type} (i : nat) (l : list A)
    (body : nat -> A -> M unit) : M unit :=
  match l with
  | [] => mret tt
  | x :: l' => body i x ;; for_enumerate (S i) l' body
  end.

(** A [for ... in enumerate(l)] loop that updates a local variable. *)
Fixpoint fold_enumerate {A St : Type} (i : nat) (l : list A) (s : St)
    (body : nat -> A -> St -> M St) : M St :=
  match l with
  | [] => mret s
  | x :: l' => s' ← body i x s; fold_enumerate (S i) l' s' body
  end.

(** *** Objects on the heap *)

Definition load_json (l : nat) : M json :=
  fun w =>
    match heap w !! l with
    | Some (PyJson v) => (Ok v, w)
    | Some (PyImages _) => (Raise TypeError, w)
    | None => (Raise SystemError, w)
    end.

Definition load_images (l : nat) : M (gmap nat (option bytes)) :=
  fun w =>
    match heap w !! l with
    | Some (PyImages d) => (Ok d, w)
    | Some (PyJson _) => (Raise TypeError, w)
    | None => (Raise SystemError, w)
    end.

(** A new object gets an address no live object has. *)
Definition new_object (o : pyobj) : M nat :=
  fun w =>
    let l := fresh (dom (heap w)) in
    (Ok l, with_heap (<[l := o]> (heap w)) w).

Definition store (l : nat) (o : pyobj) : M unit :=
  fun w => (Ok tt, with_heap (<[l := o]> (heap w)) w).

(** [images[i] = v] on the dict at address [l]. *)
Definition images_setitem (l : nat) (i : nat) (v : option bytes) : M unit :=
  d ← load_images l;
  store l (PyImages (<[i := v]> d)).

(** [outline[key]] on the outline at address [l]. *)
Definition subscript (l : nat) (key : str) : M json :=
  o ← load_json l;
  lift (getitem o key).

(** [i in images]. *)
Definition images_contains (l : nat) (i : nat) : M bool :=
  d ← load_images l;
  mret (bool_decide (is_Some (d !! i))).

(** [images[i]]. *)
Definition images_getitem (l : nat) (i : nat) : M (option bytes) :=
  d ← load_images l;
  match d !! i with
  | Some v => mret v
  | None => raise (KeyError (JInt (Z.of_nat i)))
  end.

(** ** The presentation library *)

Local Open Scope Z_scope.

(** [Presentation()]: the default template, 10 by 7.5 inches, no slide. *)
Definition Presentation : presentation :=
  {| slide_width := 9144000; slide_height := 6858000; slides := [] |}.

Definition new_paragraph : paragraph :=
  {| p_text := []; p_font_color := None; p_font_size := None;
     p_alignment := None; p_space_after := None |}.

(** The text frame of a new shape holds one empty paragraph. *)
Definition new_text_frame : text_frame :=
  {| paragraphs := [new_paragraph]; word_wrap := None;
     vertical_anchor := None |}.

(** [prs.slides.add_slide(prs.slide_layouts[n])] for the two layouts the
    program uses: each gives the slide a title placeholder and one more
    (subtitle or body). *)
Definition new_slide (n : nat) : slide :=
  {| layout := n;
     shapes := [Placeholder 0 new_text_frame FillInherited;
                Placeholder 1 new_text_frame FillInherited] |}.

Definition add_slide (s : slide) (prs : presentation) : presentation :=
  {| slide_width := slide_width prs; slide_height := slide_height prs;
     slides := slides prs ++ [s] |}.

Definition set_p_text (t : str) (p : paragraph) : paragraph :=
  {| p_text := t; p_font_color := p_font_color p;
     p_font_size := p_font_size p; p_alignment := p_alignment p;
     p_space_after := p_space_after p |}.
Definition set_p_font_color (c : RGBColor) (p : paragraph) : paragraph :=
  {| p_text := p_text p; p_font_color := Some c;
     p_font_size := p_font_size p; p_alignment := p_alignment p;
     p_space_after := p_space_after p |}.
Definition set_p_font_size (z : Z) (p : paragraph) : paragraph :=
  {| p_text := p_text p; p_font_color := p_font_color p;
     p_font_size := Some z; p_alignment := p_alignment p;
     p_space_after := p_space_after p |}.
Definition set_p_alignment (a : PP_ALIGN) (p : paragraph) : paragraph :=
  {| p_text := p_text p; p_font_color := p_font_color p;
     p_font_size := p_font_size p; p_alignment := Some a;
     p_space_after := p_space_after p |}.
Definition set_p_space_after (z : Z) (p : paragraph) : paragraph :=
  {| p_text := p_text p; p_font_color := p_font_color p;
     p_font_size := p_font_size p; p_alignment := p_alignment p;
     p_space_after := Some z |}.

Definition set_paragraphs (ps : list paragraph) (tf : text_frame) : text_frame :=
  {| paragraphs := ps; word_wrap := word_wrap tf;
     vertical_anchor := vertical_anchor tf |}.
Definition set_word_wrap (b : bool) (tf : text_frame) : text_frame :=
  {| paragraphs := paragraphs tf; word_wrap := Some b;
     vertical_anchor := vertical_anchor tf |}.
Definition set_vertical_anchor (a : MSO_ANCHOR) (tf : text_frame) : text_frame :=
  {| paragraphs := paragraphs tf; word_wrap := word_wrap tf;
     vertical_anchor := Some a |}.

(** [s.split(sep)] on one separator code point. *)
Fixpoint split_on (sep : N) (s : str) : list str :=
  match s with
  | [] => [[]]
  | c :: s' =>
      if N.eqb c sep then [] :: split_on sep s'
      else match split_on sep s' with
           | [] => [[c]]
           | piece :: pieces => (c :: piece) :: pieces
           end
  end.

(** [shape.text = t]: the frame is emptied and gets one paragraph per
    line of [t]. *)
Definition set_text (t : str) (tf : text_frame) : text_frame :=
  set_paragraphs ((fun line => set_p_text line new_paragraph) <$> split_on 10%N t) tf.

(** An update of [text_frame.paragraphs[0]]. *)
Definition on_paragraph0 (f : paragraph -> paragraph) (tf : text_frame)
    : res text_frame :=
  match paragraphs tf with
  | [] => Raise IndexError
  | p :: ps => Ok (set_paragraphs (f p :: ps) tf)
  end.

(** [text_frame.add_paragraph()], the new paragraph already set up by
    [f]. *)
Definition add_paragraph (f : paragraph -> paragraph) (tf : text_frame)
    : text_frame :=
  set_paragraphs (paragraphs tf ++ [f new_paragraph]) tf.

Definition add_shape (sh : shape) (s : slide) : slide :=
  {| layout := layout s; shapes := shapes s ++ [sh] |}.

(** [for shape in list(slide.shapes): ... remove(sp)]: every shape the
    slide had when the loop started is gone. *)
Definition clear_shapes (s : slide) : slide :=
  {| layout := layout s;
     shapes := fold_left (fun rest sh => tl rest) (shapes s) (shapes s) |}.

Definition dark_blue : RGBColor := RGB 0 51 102.
Definition white : RGBColor := RGB 255 255 255.
Definition dark_navy : RGBColor := RGB 0 30 60.

(** The literal the source puts in front of every key point: the four
    code points U+00E2, U+20AC, U+00A2 and a space. *)
Definition bullet_prefix : str := [226; 8364; 162; 32]%N.

Local Close Scope Z_scope.

(** ** The program *)

Definition TEXT_MODEL_NAME : str := lit "gemini-2.5-pro".
Definition IMAGE_MODEL_NAME : str :=
  lit "gemini-2.0-flash-preview-image-generation".

(** [str(n)] for an integer, as an f-string formats it. *)
Definition str_of_Z (z : Z) : str := lit (NilZero.string_of_int (Z.to_int z)).

Definition quoted (s : str) : str := [dquote] ++ s ++ [dquote].

Definition outline_prompt (topic : str) (num_slides : Z) : str :=
  lit "
    Create a detailed, structured presentation outline in JSON format for the topic: "
  ++ quoted topic ++ lit ".
    The JSON object should have a " ++ quoted (lit "title")
  ++ lit " field for the main presentation title, and a "
  ++ quoted (lit "slides") ++ lit " array.
    Create exactly " ++ str_of_Z num_slides ++ lit " slides.
    Each object in the " ++ quoted (lit "slides")
  ++ lit " array must contain three fields:
    1. " ++ quoted (lit "slide_title") ++ lit ": A concise title for the slide.
    2. " ++ quoted (lit "key_points")
  ++ lit ": An array of 3-5 bullet points summarizing the content.
    3. " ++ quoted (lit "image_prompt")
  ++ lit ": A descriptive, single-sentence prompt to generate a relevant image for this slide.
    ".

(** [text.strip('`').strip('json').strip()]. *)
Definition clean_json_text (text : str) : str :=
  py_strip (py_strip_chars (lit "json") (py_strip_chars (lit "`") text)).

(** [response.candidates[0].content.parts[0].text], about to be
    stripped. *)
Definition first_part_text (response : GenerateContentResponse) : res str :=
  candidate ← item0 (candidates response);
  c ← attr_of (content candidate);
  part ← item0 (parts c);
  attr_of (text part).

(** [response.candidates[0].content.parts], about to be iterated. *)
Definition first_parts (response : GenerateContentResponse) : res (list Part) :=
  candidate ← item0 (candidates response);
  c ← attr_of (content candidate);
  iter_of (parts c).

Section Pipeline.

Context {console : Console}.

(** [client.models.generate_content]: what the service answers to a
    request, or raises, given the requests it was sent before. *)
Variable generate_content :
  list request -> request -> res GenerateContentResponse.

(** [json.loads]. *)
Variable json_loads : str -> res json.

(** Whether the image library can decode a stream handed to
    [add_picture]. *)
Variable image_ok : bytes -> bool.

(** Whether a file of the given name can be written, given the files
    there are. *)
Variable can_save : gmap str presentation -> str -> bool.

Definition client_generate_content (r : request)
    : M GenerateContentResponse :=
  fun w => (generate_content (sent w) r, with_sent (sent w ++ [r]) w).

(** The body of the [try] in [generate_presentation_slide_text]. *)
Definition outline_attempt (outline_prompt : str) : M json :=
  outline_response ← client_generate_content
    {| model := TEXT_MODEL_NAME; contents := JStr outline_prompt;
       config := None |};
  json_text ← lift (clean_json_text <$> first_part_text outline_response);
  lift (json_loads json_text).

(** Python's [None] is [JNull]. *)
Definition generate_presentation_slide_text (topic : str) (num_slides : Z)
    : M json :=
  let outline_prompt := outline_prompt topic num_slides in
  print (LogGeneratingOutline topic);;
  try_except (outline_attempt outline_prompt)
    (fun e => print (LogOutlineFailed e);; mret JNull).

(** The [for part in ...: if ...: break  else: ...] loop. *)
Fixpoint scan_parts (images i : nat) (ps : list Part) : M unit :=
  match ps with
  | [] => images_setitem images i None
  | part :: ps' =>
      match inline_data part with
      | Some blob => images_setitem images i (data blob)
      | None => scan_parts images i ps'
      end
  end.

(** The body of the [try] in [generate_presentation_slide_images]. *)
Definition image_attempt (images i : nat) (image_prompt : json) : M unit :=
  response ← client_generate_content
    {| model := IMAGE_MODEL_NAME; contents := image_prompt;
       config := Some {| response_modalities := [lit "TEXT"; lit "IMAGE"] |} |};
  ps ← lift (first_parts response);
  scan_parts images i ps.

Definition image_for_slide (images : nat) (i : nat) (slide : json) : M unit :=
  image_prompt ← lift (getitem slide (lit "image_prompt"));
  slide_title ← lift (getitem slide (lit "slide_title"));
  print (LogProcessingSlide (i + 1) slide_title);;
  try_except (image_attempt images i image_prompt)
    (fun e => print (LogImageError (i + 1) e);;
              images_setitem images i None).

Definition generate_presentation_slide_images (outline : nat) : M nat :=
  images ← new_object (PyImages ∅);
  print LogGeneratingImages;;
  slides ← subscript outline (lit "slides");
  slides ← lift (py_iter slides);
  for_enumerate 0 slides (image_for_slide images);;
  mret images.

(** [slide.shapes.add_picture(BytesIO(blob), left, top, width=width)]:
    the height follows from the picture. *)
Definition add_picture (blob : bytes) (left top width : Z) (s : slide)
    : res slide :=
  if image_ok blob then Ok (add_shape (Picture left top width blob) s)
  else Raise UnidentifiedImageError.

(** [prs.save(output_filename)]. *)
Definition save (prs : presentation) (output_filename : str) : M unit :=
  fun w =>
    if can_save (files w) output_filename
    then (Ok tt, with_files (<[output_filename := prs]> (files w)) w)
    else (Raise OSError, w).

(** Part 1 of [create_presentation_file].  [slide.shapes.title] and
    [slide.placeholders[1]] are the two placeholders the title layout
    gives the slide; a text that is not a [str] is refused. *)
Definition title_slide (outline : nat) : M slide :=
  title ← subscript outline (lit "title");
  title ← lift (as_str title);
  title_frame ← lift (on_paragraph0 (set_p_font_color white)
                        (set_text title new_text_frame));
  let title_shape := Placeholder 0 title_frame (FillSolid (Some dark_blue)) in
  title ← subscript outline (lit "title");
  title ← lift (as_str title);
  let subtitle :=
    Placeholder 1
      (set_text (lit "AI-Generated Presentation: " ++ title) new_text_frame)
      FillInherited in
  mret {| layout := 0; shapes := [title_shape; subtitle] |}.

(** The [for point in slide_data['key_points']] loop. *)
Fixpoint add_points (points : list json) (frame : text_frame)
    : res text_frame :=
  match points with
  | [] => Ok frame
  | point :: points' =>
      point ← as_str point;
      add_points points'
        (add_paragraph
           (fun p => set_p_space_after (Pt 10)
                       (set_p_font_color dark_navy
                          (set_p_font_size (Pt 16)
                             (set_p_text (bullet_prefix ++ point) p))))
           frame)
  end.

(** One turn of the loop of part 2. *)
Definition content_slide (images : nat) (prs : presentation) (i : nat)
    (slide_data : json) : M slide :=
  let slide := clear_shapes (new_slide 1) in
  let rect :=
    AutoShape RECTANGLE
      {| left := Inches 0; top := Inches 0;
         width := slide_width prs; height := Inches 1 |}
      (FillSolid (Some dark_blue)) FillBackground in
  let slide := add_shape rect slide in
  slide_title ← lift (getitem slide_data (lit "slide_title"));
  slide_title ← lift (as_str slide_title);
  title_frame ← lift (on_paragraph0
                        (fun p => set_p_alignment CENTER
                                    (set_p_font_size (Pt 24)
                                       (set_p_font_color white
                                          (set_p_text slide_title p))))
                        new_text_frame);
  let title_textbox :=
    TextBox
      {| left := Inches 0; top := Inches 0;
         width := slide_width prs; height := Inches 1 |}
      (set_vertical_anchor MIDDLE title_frame) in
  let slide := add_shape title_textbox slide in
  key_points ← lift (getitem slide_data (lit "key_points"));
  key_points ← lift (py_iter key_points);
  body_frame ← lift (add_points key_points
                       (set_word_wrap true new_text_frame));
  let body_textbox :=
    TextBox
      {| left := Inches 0.5; top := Inches 1.5;
         width := Inches 4.5; height := Inches 5.0 |}
      body_frame in
  let slide := add_shape body_textbox slide in
  present ← images_contains images i;
  has_image ← (if present : bool
               then v ← images_getitem images i;
                    mret (bool_decide (is_Some v))
               else mret false);
  if has_image : bool
  then v ← images_getitem images i;
       match v with
       | Some blob =>
           lift (add_picture blob (Inches 5.5) (Inches 2.0) (Inches 4.0) slide)
       | None => raise UnidentifiedImageError
       end
  else mret slide.

Definition create_presentation_file (outline images : nat)
    (output_filename : str) : M unit :=
  let prs := Presentation in
  slide ← title_slide outline;
  let prs := add_slide slide prs in
  slides ← subscript outline (lit "slides");
  slides ← lift (py_iter slides);
  prs ← fold_enumerate 0 slides prs
          (fun i slide_data prs =>
             slide ← content_slide images prs i slide_data;
             mret (add_slide slide prs));
  save prs output_filename;;
  print (LogSaved output_filename).

(** The main block, for a topic and a number of slides.  The decoded
    outline becomes an object of the heap when it is bound, and the two
    functions get its address. *)
Definition pipeline (topic : str) (num_slides : Z) : M unit :=
  presentation_outline ← generate_presentation_slide_text topic num_slides;
  if py_truthy presentation_outline
  then outline ← new_object (PyJson presentation_outline);
       slide_images ← generate_presentation_slide_images outline;
       create_presentation_file outline slide_images
         (lit "AI_Presentation.pptx")
  else mret tt.


End Pipeline.

(** ** What the claims speak of *)

(** A value that is a dict with the given key. *)
Definition has_field (key : str) (v : json) : bool :=
  match v with
  | JObj d => bool_decide (is_Some (dict_get key d))
  | _ => false
  end.

(** The value under a key a dict is known to have ([None] otherwise). *)
Definition field (key : str) (v : json) : json :=
  match v with
  | JObj d => default JNull (dict_get key d)
  | _ => JNull
  end.

(** The request the image loop sends for a prompt. *)
Definition image_request (image_prompt : json) : request :=
  {| model := IMAGE_MODEL_NAME; contents := image_prompt;
     config := Some {| response_modalities := [lit "TEXT"; lit "IMAGE"] |} |}.

(** The data of the first part that carries inline data, if any part
    does. *)
Definition first_inline_data (ps : list Part) : option bytes :=
  match List.find (fun p => bool_decide (is_Some (inline_data p))) ps with
  | Some p => inline_data p ≫= data
  | None => None
  end.

Definition is_picture (sh : shape) : bool :=
  match sh with
  | Picture _ _ _ _ => true
  | _ => false
  end.


Definition has_picture (s : slide) : bool := existsb is_picture (shapes s).

(** A slide object as the data model has it: a string title and a list
    of string key points. *)
Definition is_str (v : json) : bool :=
  match v with
  | JStr _ => true
  | _ => false
  end.

Definition slide_spec_ok (v : json) : bool :=
  is_str (field (lit "slide_title") v)
  && has_field (lit "slide_title") v
  && has_field (lit "key_points") v
  && match field (lit "key_points") v with
     | JArr points => forallb is_str points
     | _ => false
     end.

(** A slide object the image loop can read: it has both fields the loop
    subscripts. *)
Definition slide_readable (v : json) : bool :=
  has_field (lit "image_prompt") v && has_field (lit "slide_title") v.

Definition image_prompts (slides : list json) : list json :=
  field (lit "image_prompt") <$> slides.

(** The console can encode what the image loop prints for the slides,
    the first of them slide [k]: the progress line of each, and its
    error line, whatever the error. *)
Definition image_lines_printable {console : Console} (k : nat) (slides : list json)
    : Prop :=
  forall (i : nat) (slide : json),
    slides !! i = Some slide ->
    encodes (LogProcessingSlide (k + i + 1)
               (field (lit "slide_title") slide)) = true
    /\ forall e : exn, encodes (LogImageError (k + i + 1) e) = true.

Section Oracle.

Variable generate_content :
  list request -> request -> res GenerateContentResponse.

(** What one turn of the image loop is to record: the first inline
    data of the answer, [None] when the call or the reading of its
    answer raises. *)
Definition recorded_image (history : list request) (image_prompt : json)
    : option bytes :=
  match generate_content history (image_request image_prompt) with
  | Ok response =>
      match first_parts response with
      | Ok ps => first_inline_data ps
      | Raise _ => None
      end
  | Raise _ => None
  end.

(** The turn for a prompt fails: the call raises, or its answer has no
    list of parts to scan. *)
Definition image_failure (history : list request) (image_prompt : json)
    : Prop :=
  match generate_content history (image_request image_prompt) with
  | Ok response =>
      match first_parts response with
      | Ok _ => False
      | Raise _ => True
      end
  | Raise _ => True
  end.

(** The dict after the turns for [prompts], the first of them slide
    [k]. *)
Fixpoint recorded_images (history : list request) (k : nat)
    (prompts : list json) (d : gmap nat (option bytes))
    : gmap nat (option bytes) :=
  match prompts with
  | [] => d
  | p :: prompts' =>
      recorded_images (history ++ [image_request p]) (S k) prompts'
        (<[k := recorded_image history p]> d)
  end.

End Oracle.

(** ** The document as a function of the two objects *)

Section Assemble.

Variable image_ok : bytes -> bool.

(** The title slide for an outline value. *)
Definition title_slide_of (o : json) : res slide :=
  title ← getitem o (lit "title");
  title ← as_str title;
  title_frame ← on_paragraph0 (set_p_font_color white)
                  (set_text title new_text_frame);
  Ok {| layout := 0;
        shapes :=
          [Placeholder 0 title_frame (FillSolid (Some dark_blue));
           Placeholder 1
             (set_text (lit "AI-Generated Presentation: " ++ title)
                new_text_frame)
             FillInherited] |}.

(** The content slide for a slide object and the image (or None, or
    nothing) the dict has for its index. *)
Definition content_slide_of (image : option (option bytes))
    (prs : presentation) (slide_data : json) : res slide :=
  slide_title ← getitem slide_data (lit "slide_title");
  slide_title ← as_str slide_title;
  title_frame ← on_paragraph0
                  (fun p => set_p_alignment CENTER
                              (set_p_font_size (Pt 24)
                                 (set_p_font_color white
                                    (set_p_text slide_title p))))
                  new_text_frame;
  key_points ← getitem slide_data (lit "key_points");
  key_points ← py_iter key_points;
  body_frame ← add_points key_points (set_word_wrap true new_text_frame);
  let slide :=
    {| layout := 1;
       shapes :=
         [AutoShape RECTANGLE
            {| left := Inches 0; top := Inches 0;
               width := slide_width prs; height := Inches 1 |}
            (FillSolid (Some dark_blue)) FillBackground;
          TextBox
            {| left := Inches 0; top := Inches 0;
               width := slide_width prs; height := Inches 1 |}
            (set_vertical_anchor MIDDLE title_frame);
          TextBox
            {| left := Inches 0.5; top := Inches 1.5;
               width := Inches 4.5; height := Inches 5.0 |}
            body_frame] |} in
  match image with
  | Some (Some blob) =>
      add_picture image_ok blob (Inches 5.5) (Inches 2.0) (Inches 4.0) slide
  | _ => Ok slide
  end.

Fixpoint content_slides_of (d : gmap nat (option bytes)) (i : nat)
    (slides : list json) (prs : presentation) : res presentation :=
  match slides with
  | [] => Ok prs
  | slide_data :: slides' =>
      slide ← content_slide_of (d !! i) prs slide_data;
      content_slides_of d (S i) slides' (add_slide slide prs)
  end.

Definition assemble (o : json) (d : gmap nat (option bytes))
    : res presentation :=
  slide ← title_slide_of o;
  slides ← getitem o (lit "slides");
  slides ← py_iter slides;
  content_slides_of d 0 slides (add_slide slide Presentation).

End Assemble.

(** ** The deck of a well-formed outline *)

Definition str_of (v : json) : str :=
  match v with
  | JStr s => s
  | _ => []
  end.

Definition key_points_of (slide_data : json) : list str :=
  match field (lit "key_points") slide_data with
  | JArr points => str_of <$> points
  | _ => []
  end.

(** The paragraph of one key point. *)
Definition bullet_paragraph (point : str) : paragraph :=
  {| p_text := bullet_prefix ++ point; p_font_color := Some dark_navy;
     p_font_size := Some (Pt 16); p_alignment := None;
     p_space_after := Some (Pt 10) |}.

Definition slide_title_paragraph (slide_title : str) : paragraph :=
  {| p_text := slide_title; p_font_color := Some white;
     p_font_size := Some (Pt 24); p_alignment := Some CENTER;
     p_space_after := None |}.

Definition header_box (slide_width : Z) : box :=
  {| left := 0; top := 0; width := slide_width; height := 914400 |}.

Definition body_box : box :=
  {| left := 457200; top := 1371600; width := 4114800; height := 4572000 |}.

(** Header band, title box, bullet box (the empty paragraph a new text
    box starts with, then one paragraph per key point) and, when there
    is an image, the picture. *)
Definition expected_content_slide (slide_width : Z) (slide_data : json)
    (image : option bytes) : slide :=
  {| layout := 1;
     shapes :=
       [AutoShape RECTANGLE (header_box slide_width)
          (FillSolid (Some dark_blue)) FillBackground;
        TextBox (header_box slide_width)
          {| paragraphs :=
               [slide_title_paragraph
                  (str_of (field (lit "slide_title") slide_data))];
             word_wrap := None; vertical_anchor := Some MIDDLE |};
        TextBox body_box
          {| paragraphs :=
               new_paragraph :: (bullet_paragraph <$> key_points_of slide_data);
             word_wrap := Some true; vertical_anchor := None |}]
       ++ match image with
          | Some blob => [Picture 5029200 1828800 3657600 blob]
          | None => []
          end |}.

Definition expected_title_slide (title : str) : slide :=
  {| layout := 0;
     shapes :=
       [Placeholder 0
          (set_paragraphs
             (match (fun line => set_p_text line new_paragraph)
                      <$> split_on 10%N title with
              | [] => []
              | p :: ps => set_p_font_color white p :: ps
              end)
             new_text_frame)
          (FillSolid (Some dark_blue));
        Placeholder 1
          (set_text (lit "AI-Generated Presentation: " ++ title) new_text_frame)
          FillInherited] |}.

Definition expected_content_slides (slide_width : Z)
    (d : gmap nat (option bytes)) (i : nat) (slides : list json) : list slide :=
  imap (fun j slide_data =>
          expected_content_slide slide_width slide_data
            (default None (d !! (i + j)))) slides.

Definition expected_presentation (title : str) (slides : list json)
    (d : gmap nat (option bytes)) : presentation :=
  {| slide_width := 9144000; slide_height := 6858000;
     slides := expected_title_slide title
               :: expected_content_slides 9144000 d 0 slides |}.

(** Every image the dict has for a slide of the outline can be decoded. *)
Definition images_decodable (image_ok : bytes -> bool)
    (d : gmap nat (option bytes)) (n : nat) : bool :=
  forallb (fun i => match d !! i with
                    | Some (Some blob) => image_ok blob
                    | _ => true
                    end) (seq 0 n).

(** A statement that leaves the heap as it found it, whether it returns
    or raises. *)
Definition heap_stable {A : Type} (m : M A) : Prop :=
  forall w : world, heap (snd (m w)) = heap w.

(** ** The assembled deck *)






(** ** Outline generation *)

(** The request [generate_presentation_slide_text] sends. *)
Definition outline_request (topic : str) (num_slides : Z) : request :=
  {| model := TEXT_MODEL_NAME;
     contents := JStr (outline_prompt topic num_slides);
     config := None |}.

(** The code-fence marker, three backticks. *)
Definition fence : str := lit "```".

(** A text between two fence markers, the opening one followed by the
    language tag or not. *)
Definition fenced (tagged : bool) (body : str) : str :=
  fence ++ (if tagged then lit "json" else []) ++ body ++ fence.

(** The white space of JSON: space, tab, line feed, carriage return. *)
Definition json_ws (c : N) : bool :=
  (c =? 32)%N || (c =? 9)%N || (c =? 10)%N || (c =? 13)%N.

Section OutlineFailure.

Variable generate_content :
  list request -> request -> res GenerateContentResponse.
Variable json_loads : str -> res json.


End OutlineFailure.

(** ** Stripped texts *)

(** Neither end of the text is in the set that is stripped. *)
Definition bounded (p : N -> bool) (s : str) : Prop :=
  match s with [] => True | c :: _ => p c = false end
  /\ match rev s with [] => True | c :: _ => p c = false end.

(** A set that holds no JSON white space and no brace. *)
Definition keeps_json (p : N -> bool) : Prop :=
  (forall c : N, json_ws c = true -> p c = false)
  /\ p 123%N = false /\ p 125%N = false.

(** ** A JSON decoder *)

Definition skip_ws (s : str) : str := lstrip_by json_ws s.

Definition is_digit (c : N) : bool := ((48 <=? c) && (c <=? 57))%N.

Definition hex_value (c : N) : option N :=
  if is_digit c then Some (c - 48)%N
  else if ((97 <=? c) && (c <=? 102))%N then Some (c - 87)%N
  else if ((65 <=? c) && (c <=? 70))%N then Some (c - 55)%N
  else None.

Definition hex4 (a b c d : N) : option N :=
  a ← hex_value a; b ← hex_value b; c ← hex_value c; d ← hex_value d;
  Some (((a * 16 + b) * 16 + c) * 16 + d)%N.

(** The character a one-letter escape stands for. *)
Definition unescape (e : N) : option N :=
  if (e =? 34)%N then Some 34%N
  else if (e =? 92)%N then Some 92%N
  else if (e =? 47)%N then Some 47%N
  else if (e =? 98)%N then Some 8%N
  else if (e =? 102)%N then Some 12%N
  else if (e =? 110)%N then Some 10%N
  else if (e =? 114)%N then Some 13%N
  else if (e =? 116)%N then Some 9%N
  else None.

Definition prepend {A B : Type} (a : A) (x : option (list A * B))
    : option (list A * B) :=
  match x with
  | Some (l, b) => Some (a :: l, b)
  | None => None
  end.

(** The text of a string after its opening quote, up to the closing
    one: the code points it denotes, each marked as written by a
    [\u] escape or not, and what follows the closing quote. *)
Fixpoint scan_string (s : str) : option (list (bool * N) * str) :=
  match s with
  | [] => None
  | c :: s1 =>
      if (c =? 34)%N then Some ([], s1)
      else if (c =? 92)%N then
        match s1 with
        | [] => None
        | e :: s2 =>
            if (e =? 117)%N then
              match s2 with
              | h1 :: h2 :: h3 :: h4 :: s3 =>
                  match hex4 h1 h2 h3 h4 with
                  | Some u => prepend (true, u) (scan_string s3)
                  | None => None
                  end
              | _ => None
              end
            else
              match unescape e with
              | Some x => prepend (false, x) (scan_string s2)
              | None => None
              end
        end
      else if (c <? 32)%N then None
      else prepend (false, c) (scan_string s1)
  end.

(** Two escapes in a row that are a high and a low surrogate denote one
    code point. *)
Fixpoint join_surrogates (units : list (bool * N)) : str :=
  match units with
  | [] => []
  | (escaped, u) :: rest =>
      match rest with
      | (true, v) :: rest' =>
          if escaped && (55296 <=? u)%N && (u <=? 56319)%N
             && (56320 <=? v)%N && (v <=? 57343)%N
          then (65536 + (u - 55296) * 1024 + (v - 56320))%N :: join_surrogates rest'
          else u :: join_surrogates rest
      | _ => u :: join_surrogates rest
      end
  end.

Fixpoint span_digits (s : str) : str * str :=
  match s with
  | [] => ([], [])
  | c :: s' =>
      if is_digit c
      then let (d, r) := span_digits s' in (c :: d, r)
      else ([], s)
  end.

Definition digits_value (d : str) : Z :=
  fold_left (fun acc c => acc * 10 + Z.of_N (c - 48))%Z d 0%Z.

(** The integer part: a zero, or a digit that is not zero and the digits after it. *)
Definition scan_int (s : str) : option (str * str) :=
  match s with
  | [] => None
  | c :: s' =>
      if (c =? 48)%N then Some ([c], s')
      else if is_digit c then let (d, r) := span_digits s' in Some (c :: d, r)
      else None
  end.

(** The fraction, if there is one: a point and at least one digit. *)
Definition scan_frac (s : str) : str * str :=
  match s with
  | [] => ([], [])
  | c :: s' =>
      if (c =? 46)%N
      then let (d, r) := span_digits s' in
           match d with
           | [] => ([], s)
           | _ => (d, r)
           end
      else ([], s)
  end.

Definition scan_sign (s : str) : bool * str :=
  match s with
  | [] => (false, [])
  | c :: s' =>
      if (c =? 45)%N then (true, s')
      else if (c =? 43)%N then (false, s')
      else (false, s)
  end.

(** The exponent, if there is one: e or E, a sign or none, digits. *)
Definition scan_exp (s : str) : option Z * str :=
  match s with
  | [] => (None, [])
  | c :: s' =>
      if ((c =? 101) || (c =? 69))%N
      then let (negative, s'') := scan_sign s' in
           let (d, r) := span_digits s'' in
           match d with
           | [] => (None, s)
           | _ =>
               (Some (if negative then - digits_value d else digits_value d)%Z, r)
           end
      else (None, s)
  end.

Definition scan_minus (s : str) : bool * str :=
  match s with
  | [] => (false, [])
  | c :: s' => if (c =? 45)%N then (true, s') else (false, s)
  end.

Definition scan_number (s : str) : option (json * str) :=
  let (negative, s1) := scan_minus s in
  match scan_int s1 with
  | None => None
  | Some (i, s2) =>
      let (f, s3) := scan_frac s2 in
      let (e, s4) := scan_exp s3 in
      let signed (z : Z) : Z := if negative then (- z)%Z else z in
      match f, e with
      | [], None => Some (JInt (signed (digits_value i)), s4)
      | _, _ =>
          Some (JFloat (Decimal (signed (digits_value (i ++ f)))
                          (default 0%Z e - Z.of_nat (length f))), s4)
      end
  end.

Fixpoint strip_prefix (p s : str) : option str :=
  match p, s with
  | [], _ => Some s
  | a :: p', b :: s' => if (a =? b)%N then strip_prefix p' s' else None
  | _ :: _, [] => None
  end.

(** The constants, then a number. *)
Definition scan_constant (s : str) : option (json * str) :=
  match strip_prefix (lit "null") s with
  | Some r => Some (JNull, r)
  | None =>
  match strip_prefix (lit "true") s with
  | Some r => Some (JBool true, r)
  | None =>
  match strip_prefix (lit "false") s with
  | Some r => Some (JBool false, r)
  | None =>
  match scan_number s with
  | Some x => Some x
  | None =>
  match strip_prefix (lit "NaN") s with
  | Some r => Some (JFloat NaN, r)
  | None =>
  match strip_prefix (lit "Infinity") s with
  | Some r => Some (JFloat (Infinity false), r)
  | None =>
  match strip_prefix (lit "-Infinity") s with
  | Some r => Some (JFloat (Infinity true), r)
  | None => None
  end end end end end end end.

(** [d[k] = v] on a dict as a list of items. *)
Fixpoint dict_set (k : str) (v : json) (d : list (str * json))
    : list (str * json) :=
  match d with
  | [] => [(k, v)]
  | (k', v') :: d' =>
      if decide (k = k') then (k, v) :: d' else (k', v') :: dict_set k v d'
  end.

(** [dict(pairs)]. *)
Definition dict_of (pairs : list (str * json)) : list (str * json) :=
  fold_left (fun d kv => dict_set (fst kv) (snd kv) d) pairs [].

Fixpoint parse_value (fuel : nat) (s : str) : option (json * str) :=
  match fuel with
  | 0 => None
  | S fuel =>
      match s with
      | [] => None
      | c :: s1 =>
          if (c =? 34)%N then
            match scan_string s1 with
            | Some (units, r) => Some (JStr (join_surrogates units), r)
            | None => None
            end
          else if (c =? 123)%N then
            match skip_ws s1 with
            | c' :: r =>
                if (c' =? 125)%N then Some (JObj [], r)
                else match parse_members fuel (c' :: r) with
                     | Some (pairs, r') => Some (JObj (dict_of pairs), r')
                     | None => None
                     end
            | [] => None
            end
          else if (c =? 91)%N then
            match skip_ws s1 with
            | c' :: r =>
                if (c' =? 93)%N then Some (JArr [], r)
                else match parse_elements fuel (c' :: r) with
                     | Some (items, r') => Some (JArr items, r')
                     | None => None
                     end
            | [] => None
            end
          else scan_constant s
      end
  end
with parse_elements (fuel : nat) (s : str) : option (list json * str) :=
  match fuel with
  | 0 => None
  | S fuel =>
      match parse_value fuel s with
      | None => None
      | Some (v, r) =>
          match skip_ws r with
          | c :: r' =>
              if (c =? 93)%N then Some ([v], r')
              else if (c =? 44)%N then
                prepend v (parse_elements fuel (skip_ws r'))
              else None
          | [] => None
          end
      end
  end
with parse_members (fuel : nat) (s : str) : option (list (str * json) * str) :=
  match fuel with
  | 0 => None
  | S fuel =>
      match s with
      | [] => None
      | q :: s1 =>
          if (q =? 34)%N then
            match scan_string s1 with
            | None => None
            | Some (units, r1) =>
                match skip_ws r1 with
                | c :: r2 =>
                    if (c =? 58)%N then
                      match parse_value fuel (skip_ws r2) with
                      | None => None
                      | Some (v, r3) =>
                          match skip_ws r3 with
                          | c' :: r4 =>
                              if (c' =? 125)%N
                              then Some ([(join_surrogates units, v)], r4)
                              else if (c' =? 44)%N then
                                prepend (join_surrogates units, v)
                                  (parse_members fuel (skip_ws r4))
                              else None
                          | [] => None
                          end
                      end
                    else None
                | [] => None
                end
            end
          else None
      end
  end.

(** The number of code points of a text that are not JSON white space. *)
Definition significant (s : str) : nat :=
  length (List.filter (fun c => negb (json_ws c)) s).

(** Fuel for the decoder: no value nests deeper than this (see
    [decoder_fuel_enough]). *)
Definition decoder_fuel (s : str) : nat := 2 * significant s + 2.

Definition decode (s : str) : res json :=
  match parse_value (decoder_fuel s) (skip_ws s) with
  | Some (v, r) =>
      match skip_ws r with
      | [] => Ok v
      | _ => Raise JSONDecodeError
      end
  | None => Raise JSONDecodeError
  end.


(** No digit follows the sign, if any, a text starts with. *)
Definition no_exp_digits (s : str) : Prop :=
  fst (span_digits (snd (scan_sign s))) = [].

(** [F] reads the prefix [c] of [s] and nothing of what follows it: cut
    short after [c], the text gives the same result. *)
Definition reads {A : Type} (F : str -> option (A * str)) (s : str) (a : A)
    (r c : str) : Prop :=
  c <> [] /\ s = c ++ r
  /\ forall t w : str, r = t ++ w -> F (c ++ t) = Some (a, t).

(** ** Scenarios *)

(** A service that is down, a decoder that rejects everything, an image
    library that decodes everything and a disk that takes every file. *)
Definition service_down (history : list request) (r : request)
    : res GenerateContentResponse :=
  Raise (ServiceError 503).
Definition no_decoder (s : str) : res json := Raise JSONDecodeError.
Definition every_image (blob : bytes) : bool := true.

(** A console that encodes every line, one that cannot encode the text
    of the errors of the image loop, and a UTF-8 console: it encodes
    every string but one with a surrogate code point. *)
Definition every_line : Console := fun _ => true.

Definition no_error_lines : Console := fun l =>
  match l with
  | LogImageError _ _ => false
  | _ => true
  end.

Definition no_surrogate (s : str) : bool :=
  forallb (fun c => (c <? 55296)%N || (57343 <? c)%N) s.

Definition utf8_console : Console := fun l =>
  match l with
  | LogGeneratingOutline topic => no_surrogate topic
  | LogProcessingSlide _ (JStr slide_title) => no_surrogate slide_title
  | LogSaved output_filename => no_surrogate output_filename
  | _ => true
  end.
Definition every_file (files : gmap str presentation) (name : str) : bool := true.

Definition png : bytes := [Byte.x89; Byte.x50; Byte.x4e; Byte.x47].

(** A service that answers every request with a text part followed by a
    part that carries an image. *)
Definition text_then_image : list Part :=
  [{| text := Some (lit "Here is the image."); inline_data := None |};
   {| text := None;
      inline_data := Some {| data := Some png;
                             mime_type := Some (lit "image/png") |} |}].

Definition image_response : GenerateContentResponse :=
  {| candidates := Some [{| content := Some {| parts := Some text_then_image |} |}] |}.

Definition service_up (history : list request) (r : request)
    : res GenerateContentResponse :=
  Ok image_response.

Definition sample_slide (slide_title : string) : json :=
  JObj [(lit "slide_title", JStr (lit slide_title));
        (lit "key_points",
         JArr [JStr (lit "first"); JStr (lit "second"); JStr (lit "third")]);
        (lit "image_prompt", JStr (lit "a picture"))].

Definition two_slides : list json := [sample_slide "One"; sample_slide "Two"].

Definition two_slide_outline : json :=
  JObj [(lit "title", JStr (lit "Deck")); (lit "slides", JArr two_slides)].

(** A slide object with a prompt and no title. *)
Definition untitled_slide : json :=
  JObj [(lit "image_prompt", JStr (lit "a picture"))].

Definition untitled_outline : json :=
  JObj [(lit "title", JStr (lit "Deck")); (lit "slides", JArr [untitled_slide])].

Definition second_untitled_outline : json :=
  JObj [(lit "title", JStr (lit "Deck"));
        (lit "slides", JArr [sample_slide "One"; untitled_slide])].

Definition five_slides : list json :=
  [sample_slide "One"; sample_slide "Two"; sample_slide "Three";
   sample_slide "Four"; sample_slide "Five"].

Definition five_slide_outline : json :=
  JObj [(lit "title", JStr (lit "Deck")); (lit "slides", JArr five_slides)].

Definition five_images : gmap nat (option bytes) :=
  <[0 := Some png]> (<[1 := Some png]> (<[2 := None]>
    (<[3 := Some png]> (<[4 := Some png]> ∅)))).

(** A world whose heap holds an outline at address 0 and a dict of
    images at address 1. *)
Definition world_of (o : json) (d : gmap nat (option bytes)) : world :=
  {| heap := <[0 := PyJson o]> (<[1 := PyImages d]> ∅);
     sent := []; stdout := []; files := ∅ |}.

Definition empty_world : world :=
  {| heap := ∅; sent := []; stdout := []; files := ∅ |}.

(** The text of an outline of one slide, between two line feeds, and
    the outline it decodes to. *)
Definition one_slide_text : str :=
  [10%N] ++ lit "{" ++ quoted (lit "title") ++ lit ": " ++ quoted (lit "Deck")
  ++ lit ", " ++ quoted (lit "slides") ++ lit ": [{"
  ++ quoted (lit "slide_title") ++ lit ": " ++ quoted (lit "One") ++ lit ", "
  ++ quoted (lit "key_points") ++ lit ": [" ++ quoted (lit "first") ++ lit ", "
  ++ quoted (lit "second") ++ lit ", " ++ quoted (lit "third") ++ lit "], "
  ++ quoted (lit "image_prompt") ++ lit ": " ++ quoted (lit "a picture")
  ++ lit "}]}" ++ [10%N].

Definition one_slide_items : list (str * json) :=
  [(lit "title", JStr (lit "Deck"));
   (lit "slides", JArr [sample_slide "One"])].

(** A service that answers with that text in a tagged fence. *)
Definition fenced_response : GenerateContentResponse :=
  {| candidates :=
       Some [{| content :=
                  Some {| parts :=
                            Some [{| text := Some (fenced true one_slide_text);
                                     inline_data := None |}] |} |}] |}.

Definition service_fenced (history : list request) (r : request)
    : res GenerateContentResponse :=
  Ok fenced_response.

(** ** What more the code shows *)

(** A statement that leaves the world as it found it, whether it
    returns or raises. *)
Definition quiet {A : Type} (m : M A) : Prop :=
  forall w : world, snd (m w) = w.

(** A statement that writes no file and changes no object of the heap
    but the one at [l]. *)
Definition touches_only (l : nat) {A : Type} (m : M A) : Prop :=
  forall w : world,
    files (snd (m w)) = files w
    /\ forall l' : nat, l' <> l -> heap (snd (m w)) !! l' = heap w !! l'.

(** An outline that has a title and no slides. *)
Definition outline_without_slides : json :=
  JObj [(lit "title", JStr (lit "Deck"))].

(** An image library that decodes the streams that start like a PNG
    file and no other. *)
Definition png_only (blob : bytes) : bool :=
  match blob with
  | Byte.x89 :: _ => true
  | _ => false
  end.

Definition not_an_image : bytes := [Byte.x00; Byte.x01].

(** A slide object with a title and no key points. *)
Definition pointless_slide : json :=
  JObj [(lit "slide_title", JStr (lit "Two"));
        (lit "image_prompt", JStr (lit "a picture"))].

Definition pointless_outline : json :=
  JObj [(lit "title", JStr (lit "Deck"));
        (lit "slides", JArr [sample_slide "One"; pointless_slide])].

(** A response whose one part is a text. *)
Definition text_response (t : str) : GenerateContentResponse :=
  {| candidates :=
       Some [{| content :=
                  Some {| parts :=
                            Some [{| text := Some t;
                                     inline_data := None |}] |} |}] |}.

(** A service that answers the outline request, the one without a
    config, with a text, and every image request with an image. *)
Definition outline_then_images (t : str) (history : list request)
    (r : request) : res GenerateContentResponse :=
  match config r with
  | None => Ok (text_response t)
  | Some _ => Ok image_response
  end.

(** A service that answers the outline request and has no quota left
    for images. *)
Definition outline_only (t : str) (history : list request) (r : request)
    : res GenerateContentResponse :=
  match config r with
  | None => Ok (text_response t)
  | Some _ => Raise (ServiceError 429)
  end.

(** An image library that decodes nothing and a disk that takes no
    file. *)
Definition no_image (blob : bytes) : bool := false.
Definition read_only_disk (files : gmap str presentation) (name : str)
    : bool := false.

(** A world whose heap holds an outline at address 0 and two dicts of
    images, at addresses 1 and 2. *)
Definition world_of_two (o : json) (d1 d2 : gmap nat (option bytes)) : world :=
  {| heap := <[0 := PyJson o]> (<[1 := PyImages d1]> (<[2 := PyImages d2]> ∅));
     sent := []; stdout := []; files := ∅ |}.

(** The lines the image loop prints. *)
Definition is_progress_line (l : log_line) : bool :=
  match l with
  | LogProcessingSlide _ _ => true
  | _ => false
  end.

(** What the loop prints for the slides from index [k] on: for each
    slide its progress line, and the error line when the [except]
    clause is entered. *)
Fixpoint image_log
    (generate_content : list request -> request -> res GenerateContentResponse)
    (history : list request) (k : nat) (slides : list json) : list log_line :=
  match slides with
  | [] => []
  | slide :: slides' =>
      let image_prompt := field (lit "image_prompt") slide in
      (LogProcessingSlide (k + 1) (field (lit "slide_title") slide)
       :: match generate_content history (image_request image_prompt) with
          | Ok response =>
              match first_parts response with
              | Ok _ => []
              | Raise e => [LogImageError (k + 1) e]
              end
          | Raise e => [LogImageError (k + 1) e]
          end)
      ++ image_log generate_content (history ++ [image_request image_prompt])
           (S k) slides'
  end.


(** A slide whose title is a lone surrogate, as [json.loads] reads it
    from an escape without its pair, and an outline that has it as its
    second slide. *)
Definition surrogate_slide : json :=
  JObj [(lit "slide_title", JStr [55357%N]);
        (lit "key_points", JArr [JStr (lit "first")]);
        (lit "image_prompt", JStr (lit "a picture"))].

Definition surrogate_outline : json :=
  JObj [(lit "title", JStr (lit "Deck"));
        (lit "slides", JArr [sample_slide "One"; surrogate_slide])].

(** * Proofs *)

(** ** Running statements *)

Lemma run_bind {A B : Type} (m : M A) (f : A -> M B) (w : world) :
  (m ≫= f) w =
  match m w with
  | (Ok a, w') => f a w'
  | (Raise e, w') => (Raise e, w')
  end.
Proof. reflexivity. Qed.

Lemma print_run `{Console} (l : log_line) (w : world) :
  printable l = true ->
  print l w = (Ok tt, with_stdout (stdout w ++ [l]) w).
Proof. intros Hl. unfold print. now rewrite Hl. Qed.

Lemma print_fails `{Console} (l : log_line) (w : world) :
  printable l = false -> print l w = (Raise UnicodeEncodeError, w).
Proof. intros Hl. unfold print. now rewrite Hl. Qed.

Lemma image_lines_printable_cons `{Console} (k : nat) (slide : json)
    (slides : list json) :
  image_lines_printable k (slide :: slides) ->
  (encodes (LogProcessingSlide (k + 1) (field (lit "slide_title") slide))
   = true
   /\ forall e : exn, encodes (LogImageError (k + 1) e) = true)
  /\ image_lines_printable (S k) slides.
Proof.
  intros Hlines. split.
  - specialize (Hlines 0 slide eq_refl). now rewrite Nat.add_0_r in Hlines.
  - intros i x Hx. specialize (Hlines (S i) x Hx).
    now replace (S k + i + 1) with (k + S i + 1) by lia.
Qed.

Lemma run_try_except {A : Type} (body : M A) (handler : exn -> M A) (w : world) :
  try_except body handler w =
  match body w with
  | (Ok a, w') => (Ok a, w')
  | (Raise e, w') => handler e w'
  end.
Proof. reflexivity. Qed.

Lemma images_setitem_run (images i : nat) (v : option bytes)
    (d : gmap nat (option bytes)) (w : world) :
  heap w !! images = Some (PyImages d) ->
  images_setitem images i v w =
  (Ok tt, with_heap (<[images := PyImages (<[i := v]> d)]> (heap w)) w).
Proof.
  intros Hd. unfold images_setitem. rewrite run_bind.
  unfold load_images. rewrite Hd. reflexivity.
Qed.

Lemma scan_parts_run (images i : nat) (ps : list Part)
    (d : gmap nat (option bytes)) (w : world) :
  heap w !! images = Some (PyImages d) ->
  scan_parts images i ps w =
  (Ok tt,
   with_heap (<[images := PyImages (<[i := first_inline_data ps]> d)]> (heap w)) w).
Proof.
  intros Hd. induction ps as [|part ps IH].
  - simpl. now apply images_setitem_run.
  - simpl. unfold first_inline_data. simpl.
    destruct (inline_data part) as [blob|] eqn:Hpart.
    + rewrite bool_decide_true by eauto. rewrite Hpart. simpl.
      now apply images_setitem_run.
    + rewrite bool_decide_false by (intros [? ?]; discriminate).
      exact IH.
Qed.

Lemma has_field_getitem (key : str) (v : json) :
  has_field key v = true -> getitem v key = Ok (field key v).
Proof.
  destruct v; simpl; try discriminate.
  intros H. apply bool_decide_eq_true in H. destruct H as [x Hx].
  now rewrite Hx.
Qed.

Lemma no_field_getitem (key : str) (d : list (str * json)) :
  dict_get key d = None -> getitem (JObj d) key = Raise (KeyError (JStr key)).
Proof. intros H. simpl. now rewrite H. Qed.

Section ImageLoop.

Context {console : Console}.
Variable generate_content :
  list request -> request -> res GenerateContentResponse.


(** One turn on a slide that has both fields: it returns, having sent
    one request and stored one value. *)
Lemma image_for_slide_run (images i : nat) (slide : json)
    (d : gmap nat (option bytes)) (w : world) :
  heap w !! images = Some (PyImages d) ->
  has_field (lit "image_prompt") slide = true ->
  has_field (lit "slide_title") slide = true ->
  encodes (LogProcessingSlide (i + 1) (field (lit "slide_title") slide))
    = true ->
  (forall e : exn, encodes (LogImageError (i + 1) e) = true) ->
  exists out,
    image_for_slide generate_content images i slide w =
    (Ok tt,
     {| heap := <[images := PyImages
                   (<[i := recorded_image generate_content (sent w)
                             (field (lit "image_prompt") slide)]> d)]> (heap w);
        sent := sent w ++ [image_request (field (lit "image_prompt") slide)];
        stdout := stdout w ++ out;
        files := files w |}).
Proof.
  intros Hd Hp Ht Hline Herr. unfold image_for_slide.
  rewrite run_bind. unfold lift at 1.
  rewrite (has_field_getitem _ _ Hp).
  rewrite run_bind. unfold lift at 1.
  rewrite (has_field_getitem _ _ Ht).
  rewrite run_bind, print_run by exact Hline.
  rewrite run_try_except. unfold image_attempt.
  rewrite run_bind. unfold client_generate_content. cbn [sent with_stdout].
  unfold recorded_image. fold (image_request (field (lit "image_prompt") slide)).
  destruct (generate_content (sent w) (image_request (field (lit "image_prompt") slide)))
    as [response|e].
  - rewrite run_bind. unfold lift at 1.
    destruct (first_parts response) as [ps|e].
    + rewrite (scan_parts_run _ _ _ d) by exact Hd.
      eexists. reflexivity.
    + rewrite run_bind, print_run by exact (Herr e).
      rewrite (images_setitem_run _ _ _ d) by exact Hd.
      eexists. unfold with_heap, with_stdout, with_sent. cbn.
      rewrite <- app_assoc. reflexivity.
  - rewrite run_bind, print_run by exact (Herr e).
    rewrite (images_setitem_run _ _ _ d) by exact Hd.
    eexists. unfold with_heap, with_stdout, with_sent. cbn.
    rewrite <- app_assoc. reflexivity.
Qed.

Lemma image_loop_run (images : nat) (slides : list json) :
  forall (k : nat) (d : gmap nat (option bytes)) (w : world),
  heap w !! images = Some (PyImages d) ->
  forallb slide_readable slides = true ->
  image_lines_printable k slides ->
  exists out,
    for_enumerate k slides (image_for_slide generate_content images) w =
    (Ok tt,
     {| heap := <[images := PyImages
                   (recorded_images generate_content (sent w) k (image_prompts slides) d)]>
                  (heap w);
        sent := sent w ++ (image_request <$> image_prompts slides);
        stdout := stdout w ++ out;
        files := files w |}).
Proof.
  induction slides as [|slide slides IH]; intros k d w Hd Hall Hlines.
  - exists []. simpl. rewrite !app_nil_r.
    rewrite insert_id by exact Hd. now destruct w.
  - simpl in Hall. apply andb_true_iff in Hall as [Hslide Hall].
    apply andb_true_iff in Hslide as [Hp Ht].
    apply image_lines_printable_cons in Hlines as [[Hline Herr] Hlines].
    destruct (image_for_slide_run images k slide d w Hd Hp Ht Hline Herr)
      as [out1 Hrun].
    cbn [for_enumerate]. rewrite run_bind, Hrun.
    match goal with |- context [for_enumerate _ _ _ ?w1] =>
      destruct (IH (S k) (<[k := recorded_image generate_content (sent w)
                                   (field (lit "image_prompt") slide)]> d) w1)
        as [out2 Hrest]; [apply lookup_insert_eq | exact Hall | exact Hlines |]
    end.
    rewrite Hrest. exists (out1 ++ out2). cbn.
    rewrite insert_insert_eq, <- !app_assoc. reflexivity.
Qed.

Lemma generate_presentation_slide_images_run (outline : nat) (o : json)
    (slides : list json) (w : world) :
  heap w !! outline = Some (PyJson o) ->
  getitem o (lit "slides") = Ok (JArr slides) ->
  forallb slide_readable slides = true ->
  image_lines_printable 0 slides ->
  exists out,
    generate_presentation_slide_images generate_content outline w =
    (Ok (fresh (dom (heap w))),
     {| heap := <[fresh (dom (heap w)) := PyImages
                   (recorded_images generate_content (sent w) 0 (image_prompts slides) ∅)]>
                  (heap w);
        sent := sent w ++ (image_request <$> image_prompts slides);
        stdout := stdout w ++ out;
        files := files w |}).
Proof.
  intros Ho Hslides Hall Hlines. unfold generate_presentation_slide_images.
  assert (Hne : fresh (dom (heap w)) ≠ outline).
  { intros Heq. apply (is_fresh (dom (heap w))). rewrite Heq.
    apply elem_of_dom. eauto. }
  set (images := fresh (dom (heap w))) in *.
  rewrite run_bind. unfold new_object at 1. fold images.
  rewrite run_bind, print_run by reflexivity.
  rewrite run_bind. unfold subscript. rewrite run_bind.
  unfold load_json at 1. cbn [heap with_heap with_stdout].
  rewrite lookup_insert_ne by exact Hne. rewrite Ho.
  unfold lift at 1. rewrite Hslides.
  rewrite run_bind. unfold lift at 1. cbn [py_iter].
  rewrite run_bind.
  match goal with |- context [for_enumerate _ _ _ ?w1] =>
    destruct (image_loop_run images slides 0 ∅ w1) as [out Hloop];
      [apply lookup_insert_eq | exact Hall | exact Hlines |]
  end.
  rewrite Hloop. exists (LogGeneratingImages :: out). cbn.
  rewrite insert_insert_eq, <- app_assoc. reflexivity.
Qed.

End ImageLoop.

(** ** The dict the image loop builds *)

Section RecordedImages.

Variable generate_content :
  list request -> request -> res GenerateContentResponse.


Lemma recorded_images_lookup_lt (prompts : list json) :
  forall (history : list request) (k : nat) (d : gmap nat (option bytes))
         (j : nat),
  j < k ->
  recorded_images generate_content history k prompts d !! j = d !! j.
Proof.
  induction prompts as [|p prompts IH]; intros history k d j Hj; simpl.
  - reflexivity.
  - rewrite IH by lia. apply lookup_insert_ne. lia.
Qed.

Lemma recorded_images_lookup (prompts : list json) :
  forall (history : list request) (k : nat) (d : gmap nat (option bytes))
         (j : nat) (p : json),
  prompts !! j = Some p ->
  recorded_images generate_content history k prompts d !! (k + j) =
  Some (recorded_image generate_content (history ++ (image_request <$> take j prompts)) p).
Proof.
  induction prompts as [|q prompts IH]; intros history k d j p Hj.
  - discriminate.
  - destruct j as [|j]; simpl in Hj |- *.
    + injection Hj as ->. rewrite Nat.add_0_r, app_nil_r.
      rewrite recorded_images_lookup_lt by lia.
      apply lookup_insert_eq.
    + replace (k + S j) with (S k + j) by lia.
      rewrite (IH _ _ _ _ _ Hj). now rewrite <- app_assoc.
Qed.

Lemma recorded_images_lookup_ge (prompts : list json) :
  forall (history : list request) (k : nat) (d : gmap nat (option bytes))
         (j : nat),
  k + length prompts <= j ->
  recorded_images generate_content history k prompts d !! j = d !! j.
Proof.
  induction prompts as [|p prompts IH]; intros history k d j Hj; simpl in *.
  - reflexivity.
  - rewrite IH by lia. apply lookup_insert_ne. lia.
Qed.

(** The dict built from the empty one has exactly the indices of the
    prompts as keys. *)
Lemma recorded_images_keys (history : list request) (prompts : list json)
    (i : nat) :
  is_Some (recorded_images generate_content history 0 prompts ∅ !! i) <-> i < length prompts.
Proof.
  split.
  - intros Hsome. destruct (Nat.lt_ge_cases i (length prompts)) as [|Hge]; [assumption|].
    rewrite recorded_images_lookup_ge in Hsome by (simpl; lia).
    rewrite lookup_empty in Hsome. now destruct Hsome.
  - intros Hlt. destruct (lookup_lt_is_Some_2 prompts i Hlt) as [p Hp].
    rewrite <- (Nat.add_0_l i) at 1.
    rewrite (recorded_images_lookup _ _ _ _ _ _ Hp). eauto.
Qed.

End RecordedImages.

Lemma for_enumerate_app {A : Type} (l1 l2 : list A) (body : nat -> A -> M unit) :
  forall (k : nat) (w : world),
  for_enumerate k (l1 ++ l2) body w =
  (for_enumerate k l1 body ;; for_enumerate (k + length l1) l2 body) w.
Proof.
  induction l1 as [|x l1 IH]; intros k w.
  - simpl. rewrite run_bind. simpl. now rewrite Nat.add_0_r.
  - simpl. rewrite !run_bind. destruct (body k x w) as [[[]|e] w1]; [|reflexivity].
    rewrite IH, run_bind. now replace (k + S (length l1)) with (S k + length l1) by lia.
Qed.

Lemma first_inline_data_found (pre : list Part) (part : Part) (blob : Blob)
    (post : list Part) :
  Forall (fun q => inline_data q = None) pre ->
  inline_data part = Some blob ->
  first_inline_data (pre ++ part :: post) = data blob.
Proof.
  intros Hpre Hpart. unfold first_inline_data.
  induction Hpre as [|q pre Hq _ IH]; simpl.
  - rewrite bool_decide_true by eauto. now rewrite Hpart.
  - rewrite bool_decide_false by (rewrite Hq; intros [? ?]; discriminate).
    exact IH.
Qed.

Lemma first_inline_data_none (ps : list Part) :
  Forall (fun q => inline_data q = None) ps ->
  first_inline_data ps = None.
Proof.
  intros Hps. unfold first_inline_data.
  induction Hps as [|q ps Hq _ IH]; simpl.
  - reflexivity.
  - rewrite bool_decide_false by (rewrite Hq; intros [? ?]; discriminate).
    exact IH.
Qed.

Section ImageClaims.

Context {console : Console}.
Variable generate_content :
  list request -> request -> res GenerateContentResponse.


(** C1 (amended).  For every outline whose 'slides' field is a list of
    N slide objects, each carrying an 'image_prompt' and a
    'slide_title', and a console that can encode the lines the loop
    prints for them, the function returns a dict that has exactly the
    slide indices below N as keys, each with image data or None as its
    value, whatever the service answers or raises. *)
Theorem image_map_covers_every_slide (w : world) (outline : nat) (o : json)
    (slides : list json) :
  heap w !! outline = Some (PyJson o) ->
  getitem o (lit "slides") = Ok (JArr slides) ->
  forallb slide_readable slides = true ->
  image_lines_printable 0 slides ->
  exists (images : nat) (d : gmap nat (option bytes)) (w' : world),
    generate_presentation_slide_images generate_content outline w = (Ok images, w')
    /\ heap w' !! images = Some (PyImages d)
    /\ forall i : nat, is_Some (d !! i) <-> i < length slides.
Proof.
  intros Ho Hslides Hall Hlines.
  destruct (generate_presentation_slide_images_run generate_content
              outline o slides w Ho Hslides Hall Hlines) as [out Hrun].
  eexists _, _, _. split; [exact Hrun|]. split.
  - cbn [heap]. apply lookup_insert_eq.
  - intros i. rewrite recorded_images_keys.
    unfold image_prompts. now rewrite length_fmap.
Qed.

(** C2 (amended).  On an outline whose slides can be read, and a
    console that can encode the lines the loop prints for them, no error
    reaches the caller, one request is sent for every slide, in order,
    and the slide of every turn that fails (the call raises, or its
    answer cannot be scanned) has None in the dict. *)
Theorem image_failure_is_absorbed (w : world) (outline : nat) (o : json)
    (slides : list json) :
  heap w !! outline = Some (PyJson o) ->
  getitem o (lit "slides") = Ok (JArr slides) ->
  forallb slide_readable slides = true ->
  image_lines_printable 0 slides ->
  exists (images : nat) (d : gmap nat (option bytes)) (w' : world),
    generate_presentation_slide_images generate_content outline w = (Ok images, w')
    /\ heap w' !! images = Some (PyImages d)
    /\ sent w' = sent w ++ (image_request <$> image_prompts slides)
    /\ forall (i : nat) (p : json),
         image_prompts slides !! i = Some p ->
         image_failure generate_content
           (sent w ++ (image_request <$> take i (image_prompts slides))) p ->
         d !! i = Some None.
Proof.
  intros Ho Hslides Hall Hlines.
  destruct (generate_presentation_slide_images_run generate_content
              outline o slides w Ho Hslides Hall Hlines) as [out Hrun].
  eexists _, _, _. split; [exact Hrun|]. split; [apply lookup_insert_eq|].
  split; [reflexivity|].
  intros i p Hp Hfail.
  rewrite <- (Nat.add_0_l i) at 1.
  rewrite (recorded_images_lookup _ _ _ _ _ _ _ Hp). f_equal.
  unfold image_failure in Hfail. unfold recorded_image.
  destruct (generate_content _ _) as [response|e]; [|reflexivity].
  destruct (first_parts response); [contradiction|reflexivity].
Qed.

(** C7.  When the call for slide [i] answers with a list of parts, the
    dict holds for [i] the data of the first part that carries inline
    data, and None when no part does.  The slides are ones the loop can
    read and whose lines the console can encode, so that the loop comes
    to every call and to its end. *)
Theorem first_inline_part_is_recorded (w : world) (outline : nat) (o : json)
    (slides : list json) (i : nat) (p : json)
    (response : GenerateContentResponse) (ps : list Part) :
  heap w !! outline = Some (PyJson o) ->
  getitem o (lit "slides") = Ok (JArr slides) ->
  forallb slide_readable slides = true ->
  image_lines_printable 0 slides ->
  image_prompts slides !! i = Some p ->
  generate_content
    (sent w ++ (image_request <$> take i (image_prompts slides)))
    (image_request p) = Ok response ->
  first_parts response = Ok ps ->
  exists (images : nat) (d : gmap nat (option bytes)) (w' : world),
    generate_presentation_slide_images generate_content outline w = (Ok images, w')
    /\ heap w' !! images = Some (PyImages d)
    /\ (forall (pre : list Part) (part : Part) (blob : Blob) (post : list Part),
          ps = pre ++ part :: post ->
          Forall (fun q => inline_data q = None) pre ->
          inline_data part = Some blob ->
          d !! i = Some (data blob))
    /\ (Forall (fun q => inline_data q = None) ps -> d !! i = Some None).
Proof.
  intros Ho Hslides Hall Hlines Hp Hcall Hparts.
  destruct (generate_presentation_slide_images_run generate_content
              outline o slides w Ho Hslides Hall Hlines) as [out Hrun].
  eexists _, _, _. split; [exact Hrun|]. split; [apply lookup_insert_eq|].
  assert (Hi : recorded_images generate_content (sent w) 0
                 (image_prompts slides) ∅ !! i = Some (first_inline_data ps)).
  { rewrite <- (Nat.add_0_l i) at 1.
    rewrite (recorded_images_lookup _ _ _ _ _ _ _ Hp).
    unfold recorded_image. now rewrite Hcall, Hparts. }
  split.
  - intros pre part blob post -> Hpre Hpart. rewrite Hi.
    now rewrite (first_inline_data_found _ _ _ _ Hpre Hpart).
  - intros Hnone. rewrite Hi. now rewrite first_inline_data_none.
Qed.

Lemma image_for_slide_missing (images i : nat) (kvs : list (str * json))
    (w : world) :
  slide_readable (JObj kvs) = false ->
  exists key : str,
    image_for_slide generate_content images i (JObj kvs) w = (Raise (KeyError (JStr key)), w)
    /\ (key = lit "image_prompt" \/ key = lit "slide_title").
Proof.
  intros Hno. unfold image_for_slide.
  destruct (dict_get (lit "image_prompt") kvs) as [p|] eqn:Hp.
  - assert (Ht : dict_get (lit "slide_title") kvs = None).
    { unfold slide_readable, has_field in Hno. rewrite Hp in Hno.
      rewrite bool_decide_true in Hno by eauto. simpl in Hno.
      apply bool_decide_eq_false in Hno.
      destruct (dict_get (lit "slide_title") kvs); [|reflexivity].
      exfalso. apply Hno. eauto. }
    exists (lit "slide_title"). split; [|now right].
    rewrite run_bind. unfold lift at 1. cbn [getitem]. rewrite Hp.
    rewrite run_bind. unfold lift at 1. cbn [getitem]. now rewrite Ht.
  - exists (lit "image_prompt"). split; [|now left].
    rewrite run_bind. unfold lift at 1. cbn [getitem]. now rewrite Hp.
Qed.

(** C9.  The two subscripts of a turn come before its [try]: when a
    slide object lacks 'image_prompt' or 'slide_title' (the slides
    before it having both, and lines the console can encode), the
    function raises a KeyError for that field to its caller; the slide
    gets no entry in the dict and no request is sent for it or for any
    later slide. *)
Theorem missing_field_escapes_the_try (w : world) (outline : nat) (o : json)
    (pre : list json) (kvs : list (str * json)) (post : list json) :
  heap w !! outline = Some (PyJson o) ->
  getitem o (lit "slides") = Ok (JArr (pre ++ JObj kvs :: post)) ->
  forallb slide_readable pre = true ->
  image_lines_printable 0 pre ->
  slide_readable (JObj kvs) = false ->
  exists (key : str) (w' : world) (d : gmap nat (option bytes)),
    generate_presentation_slide_images generate_content outline w =
      (Raise (KeyError (JStr key)), w')
    /\ (key = lit "image_prompt" \/ key = lit "slide_title")
    /\ sent w' = sent w ++ (image_request <$> image_prompts pre)
    /\ heap w' !! fresh (dom (heap w)) = Some (PyImages d)
    /\ d !! length pre = None.
Proof.
  intros Ho Hslides Hpre Hlines Hno.
  unfold generate_presentation_slide_images.
  assert (Hne : fresh (dom (heap w)) ≠ outline).
  { intros Heq. apply (is_fresh (dom (heap w))). rewrite Heq.
    apply elem_of_dom. eauto. }
  set (images := fresh (dom (heap w))) in *.
  rewrite run_bind. unfold new_object at 1. fold images.
  rewrite run_bind, print_run by reflexivity.
  rewrite run_bind. unfold subscript. rewrite run_bind.
  unfold load_json at 1. cbn [heap with_heap with_stdout].
  rewrite lookup_insert_ne by exact Hne. rewrite Ho.
  unfold lift at 1. rewrite Hslides.
  rewrite run_bind. unfold lift at 1. cbn [py_iter].
  rewrite run_bind, for_enumerate_app, run_bind.
  match goal with |- context [for_enumerate _ pre _ ?w1] =>
    destruct (image_loop_run generate_content images pre 0 ∅ w1)
      as [out Hloop]; [apply lookup_insert_eq | exact Hpre | exact Hlines |]
  end.
  rewrite Hloop. cbn [for_enumerate]. rewrite run_bind.
  match goal with |- context [image_for_slide generate_content ?a ?b _ ?w1] =>
    destruct (image_for_slide_missing a b kvs w1 Hno) as (key & Hraise & Hkey)
  end.
  rewrite Hraise. exists key. eexists _, _.
  split; [reflexivity|]. split; [exact Hkey|]. split; [reflexivity|].
  cbn [heap]. split; [apply lookup_insert_eq|].
  apply eq_None_not_Some. rewrite recorded_images_keys.
  unfold image_prompts. rewrite length_fmap. lia.
Qed.

End ImageClaims.

Section AssembleRefines.

Context {console : Console}.
Variable image_ok : bytes -> bool.
Variable can_save : gmap str presentation -> str -> bool.

Lemma run_lift {A : Type} (r : res A) (w : world) : lift r w = (r, w).
Proof. reflexivity. Qed.

Lemma subscript_run (outline : nat) (o : json) (key : str) (w : world) :
  heap w !! outline = Some (PyJson o) ->
  subscript outline key w = (getitem o key, w).
Proof.
  intros Ho. unfold subscript. rewrite run_bind. unfold load_json.
  now rewrite Ho.
Qed.

Lemma title_slide_run (outline : nat) (o : json) (w : world) :
  heap w !! outline = Some (PyJson o) ->
  title_slide outline w = (title_slide_of o, w).
Proof.
  intros Ho. unfold title_slide, title_slide_of.
  rewrite run_bind, (subscript_run _ _ _ _ Ho).
  destruct (getitem o (lit "title")) as [t|e] eqn:Ht; [|reflexivity].
  cbn [mbind res_bind]. rewrite run_bind, run_lift.
  destruct (as_str t) as [title|e] eqn:Hstr; [|reflexivity].
  cbn [mbind res_bind]. rewrite run_bind, run_lift.
  destruct (on_paragraph0 _ _) as [tf|e]; [|reflexivity].
  rewrite run_bind, (subscript_run _ _ _ _ Ho), Ht.
  rewrite run_bind, run_lift, Hstr. reflexivity.
Qed.

Lemma images_contains_run (images i : nat) (d : gmap nat (option bytes))
    (w : world) :
  heap w !! images = Some (PyImages d) ->
  images_contains images i w = (Ok (bool_decide (is_Some (d !! i))), w).
Proof.
  intros Hd. unfold images_contains. rewrite run_bind. unfold load_images.
  now rewrite Hd.
Qed.

Lemma images_getitem_run (images i : nat) (d : gmap nat (option bytes))
    (v : option bytes) (w : world) :
  heap w !! images = Some (PyImages d) ->
  d !! i = Some v ->
  images_getitem images i w = (Ok v, w).
Proof.
  intros Hd Hv. unfold images_getitem. rewrite run_bind. unfold load_images.
  now rewrite Hd, Hv.
Qed.

(** A step of a statement that only computes a value. *)
Ltac lift_step :=
  rewrite run_bind, run_lift;
  match goal with
  | |- context [match ?r with Ok _ => _ | Raise _ => _ end] =>
      destruct r; [cbn [mbind res_bind] | reflexivity]
  end.

Lemma content_slide_run (images : nat) (d : gmap nat (option bytes))
    (prs : presentation) (i : nat) (slide_data : json) (w : world) :
  heap w !! images = Some (PyImages d) ->
  content_slide image_ok images prs i slide_data w =
  (content_slide_of image_ok (d !! i) prs slide_data, w).
Proof.
  intros Hd. unfold content_slide, content_slide_of.
  do 6 lift_step.
  rewrite run_bind, (images_contains_run _ _ _ _ Hd).
  destruct (d !! i) as [[blob|]|] eqn:Hi.
  - rewrite bool_decide_true by eauto.
    rewrite !run_bind, (images_getitem_run _ _ _ _ _ Hd Hi).
    cbn [mret M_ret]. rewrite bool_decide_true by eauto.
    rewrite run_bind, (images_getitem_run _ _ _ _ _ Hd Hi).
    reflexivity.
  - rewrite bool_decide_true by eauto.
    rewrite !run_bind, (images_getitem_run _ _ _ _ _ Hd Hi).
    cbn [mret M_ret].
    rewrite bool_decide_false by (intros [? ?]; discriminate).
    reflexivity.
  - rewrite bool_decide_false by (intros [? ?]; discriminate).
    reflexivity.
Qed.

Lemma content_slides_run (images : nat) (d : gmap nat (option bytes))
    (slides : list json) :
  forall (i : nat) (prs : presentation) (w : world),
  heap w !! images = Some (PyImages d) ->
  fold_enumerate i slides prs
    (fun i slide_data prs =>
       slide ← content_slide image_ok images prs i slide_data;
       mret (add_slide slide prs)) w =
  (content_slides_of image_ok d i slides prs, w).
Proof.
  induction slides as [|slide_data slides IH]; intros i prs w Hd.
  - reflexivity.
  - cbn [fold_enumerate content_slides_of].
    rewrite !run_bind, (content_slide_run _ _ _ _ _ _ Hd).
    destruct (content_slide_of _ _ _ _) as [s|e]; [|reflexivity].
    cbn [mret M_ret mbind res_bind]. now apply IH.
Qed.

(** The function stores what [assemble] makes of the two objects, and
    stores nothing when [assemble] raises; the closing [print] comes
    after the file is written. *)
Lemma create_presentation_file_run (outline images : nat)
    (output_filename : str) (o : json) (d : gmap nat (option bytes))
    (w : world) :
  heap w !! outline = Some (PyJson o) ->
  heap w !! images = Some (PyImages d) ->
  create_presentation_file image_ok can_save outline images output_filename w =
  match assemble image_ok o d with
  | Ok prs =>
      if can_save (files w) output_filename
      then if encodes (LogSaved output_filename)
           then (Ok tt,
                 {| heap := heap w; sent := sent w;
                    stdout := stdout w ++ [LogSaved output_filename];
                    files := <[output_filename := prs]> (files w) |})
           else (Raise UnicodeEncodeError,
                 {| heap := heap w; sent := sent w; stdout := stdout w;
                    files := <[output_filename := prs]> (files w) |})
      else (Raise OSError, w)
  | Raise e => (Raise e, w)
  end.
Proof.
  intros Ho Hd. unfold create_presentation_file, assemble.
  rewrite run_bind, (title_slide_run _ _ _ Ho).
  destruct (title_slide_of o) as [slide|e]; [|reflexivity].
  cbn [mbind res_bind].
  rewrite run_bind, (subscript_run _ _ _ _ Ho).
  destruct (getitem o (lit "slides")) as [slides|e]; [|reflexivity].
  cbn [mbind res_bind]. lift_step.
  rewrite run_bind, (content_slides_run _ _ _ _ _ _ Hd).
  destruct (content_slides_of _ _ _ _ _) as [prs|e]; [|reflexivity].
  rewrite run_bind. unfold save.
  destruct (can_save (files w) output_filename); [|reflexivity].
  unfold print, printable.
  destruct (encodes (LogSaved output_filename)); reflexivity.
Qed.

End AssembleRefines.

Section AssembleWellFormed.

Variable image_ok : bytes -> bool.

Lemma split_on_cons (sep : N) (s : str) :
  exists (piece : str) (pieces : list str), split_on sep s = piece :: pieces.
Proof.
  induction s as [|c s (piece & pieces & IH)]; simpl.
  - eauto.
  - destruct (N.eqb c sep); [eauto|]. rewrite IH. eauto.
Qed.

Lemma title_slide_of_ok (o : json) (title : str) :
  getitem o (lit "title") = Ok (JStr title) ->
  title_slide_of o = Ok (expected_title_slide title).
Proof.
  intros Ht. unfold title_slide_of, expected_title_slide. rewrite Ht.
  cbn [mbind res_bind as_str]. unfold on_paragraph0, set_text.
  cbn [paragraphs set_paragraphs].
  destruct (split_on_cons 10%N title) as (piece & pieces & ->).
  reflexivity.
Qed.

Lemma add_points_ok (points : list json) :
  forall frame : text_frame,
  forallb is_str points = true ->
  add_points points frame =
  Ok (set_paragraphs
        (paragraphs frame ++ (bullet_paragraph <$> (str_of <$> points)))
        frame).
Proof.
  induction points as [|point points IH]; intros frame Hall; simpl in *.
  - rewrite app_nil_r. now destruct frame.
  - apply andb_true_iff in Hall as [Hpoint Hall].
    destruct point; try discriminate. cbn [as_str mbind res_bind].
    rewrite IH by exact Hall. unfold add_paragraph. cbn.
    now rewrite <- app_assoc.
Qed.

Lemma content_slide_of_ok (image : option (option bytes))
    (prs : presentation) (slide_data : json) :
  slide_spec_ok slide_data = true ->
  match image with
  | Some (Some blob) => image_ok blob
  | _ => true
  end = true ->
  content_slide_of image_ok image prs slide_data =
  Ok (expected_content_slide (slide_width prs) slide_data
        (default None image)).
Proof.
  intros Hok Himage. unfold slide_spec_ok in Hok.
  apply andb_true_iff in Hok as [Hok Hpoints].
  apply andb_true_iff in Hok as [Hok Hkp].
  apply andb_true_iff in Hok as [Hstr Htitle].
  unfold content_slide_of, expected_content_slide, key_points_of.
  rewrite (has_field_getitem _ _ Htitle). cbn [mbind res_bind].
  destruct (field (lit "slide_title") slide_data) as [| | | |slide_title| |];
    try discriminate.
  cbn [as_str mbind res_bind on_paragraph0 new_text_frame paragraphs].
  rewrite (has_field_getitem _ _ Hkp). cbn [mbind res_bind].
  destruct (field (lit "key_points") slide_data) as [| | | | |points|];
    try discriminate.
  cbn [py_iter mbind res_bind]. rewrite add_points_ok by exact Hpoints.
  cbn [mbind res_bind].
  destruct image as [[blob|]|]; try reflexivity.
  unfold add_picture. rewrite Himage. reflexivity.
Qed.

Lemma content_slides_of_ok (d : gmap nat (option bytes)) (items : list json) :
  forall (i : nat) (prs : presentation),
  forallb slide_spec_ok items = true ->
  (forall j : nat, j < length items ->
     match d !! (i + j) with
     | Some (Some blob) => image_ok blob
     | _ => true
     end = true) ->
  content_slides_of image_ok d i items prs =
  Ok {| slide_width := slide_width prs; slide_height := slide_height prs;
        slides := slides prs
                  ++ expected_content_slides (slide_width prs) d i items |}.
Proof.
  induction items as [|slide_data items IH]; intros i prs Hall Himages.
  - simpl. rewrite app_nil_r. now destruct prs.
  - simpl in Hall. apply andb_true_iff in Hall as [Hok Hall].
    cbn [content_slides_of].
    rewrite (content_slide_of_ok (d !! i) prs slide_data Hok).
    2:{ specialize (Himages 0). rewrite Nat.add_0_r in Himages.
        apply Himages. simpl. lia. }
    cbn [mbind res_bind]. rewrite IH; [|exact Hall|].
    2:{ intros j Hj. replace (S i + j) with (i + S j) by lia.
        apply Himages. simpl. lia. }
    unfold add_slide. cbn [slide_width slide_height slides].
    f_equal. f_equal. rewrite <- app_assoc. f_equal.
    unfold expected_content_slides. cbn [imap app].
    rewrite Nat.add_0_r. f_equal.
    apply imap_ext. intros j x _. cbn.
    now replace (S (i + j)) with (i + S j) by lia.
Qed.

Lemma images_decodable_at (d : gmap nat (option bytes)) (n j : nat) :
  images_decodable image_ok d n = true ->
  j < n ->
  match d !! j with
  | Some (Some blob) => image_ok blob
  | _ => true
  end = true.
Proof.
  unfold images_decodable. rewrite forallb_forall. intros Hall Hj.
  apply (Hall j). apply in_seq. lia.
Qed.

Lemma assemble_ok (o : json) (d : gmap nat (option bytes)) (title : str)
    (slides : list json) :
  getitem o (lit "title") = Ok (JStr title) ->
  getitem o (lit "slides") = Ok (JArr slides) ->
  forallb slide_spec_ok slides = true ->
  images_decodable image_ok d (length slides) = true ->
  assemble image_ok o d = Ok (expected_presentation title slides d).
Proof.
  intros Ht Hs Hall Himages. unfold assemble.
  rewrite (title_slide_of_ok o title Ht). cbn [mbind res_bind].
  rewrite Hs. cbn [mbind res_bind py_iter].
  rewrite content_slides_of_ok; [reflexivity|exact Hall|].
  intros j Hj. now apply (images_decodable_at d (length slides)).
Qed.

End AssembleWellFormed.

(** ** Statements that leave the heap alone *)

Lemma heap_stable_ret {A : Type} (a : A) : heap_stable (mret a : M A).
Proof. intros w. reflexivity. Qed.

Lemma heap_stable_raise {A : Type} (e : exn) : heap_stable (raise e : M A).
Proof. intros w. reflexivity. Qed.

Lemma heap_stable_lift {A : Type} (r : res A) : heap_stable (lift r).
Proof. intros w. reflexivity. Qed.

Lemma heap_stable_print `{Console} (l : log_line) : heap_stable (print l).
Proof. intros w. unfold print. now destruct (printable l). Qed.

Lemma heap_stable_bind {A B : Type} (m : M A) (f : A -> M B) :
  heap_stable m -> (forall a : A, heap_stable (f a)) -> heap_stable (m ≫= f).
Proof.
  intros Hm Hf w. rewrite run_bind. specialize (Hm w).
  destruct (m w) as [[a|e] w1]; simpl in Hm.
  - rewrite Hf. exact Hm.
  - exact Hm.
Qed.

Lemma heap_stable_load_json (l : nat) : heap_stable (load_json l).
Proof. intros w. unfold load_json. now destruct (heap w !! l) as [[]|]. Qed.

Lemma heap_stable_load_images (l : nat) : heap_stable (load_images l).
Proof. intros w. unfold load_images. now destruct (heap w !! l) as [[]|]. Qed.

Lemma heap_stable_fold_enumerate {A St : Type} (l : list A)
    (body : nat -> A -> St -> M St) :
  (forall (i : nat) (x : A) (s : St), heap_stable (body i x s)) ->
  forall (i : nat) (s : St), heap_stable (fold_enumerate i l s body).
Proof.
  intros Hbody. induction l as [|x l IH]; intros i s; cbn [fold_enumerate].
  - apply heap_stable_ret.
  - apply heap_stable_bind; [apply Hbody|]. intros s'. apply IH.
Qed.

Create HintDb frame.

#[export] Hint Resolve heap_stable_ret heap_stable_raise heap_stable_lift
  heap_stable_print heap_stable_load_json heap_stable_load_images : frame.

(** Breaks a statement into its steps, each of them closed by the
    facts above. *)
Ltac frame_steps :=
  repeat first
    [ apply heap_stable_bind; [|intros ?]
    | apply heap_stable_fold_enumerate; intros ? ? ?
    | match goal with
      | |- heap_stable (if ?b then _ else _) => destruct b
      | |- heap_stable (match ?x with Some _ => _ | None => _ end) => destruct x
      end
    | solve [auto with frame] ].

Section Frame.

Context {console : Console}.
Variable image_ok : bytes -> bool.
Variable can_save : gmap str presentation -> str -> bool.

Lemma heap_stable_save (prs : presentation) (output_filename : str) :
  heap_stable (save can_save prs output_filename).
Proof.
  intros w. unfold save. now destruct (can_save (files w) output_filename).
Qed.

Lemma heap_stable_subscript (l : nat) (key : str) :
  heap_stable (subscript l key).
Proof. unfold subscript. frame_steps. Qed.

Lemma heap_stable_title_slide (outline : nat) :
  heap_stable (title_slide outline).
Proof.
  unfold title_slide.
  frame_steps; try apply heap_stable_subscript; frame_steps.
Qed.

Lemma heap_stable_content_slide (images : nat) (prs : presentation)
    (i : nat) (slide_data : json) :
  heap_stable (content_slide image_ok images prs i slide_data).
Proof.
  unfold content_slide, images_contains, images_getitem. frame_steps.
Qed.

(** C10.  Whatever the two addresses hold and whether the call returns
    or raises, the heap after [create_presentation_file] is the heap
    before it: the outline and the dict of images are as they were. *)
Theorem create_presentation_file_keeps_inputs (outline images : nat)
    (output_filename : str) (w : world) :
  let w' := snd (create_presentation_file image_ok can_save outline images
                   output_filename w) in
  heap w' = heap w
  /\ heap w' !! outline = heap w !! outline
  /\ heap w' !! images = heap w !! images.
Proof.
  assert (Hstable : heap_stable (create_presentation_file image_ok can_save
                                   outline images output_filename)).
  { unfold create_presentation_file.
    apply heap_stable_bind; [apply heap_stable_title_slide|]. intros slide.
    apply heap_stable_bind; [apply heap_stable_subscript|]. intros items.
    apply heap_stable_bind; [apply heap_stable_lift|]. intros l.
    apply heap_stable_bind.
    - apply heap_stable_fold_enumerate. intros i x s.
      apply heap_stable_bind; [apply heap_stable_content_slide|].
      intros s'. apply heap_stable_ret.
    - intros prs. apply heap_stable_bind; [apply heap_stable_save|].
      intros []. apply heap_stable_print. }
  intros w'. subst w'. rewrite (Hstable w). auto.
Qed.

End Frame.

Section AssemblyClaims.

Context {console : Console}.
Variable image_ok : bytes -> bool.
Variable can_save : gmap str presentation -> str -> bool.

Lemma has_picture_expected (slide_width : Z) (slide_data : json)
    (image : option bytes) :
  has_picture (expected_content_slide slide_width slide_data image) =
  bool_decide (is_Some image).
Proof. now destruct image. Qed.

(** C5.  For an outline of five well-formed slides and a dict that has
    None for index 2 and decodable image data for the four other
    indices, the call stores a deck of six slides, a title slide and
    five content slides, of which the one for outline index 2 (slide 3
    of the deck) has no picture and each of the others has one.  The
    call returns, unless the console cannot encode the closing line:
    then the [print] raises, after the deck is stored. *)
Theorem five_slides_one_without_picture (w : world) (outline images : nat)
    (output_filename : str) (o : json) (title : str)
    (s0 s1 s2 s3 s4 : json) (d : gmap nat (option bytes)) :
  heap w !! outline = Some (PyJson o) ->
  heap w !! images = Some (PyImages d) ->
  getitem o (lit "title") = Ok (JStr title) ->
  getitem o (lit "slides") = Ok (JArr [s0; s1; s2; s3; s4]) ->
  forallb slide_spec_ok [s0; s1; s2; s3; s4] = true ->
  d !! 2 = Some None ->
  (forall i : nat, i < 5 -> i <> 2 ->
     exists blob, d !! i = Some (Some blob) /\ image_ok blob = true) ->
  can_save (files w) output_filename = true ->
  exists (prs : presentation) (w' : world),
    create_presentation_file image_ok can_save outline images
      output_filename w
    = (if encodes (LogSaved output_filename) then Ok tt
       else Raise UnicodeEncodeError, w')
    /\ files w' !! output_filename = Some prs
    /\ length (slides prs) = 6
    /\ layout <$> slides prs = [0; 1; 1; 1; 1; 1]
    /\ has_picture <$> drop 1 (slides prs) = [true; true; false; true; true].
Proof.
  intros Ho Hd Htitle Hslides Hok H2 Hothers Hsave.
  destruct (Hothers 0) as (b0 & H0 & Hb0); [lia..|].
  destruct (Hothers 1) as (b1 & H1 & Hb1); [lia..|].
  destruct (Hothers 3) as (b3 & H3 & Hb3); [lia..|].
  destruct (Hothers 4) as (b4 & H4 & Hb4); [lia..|].
  rewrite (create_presentation_file_run _ _ _ _ _ o d w Ho Hd).
  rewrite (assemble_ok image_ok o d title _ Htitle Hslides Hok).
  2:{ unfold images_decodable. cbn [seq forallb length].
      rewrite H0, H1, H2, H3, H4, Hb0, Hb1, Hb3, Hb4. reflexivity. }
  rewrite Hsave.
  destruct (encodes (LogSaved output_filename));
    (eexists _, _; split; [reflexivity|];
     cbn [files]; split; [apply lookup_insert_eq|];
     split; [reflexivity|]; split; [reflexivity|];
     cbn [expected_presentation slides drop expected_content_slides imap
            fmap list_fmap];
     rewrite !has_picture_expected; cbn [Nat.add compose];
     rewrite H0, H1, H2, H3, H4; reflexivity).
Qed.


End AssemblyClaims.

Section OutlineClaims.

Context {console : Console}.
Variable generate_content :
  list request -> request -> res GenerateContentResponse.
Variable json_loads : str -> res json.
Variable image_ok : bytes -> bool.
Variable can_save : gmap str presentation -> str -> bool.



End OutlineClaims.

(** ** Stripping *)

Section Strip.

Variable p : N -> bool.

Lemma lstrip_by_all (l s : str) :
  Forall (fun c => p c = true) l -> lstrip_by p (l ++ s) = lstrip_by p s.
Proof.
  induction 1 as [|c l Hc _ IH]; simpl; [reflexivity|]. now rewrite Hc.
Qed.

Lemma lstrip_by_stop (s : str) :
  match s with [] => True | c :: _ => p c = false end -> lstrip_by p s = s.
Proof. destruct s as [|c s]; simpl; [reflexivity|]. now intros ->. Qed.

Lemma lstrip_by_split (s : str) :
  exists l : str,
    s = l ++ lstrip_by p s
    /\ Forall (fun c => p c = true) l
    /\ match lstrip_by p s with [] => True | c :: _ => p c = false end.
Proof.
  induction s as [|c s (l & Hs & Hl & Hhead)]; simpl.
  - exists []. auto.
  - destruct (p c) eqn:Hc.
    + exists (c :: l). split; [simpl; now f_equal|].
      split; [now constructor|assumption].
    + exists []. auto.
Qed.

Lemma strip_by_bounded (l s r : str) :
  Forall (fun c => p c = true) l ->
  Forall (fun c => p c = true) r ->
  bounded p s ->
  strip_by p (l ++ s ++ r) = s.
Proof.
  intros Hl Hr [Hhead Hlast]. unfold strip_by, rstrip_by.
  rewrite lstrip_by_all by exact Hl.
  destruct s as [|c s].
  - simpl. rewrite <- (app_nil_r r), lstrip_by_all by exact Hr. reflexivity.
  - rewrite (lstrip_by_stop ((c :: s) ++ r)) by exact Hhead.
    rewrite rev_app_distr, lstrip_by_all by now apply Forall_rev.
    rewrite lstrip_by_stop by exact Hlast. apply rev_involutive.
Qed.

(** A text splits into what [strip] removes on the left, what it
    keeps, and what it removes on the right. *)
Lemma strip_by_split (s : str) :
  exists l r : str,
    s = l ++ strip_by p s ++ r
    /\ Forall (fun c => p c = true) l
    /\ Forall (fun c => p c = true) r.
Proof.
  destruct (lstrip_by_split s) as (l & Hs & Hl & _).
  destruct (lstrip_by_split (rev (lstrip_by p s))) as (r & Hr & Hrall & _).
  exists l, (rev r). unfold strip_by, rstrip_by.
  split; [|split; [exact Hl|now apply Forall_rev]].
  rewrite <- rev_app_distr, <- Hr, rev_involutive. exact Hs.
Qed.

End Strip.
Lemma json_ws_cases (c : N) :
  json_ws c = true -> c = 32%N \/ c = 9%N \/ c = 10%N \/ c = 13%N.
Proof.
  unfold json_ws. rewrite !orb_true_iff, !N.eqb_eq. tauto.
Qed.

Lemma keeps_json_backtick : keeps_json (in_chars (lit "`")).
Proof.
  split; [|split; reflexivity].
  intros c Hc. destruct (json_ws_cases c Hc) as [->|[->|[->| ->]]]; reflexivity.
Qed.

Lemma keeps_json_tag : keeps_json (in_chars (lit "json")).
Proof.
  split; [|split; reflexivity].
  intros c Hc. destruct (json_ws_cases c Hc) as [->|[->|[->| ->]]]; reflexivity.
Qed.

Lemma json_ws_isspace (c : N) : json_ws c = true -> py_isspace c = true.
Proof.
  intros Hc. destruct (json_ws_cases c Hc) as [->|[->|[->| ->]]]; reflexivity.
Qed.

(** A text in braces with JSON white space around it keeps both ends
    under such a set. *)
Lemma bounded_braced (p : N -> bool) (l body r : str) :
  keeps_json p ->
  Forall (fun c => json_ws c = true) l ->
  Forall (fun c => json_ws c = true) r ->
  bounded p (l ++ (123%N :: body ++ [125%N]) ++ r).
Proof.
  intros (Hws & Hopen & Hclose) Hl Hr. split.
  - destruct Hl as [|c l Hc _]; simpl; auto.
  - rewrite !rev_app_distr. simpl. rewrite rev_app_distr. simpl.
    apply Forall_rev in Hr. destruct Hr as [|c r' Hc _]; simpl; auto.
Qed.

Lemma bounded_prefix (p : N -> bool) (t s : str) :
  Forall (fun c => p c = false) t ->
  s <> [] ->
  bounded p s ->
  bounded p (t ++ s).
Proof.
  intros Ht Hs [Hhead Hlast]. split.
  - destruct Ht as [|c t Hc _]; simpl; auto.
  - rewrite rev_app_distr. destruct (rev s) as [|c s'] eqn:Hrev; simpl; auto.
    exfalso. apply Hs. apply (f_equal (@rev N)) in Hrev.
    now rewrite rev_involutive in Hrev.
Qed.

(** The three strips on a fenced text whose body is, JSON white space
    apart, between braces: what is left is the body without that white
    space. *)
Lemma clean_json_text_fenced (tagged : bool) (text body : str) :
  strip_by json_ws text = 123%N :: body ++ [125%N] ->
  clean_json_text (fenced tagged text) = strip_by json_ws text.
Proof.
  intros Hcore.
  destruct (strip_by_split json_ws text) as (l & r & Htext & Hl & Hr).
  rewrite Hcore in Htext.
  assert (Hne : text <> []) by (rewrite Htext; now destruct l).
  assert (Hstep1 : py_strip_chars (lit "`") (fenced tagged text)
                   = (if tagged then lit "json" else []) ++ text).
  { unfold fenced, py_strip_chars.
    replace (fence ++ (if tagged then lit "json" else []) ++ text ++ fence)
      with (fence ++ ((if tagged then lit "json" else []) ++ text) ++ fence)
      by now rewrite <- !app_assoc.
    apply strip_by_bounded.
    - repeat constructor.
    - repeat constructor.
    - apply bounded_prefix; [destruct tagged; repeat constructor|exact Hne|].
      rewrite Htext. apply bounded_braced; auto using keeps_json_backtick. }
  assert (Hstep2 : py_strip_chars (lit "json")
                     ((if tagged then lit "json" else []) ++ text) = text).
  { unfold py_strip_chars.
    rewrite <- (app_nil_r text) at 1.
    apply strip_by_bounded.
    - destruct tagged; repeat constructor.
    - constructor.
    - rewrite Htext. apply bounded_braced; auto using keeps_json_tag. }
  unfold clean_json_text. rewrite Hstep1, Hstep2, Hcore.
  unfold py_strip. rewrite Htext.
  apply strip_by_bounded.
  - eapply List.Forall_impl; [apply json_ws_isspace|exact Hl].
  - eapply List.Forall_impl; [apply json_ws_isspace|exact Hr].
  - split; [reflexivity|]. simpl. rewrite rev_app_distr. reflexivity.
Qed.

Section FencedOutline.

Context {console : Console}.
Variable generate_content :
  list request -> request -> res GenerateContentResponse.
Variable json_loads : str -> res json.

(** The decoder reads a text that decodes to an object the same
    without the JSON white space around it. *)
Hypothesis json_loads_strip :
  forall (s : str) (items : list (str * json)),
  json_loads s = Ok (JObj items) ->
  json_loads (strip_by json_ws s) = Ok (JObj items).

(** The text of an object is, that white space apart, between
    braces. *)
Hypothesis json_loads_braces :
  forall (s : str) (items : list (str * json)),
  json_loads s = Ok (JObj items) ->
  exists body : str, strip_by json_ws s = 123%N :: body ++ [125%N].

(** C3.  When the text of an outline (a text that decodes to an
    object) comes between two fence markers, with or without the
    'json' tag after the first, the three strips leave that text
    without the white space around it, it decodes to the same
    outline, and that outline is what the function returns (the
    function having printed its heading: a console that cannot encode
    the topic stops it before the request). *)
Theorem fenced_outline_decodes (tagged : bool) (text : str)
    (items : list (str * json)) (topic : str) (num_slides : Z)
    (response : GenerateContentResponse) (w : world) :
  json_loads text = Ok (JObj items) ->
  generate_content (sent w) (outline_request topic num_slides) = Ok response ->
  first_part_text response = Ok (fenced tagged text) ->
  clean_json_text (fenced tagged text) = strip_by json_ws text
  /\ json_loads (clean_json_text (fenced tagged text)) = json_loads text
  /\ fst (generate_presentation_slide_text generate_content json_loads
            topic num_slides w)
     = if encodes (LogGeneratingOutline topic) then Ok (JObj items)
       else Raise UnicodeEncodeError.
Proof.
  intros Hloads Hcall Htext.
  destruct (json_loads_braces text items Hloads) as [body Hcore].
  pose proof (clean_json_text_fenced tagged text body Hcore) as Hclean.
  split; [exact Hclean|].
  assert (Hsame : json_loads (clean_json_text (fenced tagged text))
                  = Ok (JObj items)).
  { rewrite Hclean. now apply json_loads_strip. }
  split; [now rewrite Hsame, Hloads|].
  unfold generate_presentation_slide_text.
  rewrite run_bind. unfold print at 1, printable at 1.
  destruct (encodes (LogGeneratingOutline topic)); [|reflexivity].
  rewrite run_try_except.
  unfold outline_attempt. rewrite run_bind.
  unfold client_generate_content. cbn [sent with_stdout].
  fold (outline_request topic num_slides). rewrite Hcall.
  rewrite run_bind, run_lift, Htext. cbn [fmap res_fmap].
  rewrite run_lift, Hsame. reflexivity.
Qed.

End FencedOutline.

(** ** The decoder reads a prefix *)

Lemma prepend_Some {A B : Type} (a : A) (x : option (list A * B))
    (l : list A) (b : B) :
  prepend a x = Some (l, b) ->
  exists l' : list A, x = Some (l', b) /\ l = a :: l'.
Proof.
  destruct x as [[l' b']|]; simpl; [|discriminate].
  intros [= <- <-]. eauto.
Qed.

Lemma scan_string_prefix (n : nat) :
  forall (s : str) (units : list (bool * N)) (r : str),
  length s <= n ->
  scan_string s = Some (units, r) ->
  exists c : str,
    s = c ++ r /\ forall t : str, scan_string (c ++ t) = Some (units, t).
Proof.
  induction n as [|n IH]; intros s units r Hlen Hscan.
  - destruct s; [discriminate Hscan|simpl in Hlen; lia].
  - destruct s as [|c s1]; [discriminate Hscan|]. simpl in Hlen.
    cbn [scan_string] in Hscan.
    destruct (N.eqb_spec c 34) as [->|Hquote].
    { injection Hscan as <- <-. exists [34%N]. split; reflexivity. }
    destruct (N.eqb_spec c 92) as [->|Hslash].
    { destruct s1 as [|e s2]; [discriminate Hscan|].
      destruct (N.eqb_spec e 117) as [->|Hu].
      - destruct s2 as [|h1 [|h2 [|h3 [|h4 s3]]]]; try discriminate Hscan.
        destruct (hex4 h1 h2 h3 h4) as [u|] eqn:Hhex; [|discriminate Hscan].
        apply prepend_Some in Hscan as (units' & Hscan & ->).
        destruct (IH s3 units' r) as (c & -> & Hc); [simpl in Hlen; lia|exact Hscan|].
        exists (92 :: 117 :: h1 :: h2 :: h3 :: h4 :: c)%N. split; [reflexivity|].
        intros t. cbn [app scan_string N.eqb Pos.eqb]. rewrite Hhex, Hc. reflexivity.
      - destruct (unescape e) as [x|] eqn:Hesc; [|discriminate Hscan].
        apply prepend_Some in Hscan as (units' & Hscan & ->).
        destruct (IH s2 units' r) as (c & -> & Hc); [simpl in Hlen; lia|exact Hscan|].
        exists (92 :: e :: c)%N. split; [reflexivity|].
        intros t. cbn [app scan_string N.eqb Pos.eqb].
        destruct (N.eqb_spec e 117); [contradiction|].
        rewrite Hesc, Hc. reflexivity. }
    destruct (c <? 32)%N eqn:Hctl; [discriminate Hscan|].
    apply prepend_Some in Hscan as (units' & Hscan & ->).
    destruct (IH s1 units' r) as (c1 & -> & Hc); [lia|exact Hscan|].
    exists (c :: c1). split; [reflexivity|].
    intros t. cbn [app scan_string].
    destruct (N.eqb_spec c 34); [contradiction|].
    destruct (N.eqb_spec c 92); [contradiction|].
    rewrite Hctl, Hc. reflexivity.
Qed.

Lemma span_digits_prefix (s : str) :
  forall d r : str,
  span_digits s = (d, r) ->
  s = d ++ r
  /\ forall t w : str, r = t ++ w -> span_digits (d ++ t) = (d, t).
Proof.
  induction s as [|c s IH]; intros d r Hspan; simpl in Hspan.
  - injection Hspan as <- <-. split; [reflexivity|].
    intros [|? ?] w Hr; [reflexivity|discriminate Hr].
  - destruct (is_digit c) eqn:Hc.
    + destruct (span_digits s) as [d' r'] eqn:Hs. injection Hspan as <- <-.
      destruct (IH d' r' eq_refl) as [-> Htrunc]. split; [reflexivity|].
      intros t w Hr. simpl. rewrite Hc, (Htrunc t w Hr). reflexivity.
    + injection Hspan as <- <-. split; [reflexivity|].
      intros [|c' t] w Hr; [reflexivity|].
      injection Hr as <- _. simpl. now rewrite Hc.
Qed.

Lemma scan_int_prefix (s i r : str) :
  scan_int s = Some (i, r) ->
  exists (h : N) (i' : str),
    i = h :: i' /\ is_digit h = true /\ s = i ++ r
    /\ forall t w : str, r = t ++ w -> scan_int (i ++ t) = Some (i, t).
Proof.
  destruct s as [|c s]; [discriminate|]. cbn [scan_int].
  destruct (N.eqb_spec c 48) as [->|Hzero].
  - intros [= <- <-]. exists 48%N, []. repeat split; reflexivity.
  - destruct (is_digit c) eqn:Hc; [|discriminate].
    destruct (span_digits s) as [d r'] eqn:Hs. intros [= <- <-].
    destruct (span_digits_prefix s d r' Hs) as [-> Htrunc].
    exists c, d. repeat split; try assumption.
    intros t w Hr. cbn [app scan_int].
    destruct (N.eqb_spec c 48); [contradiction|].
    now rewrite Hc, (Htrunc t w Hr).
Qed.

Lemma span_digits_none (t w : str) :
  fst (span_digits (t ++ w)) = [] -> fst (span_digits t) = [].
Proof.
  destruct t as [|c t]; [reflexivity|]. simpl.
  destruct (is_digit c); [|reflexivity].
  now destruct (span_digits (t ++ w)).
Qed.

Lemma scan_frac_prefix (s f r : str) :
  scan_frac s = (f, r) ->
  exists c : str,
    s = c ++ r
    /\ forall t w : str, r = t ++ w -> scan_frac (c ++ t) = (f, t).
Proof.
  destruct s as [|c s]; cbn [scan_frac].
  - intros [= <- <-]. exists []. split; [reflexivity|].
    intros [|? ?] w Hr; [reflexivity|discriminate Hr].
  - destruct (N.eqb_spec c 46) as [->|Hpoint].
    + destruct (span_digits s) as [d r'] eqn:Hs.
      destruct (span_digits_prefix s d r' Hs) as [-> Htrunc].
      destruct d as [|d0 d].
      * intros [= <- <-]. exists []. split; [reflexivity|].
        intros [|c t] w Hr; [reflexivity|].
        injection Hr as <- Hr. cbn [app scan_frac N.eqb Pos.eqb].
        pose proof (span_digits_none t w) as Hnone.
        simpl in Hr, Hs. rewrite <- Hr, Hs in Hnone. specialize (Hnone eq_refl).
        destruct (span_digits t) as [d' r'']. simpl in Hnone.
        now rewrite Hnone.
      * intros [= <- <-]. exists (46%N :: d0 :: d). split; [reflexivity|].
        intros t w Hr. cbn [app scan_frac N.eqb Pos.eqb].
        change (d0 :: d ++ t) with ((d0 :: d) ++ t).
        now rewrite (Htrunc t w Hr).
    + intros [= <- <-]. exists []. split; [reflexivity|].
      intros [|c' t] w Hr; [reflexivity|].
      injection Hr as <- _. cbn [app scan_frac].
      now destruct (N.eqb_spec c 46).
Qed.

Lemma scan_sign_prefix (s : str) (negative : bool) (r : str) :
  scan_sign s = (negative, r) ->
  exists c : str,
    s = c ++ r
    /\ forall t w : str, r = t ++ w -> scan_sign (c ++ t) = (negative, t).
Proof.
  destruct s as [|c s]; cbn [scan_sign].
  - intros [= <- <-]. exists []. split; [reflexivity|].
    intros [|? ?] w Hr; [reflexivity|discriminate Hr].
  - destruct (N.eqb_spec c 45) as [->|Hminus].
    { intros [= <- <-]. exists [45%N]. split; reflexivity. }
    destruct (N.eqb_spec c 43) as [->|Hplus].
    { intros [= <- <-]. exists [43%N]. split; reflexivity. }
    intros [= <- <-]. exists []. split; [reflexivity|].
    intros [|c' t] w Hr; [reflexivity|].
    injection Hr as <- _. cbn [app scan_sign].
    destruct (N.eqb_spec c 45); [contradiction|].
    now destruct (N.eqb_spec c 43).
Qed.

Lemma no_exp_digits_trunc (t w : str) :
  no_exp_digits (t ++ w) -> no_exp_digits t.
Proof.
  unfold no_exp_digits. destruct t as [|c t]; [reflexivity|].
  cbn [app scan_sign].
  destruct (c =? 45)%N; [apply span_digits_none|].
  destruct (c =? 43)%N; [apply span_digits_none|].
  apply (span_digits_none (c :: t) w).
Qed.

Lemma scan_exp_prefix (s : str) (e : option Z) (r : str) :
  scan_exp s = (e, r) ->
  exists c : str,
    s = c ++ r
    /\ forall t w : str, r = t ++ w -> scan_exp (c ++ t) = (e, t).
Proof.
  destruct s as [|c s]; cbn [scan_exp].
  - intros [= <- <-]. exists []. split; [reflexivity|].
    intros [|? ?] w Hr; [reflexivity|discriminate Hr].
  - destruct ((c =? 101) || (c =? 69))%N eqn:He.
    + destruct (scan_sign s) as [negative s''] eqn:Hsign.
      destruct (scan_sign_prefix s negative s'' Hsign) as (cs & -> & Hsg).
      destruct (span_digits s'') as [d r'] eqn:Hs.
      destruct (span_digits_prefix s'' d r' Hs) as [-> Htrunc].
      destruct d as [|d0 d].
      * intros [= <- <-]. exists []. split; [reflexivity|].
        intros [|c' t] w Hr; [reflexivity|].
        injection Hr as <- Hr. cbn [app scan_exp]. rewrite He.
        pose proof (no_exp_digits_trunc t w) as Hnone.
        unfold no_exp_digits in Hnone. simpl in Hs, Hsign.
        rewrite <- Hr, Hsign in Hnone.
        cbn [snd] in Hnone. rewrite Hs in Hnone.
        specialize (Hnone eq_refl).
        destruct (scan_sign t) as [negative' t'']. cbn [snd] in Hnone.
        destruct (span_digits t'') as [d' r'']. simpl in Hnone.
        now rewrite Hnone.
      * intros [= <- <-]. exists (c :: cs ++ d0 :: d). split.
        { simpl. now rewrite <- app_assoc. }
        intros t w Hr. cbn [app scan_exp]. rewrite He.
        rewrite <- app_assoc.
        rewrite (Hsg ((d0 :: d) ++ t) w) by (now rewrite Hr, <- app_assoc).
        now rewrite (Htrunc t w Hr).
    + intros [= <- <-]. exists []. split; [reflexivity|].
      intros [|c' t] w Hr; [reflexivity|].
      injection Hr as <- _. cbn [app scan_exp]. now rewrite He.
Qed.

(** Equal up to the bracketing of appends. *)
Ltac same_list :=
  repeat (cbn [app]; rewrite <- !app_assoc); cbn [app]; reflexivity.

Lemma scan_number_prefix (s : str) (v : json) (r : str) :
  scan_number s = Some (v, r) ->
  exists (h : N) (c : str),
    (h = 45%N \/ is_digit h = true)
    /\ s = (h :: c) ++ r
    /\ (forall items, v <> JObj items)
    /\ forall t w : str, r = t ++ w -> scan_number ((h :: c) ++ t) = Some (v, t).
Proof.
  unfold scan_number.
  destruct (scan_minus s) as [negative s1] eqn:Hminus.
  destruct (scan_int s1) as [[i s2]|] eqn:Hint; [|discriminate].
  destruct (scan_int_prefix s1 i s2 Hint) as (h & i' & -> & Hh & -> & Hi).
  destruct (scan_frac s2) as [f s3] eqn:Hfrac.
  destruct (scan_frac_prefix s2 f s3 Hfrac) as (cf & -> & Hf).
  destruct (scan_exp s3) as [e s4] eqn:Hexp.
  destruct (scan_exp_prefix s3 e s4 Hexp) as (ce & -> & He).
  intros Hv.
  assert (Hr : r = s4 /\ forall items, v <> JObj items).
  { destruct f, e; injection Hv as <- <-; split; try reflexivity;
      intros items; discriminate. }
  destruct Hr as [-> Hnot].
  assert (Hrest : forall t w : str, s4 = t ++ w ->
            (let (f0, s5) := scan_frac (cf ++ ce ++ t) in
             let (e0, s6) := scan_exp s5 in
             (f0, e0, s6)) = (f, e, t)).
  { intros t w Hs4.
    rewrite (Hf (ce ++ t) w) by (rewrite Hs4; same_list).
    now rewrite (He t w Hs4). }
  destruct s as [|c s]; simpl in Hminus.
  { injection Hminus as <- Hs1. discriminate Hs1. }
  destruct (N.eqb_spec c 45) as [->|Hc].
  - injection Hminus as <- ->.
    exists 45%N, ((h :: i') ++ cf ++ ce). split; [now left|].
    split; [same_list|]. split; [exact Hnot|].
    intros t w Hs4. cbn [app scan_minus N.eqb Pos.eqb].
    replace (h :: (i' ++ cf ++ ce) ++ t) with ((h :: i') ++ cf ++ ce ++ t)
      by same_list.
    rewrite (Hi (cf ++ ce ++ t) w) by (rewrite Hs4; same_list).
    specialize (Hrest t w Hs4).
    destruct (scan_frac (cf ++ ce ++ t)) as [f0 s5].
    destruct (scan_exp s5) as [e0 s6]. injection Hrest as -> -> ->.
    destruct f, e; inversion Hv; reflexivity.
  - injection Hminus as <- -> ->.
    exists h, (i' ++ cf ++ ce). split; [now right|].
    split; [same_list|]. split; [exact Hnot|].
    intros t w Hs4. cbn [app scan_minus].
    destruct (N.eqb_spec h 45); [contradiction|].
    replace (h :: (i' ++ cf ++ ce) ++ t) with ((h :: i') ++ cf ++ ce ++ t)
      by same_list.
    rewrite (Hi (cf ++ ce ++ t) w) by (rewrite Hs4; same_list).
    specialize (Hrest t w Hs4).
    destruct (scan_frac (cf ++ ce ++ t)) as [f0 s5].
    destruct (scan_exp s5) as [e0 s6]. injection Hrest as -> -> ->.
    destruct f, e; inversion Hv; reflexivity.
Qed.

Lemma strip_prefix_Some (p s r : str) :
  strip_prefix p s = Some r -> s = p ++ r.
Proof.
  revert s. induction p as [|a p IH]; intros s; simpl.
  - now intros [= ->].
  - destruct s as [|b s]; [discriminate|].
    destruct (N.eqb_spec a b) as [->|]; [|discriminate].
    intros H. now rewrite (IH s H).
Qed.

Lemma strip_prefix_app (p t : str) : strip_prefix p (p ++ t) = Some t.
Proof.
  induction p as [|a p IH]; simpl; [reflexivity|]. now rewrite N.eqb_refl.
Qed.

(** A text that starts like a number starts like none of the three
    constants that are tried before a number. *)
Lemma number_is_no_constant (h : N) (s : str) :
  h = 45%N \/ is_digit h = true ->
  strip_prefix (lit "null") (h :: s) = None
  /\ strip_prefix (lit "true") (h :: s) = None
  /\ strip_prefix (lit "false") (h :: s) = None.
Proof.
  intros Hh.
  assert (Hlt : (h < 58)%N).
  { destruct Hh as [->|Hd]; [reflexivity|].
    unfold is_digit in Hd. apply andb_true_iff in Hd as [_ Hd].
    apply N.leb_le in Hd. lia. }
  repeat split; cbn;
    match goal with |- context [N.eqb ?a h] =>
      destruct (N.eqb_spec a h) as [<-|]; [lia|reflexivity]
    end.
Qed.

Lemma scan_constant_prefix (s : str) (v : json) (r : str) :
  scan_constant s = Some (v, r) ->
  exists c : str,
    c <> [] /\ s = c ++ r
    /\ (forall items, v <> JObj items)
    /\ forall t w : str, r = t ++ w -> scan_constant (c ++ t) = Some (v, t).
Proof.
  unfold scan_constant.
  destruct (strip_prefix (lit "null") s) as [r0|] eqn:Hnull.
  { intros [= <- <-]. exists (lit "null").
    split; [discriminate|]. split; [now apply strip_prefix_Some|].
    split; [discriminate|]. reflexivity. }
  destruct (strip_prefix (lit "true") s) as [r0|] eqn:Htrue.
  { intros [= <- <-]. exists (lit "true").
    split; [discriminate|]. split; [now apply strip_prefix_Some|].
    split; [discriminate|]. reflexivity. }
  destruct (strip_prefix (lit "false") s) as [r0|] eqn:Hfalse.
  { intros [= <- <-]. exists (lit "false").
    split; [discriminate|]. split; [now apply strip_prefix_Some|].
    split; [discriminate|]. reflexivity. }
  destruct (scan_number s) as [[v0 r0]|] eqn:Hnumber.
  { intros [= <- <-].
    destruct (scan_number_prefix s v0 r0 Hnumber) as (h & c & Hh & -> & Hnot & Hc).
    exists (h :: c). split; [discriminate|]. split; [reflexivity|].
    split; [exact Hnot|]. intros t w Hr.
    destruct (number_is_no_constant h (c ++ t) Hh) as (H1 & H2 & H3).
    cbn [app] in *. rewrite H1, H2, H3. now rewrite (Hc t w Hr). }
  destruct (strip_prefix (lit "NaN") s) as [r0|] eqn:Hnan.
  { intros [= <- <-]. exists (lit "NaN").
    split; [discriminate|]. split; [now apply strip_prefix_Some|].
    split; [discriminate|]. reflexivity. }
  destruct (strip_prefix (lit "Infinity") s) as [r0|] eqn:Hinf.
  { intros [= <- <-]. exists (lit "Infinity").
    split; [discriminate|]. split; [now apply strip_prefix_Some|].
    split; [discriminate|]. reflexivity. }
  destruct (strip_prefix (lit "-Infinity") s) as [r0|] eqn:Hninf; [|discriminate].
  intros [= <- <-]. exists (lit "-Infinity").
  split; [discriminate|]. split; [now apply strip_prefix_Some|].
  split; [discriminate|]. reflexivity.
Qed.

Lemma skip_ws_cons (r : str) (c : N) (r' : str) :
  skip_ws r = c :: r' ->
  exists ws : str,
    r = ws ++ c :: r'
    /\ forall t : str, skip_ws (ws ++ c :: t) = c :: t.
Proof.
  intros Hskip. unfold skip_ws in *.
  destruct (lstrip_by_split json_ws r) as (ws & Hr & Hws & Hhead).
  rewrite Hskip in Hr, Hhead. exists ws. split; [exact Hr|].
  intros t. rewrite lstrip_by_all by exact Hws. now apply lstrip_by_stop.
Qed.

Lemma skip_ws_app (r c r' : str) :
  skip_ws r = c ++ r' ->
  c <> [] ->
  exists ws : str,
    r = ws ++ c ++ r'
    /\ forall t : str, skip_ws (ws ++ c ++ t) = c ++ t.
Proof.
  intros Hskip Hc. destruct c as [|h c]; [contradiction|].
  destruct (skip_ws_cons r h (c ++ r') Hskip) as (ws & Hr & Hws).
  exists ws. split; [exact Hr|]. intros t. apply Hws.
Qed.

Lemma parse_prefix (n : nat) :
  (forall (s : str) (v : json) (r : str),
     parse_value n s = Some (v, r) ->
     exists c : str,
       reads (parse_value n) s v r c
       /\ forall items, v = JObj items ->
            exists body : str, c = 123%N :: body ++ [125%N])
  /\ (forall (s : str) (l : list json) (r : str),
        parse_elements n s = Some (l, r) ->
        exists c : str, reads (parse_elements n) s l r c)
  /\ (forall (s : str) (l : list (str * json)) (r : str),
        parse_members n s = Some (l, r) ->
        exists c : str,
          reads (parse_members n) s l r c
          /\ exists body : str, c = body ++ [125%N]).
Proof.
  induction n as [|n (IHv & IHe & IHm)].
  { repeat split; intros; discriminate. }
  split; [|split].
  - (* a value *)
    intros s v r Hparse. destruct s as [|c s1]; [discriminate Hparse|].
    cbn [parse_value] in Hparse.
    destruct (c =? 34)%N eqn:Hquote.
    { destruct (scan_string s1) as [[units r0]|] eqn:Hscan; [|discriminate Hparse].
      injection Hparse as <- <-.
      destruct (scan_string_prefix _ s1 units r0 (le_n _) Hscan) as (cs & -> & Hcs).
      exists (c :: cs). split; [|intros items; discriminate].
      split; [discriminate|]. split; [reflexivity|].
      intros t w _. cbn [app parse_value]. now rewrite Hquote, Hcs. }
    destruct (c =? 123)%N eqn:Hbrace.
    { apply N.eqb_eq in Hbrace as ->.
      destruct (skip_ws s1) as [|c' r0] eqn:Hskip; [discriminate Hparse|].
      destruct (skip_ws_cons s1 c' r0 Hskip) as (ws & -> & Hws).
      destruct (c' =? 125)%N eqn:Hclose.
      - injection Hparse as <- <-. apply N.eqb_eq in Hclose as ->.
        exists (123%N :: ws ++ [125%N]). split; [|intros; now exists ws].
        split; [discriminate|]. split; [same_list|].
        intros t w _.
        replace ((123%N :: ws ++ [125%N]) ++ t) with (123%N :: ws ++ 125%N :: t)
          by same_list.
        cbn [parse_value N.eqb Pos.eqb]. now rewrite Hws.
      - destruct (parse_members n (c' :: r0)) as [[pairs r1]|] eqn:Hm;
          [|discriminate Hparse].
        injection Hparse as <- <-.
        destruct (IHm _ _ _ Hm) as (cm & (Hne & Heq & Htr) & body & ->).
        exists (123%N :: ws ++ body ++ [125%N]).
        split; [|intros; exists (ws ++ body); same_list].
        split; [discriminate|]. split; [rewrite Heq; same_list|].
        intros t w Hr.
        assert (Hhead : exists x, (body ++ [125%N]) ++ t = c' :: x).
        { destruct body; injection Heq as <- _; eauto. }
        destruct Hhead as [x Hx].
        replace ((123%N :: ws ++ body ++ [125%N]) ++ t)
          with (123%N :: ws ++ c' :: x) by (rewrite <- Hx; same_list).
        cbn [parse_value N.eqb Pos.eqb]. rewrite Hws, Hclose, <- Hx.
        now rewrite (Htr t w Hr). }
    destruct (c =? 91)%N eqn:Hbracket.
    { destruct (skip_ws s1) as [|c' r0] eqn:Hskip; [discriminate Hparse|].
      destruct (skip_ws_cons s1 c' r0 Hskip) as (ws & -> & Hws).
      destruct (c' =? 93)%N eqn:Hclose.
      - injection Hparse as <- <-.
        exists (c :: ws ++ [c']). split; [|intros; discriminate].
        split; [discriminate|]. split; [same_list|].
        intros t w _.
        replace ((c :: ws ++ [c']) ++ t) with (c :: ws ++ c' :: t) by same_list.
        cbn [parse_value]. now rewrite Hquote, Hbrace, Hbracket, Hws, Hclose.
      - destruct (parse_elements n (c' :: r0)) as [[items r1]|] eqn:He;
          [|discriminate Hparse].
        injection Hparse as <- <-.
        destruct (IHe _ _ _ He) as (ce & Hne & Heq & Htr).
        exists (c :: ws ++ ce). split; [|intros; discriminate].
        split; [discriminate|]. split; [rewrite Heq; same_list|].
        intros t w Hr.
        assert (Hhead : exists x, ce ++ t = c' :: x).
        { destruct ce; [contradiction|]. injection Heq as <- _. eauto. }
        destruct Hhead as [x Hx].
        replace ((c :: ws ++ ce) ++ t) with (c :: ws ++ c' :: x)
          by (rewrite <- Hx; same_list).
        cbn [parse_value]. rewrite Hquote, Hbrace, Hbracket, Hws, Hclose, <- Hx.
        now rewrite (Htr t w Hr). }
    destruct (scan_constant_prefix _ v r Hparse) as (cc & Hne & Heq & Hnot & Htr).
    exists cc. split; [|intros items ->; now destruct (Hnot items)].
    split; [exact Hne|]. split; [exact Heq|].
    intros t w Hr. destruct cc as [|x cc]; [contradiction|].
    injection Heq as -> _. cbn [app parse_value].
    rewrite Hquote, Hbrace, Hbracket. exact (Htr t w Hr).
  - (* the elements of an array *)
    intros s l r Hparse. cbn [parse_elements] in Hparse.
    destruct (parse_value n s) as [[v r1]|] eqn:Hv; [|discriminate Hparse].
    destruct (IHv _ _ _ Hv) as (cv & (Hne & -> & Htrv) & _).
    destruct (skip_ws r1) as [|c r2] eqn:Hskip; [discriminate Hparse|].
    destruct (skip_ws_cons r1 c r2 Hskip) as (ws1 & -> & Hws1).
    destruct (c =? 93)%N eqn:Hclose.
    + injection Hparse as <- <-.
      exists (cv ++ ws1 ++ [c]). split; [now destruct cv|]. split; [same_list|].
      intros t w Hr.
      replace ((cv ++ ws1 ++ [c]) ++ t) with (cv ++ ws1 ++ c :: t) by same_list.
      cbn [parse_elements].
      rewrite (Htrv (ws1 ++ c :: t) w) by (rewrite Hr; same_list).
      now rewrite Hws1, Hclose.
    + destruct (c =? 44)%N eqn:Hcomma; [|discriminate Hparse].
      apply prepend_Some in Hparse as (l' & He & ->).
      destruct (IHe _ _ _ He) as (ce & Hnee & Heq & Htre).
      destruct (skip_ws_app r2 ce r Heq Hnee) as (ws2 & -> & Hws2).
      exists (cv ++ ws1 ++ c :: ws2 ++ ce).
      split; [now destruct cv|]. split; [same_list|].
      intros t w Hr.
      replace ((cv ++ ws1 ++ c :: ws2 ++ ce) ++ t)
        with (cv ++ ws1 ++ c :: ws2 ++ ce ++ t) by same_list.
      cbn [parse_elements].
      rewrite (Htrv (ws1 ++ c :: ws2 ++ ce ++ t) w) by (rewrite Hr; same_list).
      rewrite Hws1, Hclose, Hcomma, Hws2, (Htre t w Hr). reflexivity.
  - (* the members of an object *)
    intros s l r Hparse. destruct s as [|q s1]; [discriminate Hparse|].
    cbn [parse_members] in Hparse.
    destruct (q =? 34)%N eqn:Hquote; [|discriminate Hparse].
    destruct (scan_string s1) as [[units r1]|] eqn:Hscan; [|discriminate Hparse].
    destruct (scan_string_prefix _ s1 units r1 (le_n _) Hscan) as (ck & -> & Hck).
    destruct (skip_ws r1) as [|c r2] eqn:Hskip1; [discriminate Hparse|].
    destruct (skip_ws_cons r1 c r2 Hskip1) as (ws1 & -> & Hws1).
    destruct (c =? 58)%N eqn:Hcolon; [|discriminate Hparse].
    destruct (parse_value n (skip_ws r2)) as [[v r3]|] eqn:Hv;
      [|discriminate Hparse].
    destruct (IHv _ _ _ Hv) as (cv & (Hnev & Heqv & Htrv) & _).
    destruct (skip_ws_app r2 cv r3 Heqv Hnev) as (ws2 & -> & Hws2).
    destruct (skip_ws r3) as [|c' r4] eqn:Hskip3; [discriminate Hparse|].
    destruct (skip_ws_cons r3 c' r4 Hskip3) as (ws3 & -> & Hws3).
    destruct (c' =? 125)%N eqn:Hclose.
    + injection Hparse as <- <-. apply N.eqb_eq in Hclose as ->.
      exists ((q :: ck ++ ws1 ++ c :: ws2 ++ cv ++ ws3) ++ [125%N]).
      split; [|eauto]. split; [discriminate|]. split; [same_list|].
      intros t w Hr.
      replace (((q :: ck ++ ws1 ++ c :: ws2 ++ cv ++ ws3) ++ [125%N]) ++ t)
        with (q :: ck ++ ws1 ++ c :: ws2 ++ cv ++ ws3 ++ 125%N :: t)
        by same_list.
      cbn [parse_members]. rewrite Hquote, Hck, Hws1, Hcolon, Hws2.
      rewrite (Htrv (ws3 ++ 125%N :: t) w) by (rewrite Hr; same_list).
      now rewrite Hws3.
    + destruct (c' =? 44)%N eqn:Hcomma; [|discriminate Hparse].
      apply prepend_Some in Hparse as (l' & Hm & ->).
      destruct (IHm _ _ _ Hm) as (cm & (Hnem & Heqm & Htrm) & body & ->).
      destruct (skip_ws_app r4 _ r Heqm Hnem) as (ws4 & -> & Hws4).
      exists ((q :: ck ++ ws1 ++ c :: ws2 ++ cv ++ ws3 ++ c' :: ws4 ++ body)
              ++ [125%N]).
      split; [|eauto]. split; [discriminate|]. split; [same_list|].
      intros t w Hr.
      replace (((q :: ck ++ ws1 ++ c :: ws2 ++ cv ++ ws3 ++ c' :: ws4 ++ body)
                ++ [125%N]) ++ t)
        with (q :: ck ++ ws1 ++ c :: ws2 ++ cv ++ ws3 ++ c' :: ws4
                ++ (body ++ [125%N]) ++ t)
        by same_list.
      cbn [parse_members]. rewrite Hquote, Hck, Hws1, Hcolon, Hws2.
      rewrite (Htrv (ws3 ++ c' :: ws4 ++ (body ++ [125%N]) ++ t) w)
        by (rewrite Hr; same_list).
      rewrite Hws3, Hclose, Hcomma, Hws4, (Htrm t w Hr). reflexivity.
Qed.

Lemma lstrip_by_nil (p : N -> bool) (s : str) :
  lstrip_by p s = [] -> Forall (fun c => p c = true) s.
Proof.
  intros Hnil. destruct (lstrip_by_split p s) as (l & Hs & Hl & _).
  rewrite Hnil, app_nil_r in Hs. now rewrite Hs.
Qed.

Lemma filter_json_ws (l : str) :
  Forall (fun c => json_ws c = true) l ->
  List.filter (fun c => negb (json_ws c)) l = [].
Proof.
  induction 1 as [|c l Hc _ IH]; simpl; [reflexivity|]. now rewrite Hc.
Qed.

Lemma decoder_fuel_strip (l s r : str) :
  Forall (fun c => json_ws c = true) l ->
  Forall (fun c => json_ws c = true) r ->
  decoder_fuel (l ++ s ++ r) = decoder_fuel s.
Proof.
  intros Hl Hr. unfold decoder_fuel, significant.
  rewrite !List.filter_app, (filter_json_ws l Hl), (filter_json_ws r Hr).
  now rewrite app_nil_r.
Qed.

(** A text that decodes to an object: white space, the object between
    its braces, white space; and the object alone decodes to the same. *)
Lemma decode_object (s : str) (items : list (str * json)) :
  decode s = Ok (JObj items) ->
  exists body : str,
    strip_by json_ws s = 123%N :: body ++ [125%N]
    /\ decode (123%N :: body ++ [125%N]) = Ok (JObj items).
Proof.
  unfold decode.
  destruct (parse_value (decoder_fuel s) (skip_ws s)) as [[v r]|] eqn:Hparse;
    [|discriminate].
  destruct (skip_ws r) eqn:Hrest; [|discriminate]. intros [= ->].
  destruct (parse_prefix (decoder_fuel s)) as (Hvalue & _ & _).
  destruct (Hvalue _ _ _ Hparse) as (c & (_ & Hc & Htrunc) & Hshape).
  destruct (Hshape items eq_refl) as [body ->].
  destruct (lstrip_by_split json_ws s) as (l & Hs & Hl & _).
  fold (skip_ws s) in Hs. rewrite Hc in Hs.
  pose proof (lstrip_by_nil json_ws r Hrest) as Hr.
  assert (Hbounded : bounded json_ws (123%N :: body ++ [125%N])).
  { split; [reflexivity|]. simpl. rewrite rev_app_distr. reflexivity. }
  exists body. split.
  - rewrite Hs. now apply strip_by_bounded.
  - rewrite <- (decoder_fuel_strip l _ r Hl Hr), <- Hs.
    specialize (Htrunc [] r eq_refl). rewrite app_nil_r in Htrunc.
    cbn [skip_ws lstrip_by json_ws N.eqb Pos.eqb orb].
    change (lstrip_by json_ws (123%N :: body ++ [125%N]))
      with (123%N :: body ++ [125%N]).
    now rewrite Htrunc.
Qed.

Lemma decode_strip (s : str) (items : list (str * json)) :
  decode s = Ok (JObj items) ->
  decode (strip_by json_ws s) = Ok (JObj items).
Proof.
  intros Hdecode. destruct (decode_object s items Hdecode) as (body & -> & Hbody).
  exact Hbody.
Qed.

Lemma decode_braces (s : str) (items : list (str * json)) :
  decode s = Ok (JObj items) ->
  exists body : str, strip_by json_ws s = 123%N :: body ++ [125%N].
Proof.
  intros Hdecode. destruct (decode_object s items Hdecode) as (body & Hs & _).
  eauto.
Qed.

(** ** The decoder has fuel enough *)

Lemma significant_app (a b : str) :
  significant (a ++ b) = significant a + significant b.
Proof. unfold significant. now rewrite List.filter_app, length_app. Qed.

Lemma significant_cons (c : N) (s : str) :
  json_ws c = false -> significant (c :: s) = S (significant s).
Proof. intros Hc. unfold significant. simpl. now rewrite Hc. Qed.

Lemma significant_skip_ws (s : str) : significant (skip_ws s) = significant s.
Proof.
  unfold skip_ws. destruct (lstrip_by_split json_ws s) as (l & Hs & Hl & _).
  rewrite Hs at 2. rewrite significant_app. unfold significant at 2.
  now rewrite (filter_json_ws l Hl).
Qed.

Lemma skip_ws_head (s : str) (c : N) (r : str) :
  skip_ws s = c :: r -> json_ws c = false.
Proof.
  unfold skip_ws. intros Hs.
  destruct (lstrip_by_split json_ws s) as (_ & _ & _ & Hhead).
  now rewrite Hs in Hhead.
Qed.

Lemma scan_string_significant (s : str) (units : list (bool * N)) (r : str) :
  scan_string s = Some (units, r) -> significant r <= significant s.
Proof.
  intros Hscan.
  destruct (scan_string_prefix _ s units r (le_n _) Hscan) as (c & -> & _).
  rewrite significant_app. lia.
Qed.

Lemma scan_constant_significant (s : str) (v : json) (r : str) :
  scan_constant s = Some (v, r) -> significant r + 1 <= significant s.
Proof.
  intros Hscan.
  destruct (scan_constant_prefix s v r Hscan) as (c & Hne & -> & _ & _).
  destruct c as [|h c]; [contradiction|].
  assert (Hh : json_ws h = false).
  { destruct (json_ws h) eqn:Hws; [|reflexivity].
    destruct (json_ws_cases h Hws) as [->|[->|[->| ->]]]; discriminate Hscan. }
  cbn [app]. rewrite (significant_cons h _ Hh), significant_app. lia.
Qed.

(** What a parse with some fuel returns, a parse with twice the number
    of significant code points it read returns too. *)
Lemma parse_fuel (m : nat) :
  (forall (s : str) (v : json) (r : str),
     parse_value m s = Some (v, r) ->
     significant r + 1 <= significant s
     /\ forall n : nat,
          2 * (significant s - significant r) <= n + 1 ->
          parse_value n s = Some (v, r))
  /\ (forall (s : str) (l : list json) (r : str),
        parse_elements m s = Some (l, r) ->
        significant r + 2 <= significant s
        /\ forall n : nat,
             2 * (significant s - significant r) <= n + 2 ->
             parse_elements n s = Some (l, r))
  /\ (forall (s : str) (l : list (str * json)) (r : str),
        parse_members m s = Some (l, r) ->
        significant r + 2 <= significant s
        /\ forall n : nat,
             2 * (significant s - significant r) <= n + 2 ->
             parse_members n s = Some (l, r)).
Proof.
  induction m as [|m (IHv & IHe & IHm)].
  { repeat split; intros; discriminate. }
  split; [|split].
  - (* a value *)
    intros s v r Hparse. destruct s as [|c s1]; [discriminate Hparse|].
    cbn [parse_value] in Hparse.
    destruct (c =? 34)%N eqn:Hquote.
    { destruct (scan_string s1) as [[units r0]|] eqn:Hscan; [|discriminate Hparse].
      injection Hparse as <- <-.
      pose proof (scan_string_significant _ _ _ Hscan) as Hle.
      apply N.eqb_eq in Hquote as ->.
      rewrite (significant_cons 34%N s1 eq_refl).
      split; [lia|]. intros [|n] Hn; [lia|].
      cbn [parse_value N.eqb Pos.eqb]. now rewrite Hscan. }
    destruct (c =? 123)%N eqn:Hbrace.
    { apply N.eqb_eq in Hbrace as ->.
      rewrite (significant_cons 123%N s1 eq_refl), <- (significant_skip_ws s1).
      destruct (skip_ws s1) as [|c' r0] eqn:Hskip; [discriminate Hparse|].
      pose proof (skip_ws_head _ _ _ Hskip) as Hc'.
      destruct (c' =? 125)%N eqn:Hclose.
      - injection Hparse as <- <-. rewrite (significant_cons c' r0 Hc').
        split; [lia|]. intros [|n] Hn; [lia|].
        cbn [parse_value N.eqb Pos.eqb]. now rewrite Hskip, Hclose.
      - destruct (parse_members m (c' :: r0)) as [[pairs r1]|] eqn:Hm;
          [|discriminate Hparse].
        injection Hparse as <- <-.
        destruct (IHm _ _ _ Hm) as [Hle Hfuel].
        split; [lia|]. intros [|n] Hn; [lia|].
        cbn [parse_value N.eqb Pos.eqb]. rewrite Hskip, Hclose.
        now rewrite (Hfuel n) by lia. }
    destruct (c =? 91)%N eqn:Hbracket.
    { apply N.eqb_eq in Hbracket as ->.
      rewrite (significant_cons 91%N s1 eq_refl), <- (significant_skip_ws s1).
      destruct (skip_ws s1) as [|c' r0] eqn:Hskip; [discriminate Hparse|].
      pose proof (skip_ws_head _ _ _ Hskip) as Hc'.
      destruct (c' =? 93)%N eqn:Hclose.
      - injection Hparse as <- <-. rewrite (significant_cons c' r0 Hc').
        split; [lia|]. intros [|n] Hn; [lia|].
        cbn [parse_value N.eqb Pos.eqb]. now rewrite Hskip, Hclose.
      - destruct (parse_elements m (c' :: r0)) as [[items r1]|] eqn:He;
          [|discriminate Hparse].
        injection Hparse as <- <-.
        destruct (IHe _ _ _ He) as [Hle Hfuel].
        split; [lia|]. intros [|n] Hn; [lia|].
        cbn [parse_value N.eqb Pos.eqb]. rewrite Hskip, Hclose.
        now rewrite (Hfuel n) by lia. }
    pose proof (scan_constant_significant _ _ _ Hparse) as Hle.
    split; [exact Hle|]. intros [|n] Hn; [lia|].
    cbn [parse_value]. now rewrite Hquote, Hbrace, Hbracket.
  - (* the elements of an array *)
    intros s l r Hparse. cbn [parse_elements] in Hparse.
    destruct (parse_value m s) as [[v r1]|] eqn:Hv; [|discriminate Hparse].
    destruct (IHv _ _ _ Hv) as [Hlev Hfuelv].
    rewrite <- (significant_skip_ws r1) in Hlev, Hfuelv.
    destruct (skip_ws r1) as [|c r2] eqn:Hskip; [discriminate Hparse|].
    rewrite (significant_cons c r2 (skip_ws_head _ _ _ Hskip)) in Hlev, Hfuelv.
    destruct (c =? 93)%N eqn:Hclose.
    + injection Hparse as <- <-. split; [lia|].
      intros [|n] Hn; [lia|]. cbn [parse_elements].
      rewrite (Hfuelv n) by lia. now rewrite Hskip, Hclose.
    + destruct (c =? 44)%N eqn:Hcomma; [|discriminate Hparse].
      apply prepend_Some in Hparse as (l' & He & ->).
      destruct (IHe _ _ _ He) as [Hlee Hfuele].
      rewrite significant_skip_ws in Hlee, Hfuele.
      split; [lia|]. intros [|n] Hn; [lia|]. cbn [parse_elements].
      rewrite (Hfuelv n) by lia. rewrite Hskip, Hclose, Hcomma.
      now rewrite (Hfuele n) by lia.
  - (* the members of an object *)
    intros s l r Hparse. destruct s as [|q s1]; [discriminate Hparse|].
    cbn [parse_members] in Hparse.
    destruct (q =? 34)%N eqn:Hquote; [|discriminate Hparse].
    destruct (scan_string s1) as [[units r1]|] eqn:Hscan; [|discriminate Hparse].
    pose proof (scan_string_significant _ _ _ Hscan) as Hles.
    rewrite <- (significant_skip_ws r1) in Hles.
    destruct (skip_ws r1) as [|c r2] eqn:Hskip1; [discriminate Hparse|].
    rewrite (significant_cons c r2 (skip_ws_head _ _ _ Hskip1)) in Hles.
    destruct (c =? 58)%N eqn:Hcolon; [|discriminate Hparse].
    destruct (parse_value m (skip_ws r2)) as [[v r3]|] eqn:Hv;
      [|discriminate Hparse].
    destruct (IHv _ _ _ Hv) as [Hlev Hfuelv].
    rewrite significant_skip_ws in Hlev, Hfuelv.
    rewrite <- (significant_skip_ws r3) in Hlev, Hfuelv.
    destruct (skip_ws r3) as [|c' r4] eqn:Hskip3; [discriminate Hparse|].
    rewrite (significant_cons c' r4 (skip_ws_head _ _ _ Hskip3)) in Hlev, Hfuelv.
    apply N.eqb_eq in Hquote as ->.
    rewrite (significant_cons 34%N s1 eq_refl).
    destruct (c' =? 125)%N eqn:Hclose.
    + injection Hparse as <- <-. split; [lia|].
      intros [|n] Hn; [lia|]. cbn [parse_members N.eqb Pos.eqb].
      rewrite Hscan, Hskip1, Hcolon. rewrite (Hfuelv n) by lia.
      now rewrite Hskip3, Hclose.
    + destruct (c' =? 44)%N eqn:Hcomma; [|discriminate Hparse].
      apply prepend_Some in Hparse as (l' & Hm & ->).
      destruct (IHm _ _ _ Hm) as [Hlem Hfuelm].
      rewrite significant_skip_ws in Hlem, Hfuelm.
      split; [lia|]. intros [|n] Hn; [lia|]. cbn [parse_members N.eqb Pos.eqb].
      rewrite Hscan, Hskip1, Hcolon. rewrite (Hfuelv n) by lia.
      rewrite Hskip3, Hclose, Hcomma. now rewrite (Hfuelm n) by lia.
Qed.

(** The fuel [decode] gives is never what a text fails for: what any
    amount of fuel decodes, [decoder_fuel] decodes. *)
Lemma decoder_fuel_enough (m : nat) (s : str) (v : json) (r : str) :
  parse_value m (skip_ws s) = Some (v, r) ->
  parse_value (decoder_fuel s) (skip_ws s) = Some (v, r).
Proof.
  intros Hparse. destruct (parse_fuel m) as (Hvalue & _ & _).
  destruct (Hvalue _ _ _ Hparse) as [_ Hfuel]. apply Hfuel.
  rewrite significant_skip_ws. unfold decoder_fuel. lia.
Qed.

(** The decoder at a few texts. *)
Example decode_numbers :
  decode (lit "[0, -12, 2.5e-3, 1E2]")
  = Ok (JArr [JInt 0; JInt (-12); JFloat (Decimal 25 (-4)); JFloat (Decimal 1 2)]).
Proof. vm_compute. reflexivity. Qed.

Example decode_escapes :
  decode (quoted (lit "a\n\ud83d\ude00\u00e9"))
  = Ok (JStr [97; 10; 128512; 233]%N).
Proof. vm_compute. reflexivity. Qed.

Example decode_nested :
  decode (lit " [[], {}, [true, false, null], [[[1]]]] ")
  = Ok (JArr [JArr []; JObj []; JArr [JBool true; JBool false; JNull];
              JArr [JArr [JArr [JInt 1]]]]).
Proof. vm_compute. reflexivity. Qed.

Example decode_last_key_wins :
  decode (lit "{" ++ quoted (lit "a") ++ lit ": 1, " ++ quoted (lit "b")
          ++ lit ": 2, " ++ quoted (lit "a") ++ lit ": 3}")
  = Ok (JObj [(lit "a", JInt 3); (lit "b", JInt 2)]).
Proof. vm_compute. reflexivity. Qed.

Example decode_rejects :
  decode (lit "[1,]") = Raise JSONDecodeError
  /\ decode (lit "01") = Raise JSONDecodeError
  /\ decode (lit "{} x") = Raise JSONDecodeError
  /\ decode (lit "") = Raise JSONDecodeError
  /\ decode (fenced true (lit "{}")) = Raise JSONDecodeError.
Proof. vm_compute. repeat split. Qed.

(** ** The claims at the scenarios *)

Lemma every_line_prints (k : nat) (slides : list json) :
  image_lines_printable (console := every_line) k slides.
Proof. intros i slide _. split; [reflexivity|]. intros e. reflexivity. Qed.

Lemma image_map_covers_every_slide_witness :
  exists (images : nat) (d : gmap nat (option bytes)) (w' : world),
    generate_presentation_slide_images (console := every_line) service_down 0
      (world_of two_slide_outline ∅) = (Ok images, w')
    /\ heap w' !! images = Some (PyImages d)
    /\ forall i : nat, is_Some (d !! i) <-> i < 2.
Proof.
  apply (image_map_covers_every_slide (console := every_line) service_down
           (world_of two_slide_outline ∅) 0 two_slide_outline two_slides
           eq_refl eq_refl eq_refl (every_line_prints 0 two_slides)).
Defined.

(** C1 as it is stated, with slides that carry an 'image_prompt' only,
    does not hold: a slide object without 'slide_title' makes the
    function raise, on a console that encodes every line.  Nor does it
    hold for slides that carry both fields on every console: a title
    that is a lone surrogate makes the [print] of a UTF-8 console
    raise. *)
Lemma image_map_needs_slide_title :
  ~ (forall (console : Console)
            (generate_content : list request -> request ->
                                res GenerateContentResponse)
            (w : world) (outline : nat) (o : json) (slides : list json),
       heap w !! outline = Some (PyJson o) ->
       getitem o (lit "slides") = Ok (JArr slides) ->
       forallb (has_field (lit "image_prompt")) slides = true ->
       exists (images : nat) (d : gmap nat (option bytes)) (w' : world),
         generate_presentation_slide_images (console := console)
           generate_content outline w = (Ok images, w')
         /\ heap w' !! images = Some (PyImages d)
         /\ forall i : nat, is_Some (d !! i) <-> i < length slides)
  /\ ~ (forall (console : Console)
               (generate_content : list request -> request ->
                                   res GenerateContentResponse)
               (w : world) (outline : nat) (o : json) (slides : list json),
          heap w !! outline = Some (PyJson o) ->
          getitem o (lit "slides") = Ok (JArr slides) ->
          forallb slide_readable slides = true ->
          exists (images : nat) (d : gmap nat (option bytes)) (w' : world),
            generate_presentation_slide_images (console := console)
              generate_content outline w = (Ok images, w')
            /\ heap w' !! images = Some (PyImages d)
            /\ forall i : nat, is_Some (d !! i) <-> i < length slides).
Proof.
  split; intros Hclaim.
  - destruct (Hclaim every_line service_down (world_of untitled_outline ∅) 0
                untitled_outline [untitled_slide] eq_refl eq_refl eq_refl)
      as (images & d & w' & Hrun & _).
    vm_compute in Hrun. discriminate Hrun.
  - destruct (Hclaim utf8_console service_up (world_of surrogate_outline ∅) 0
                surrogate_outline [sample_slide "One"; surrogate_slide]
                eq_refl eq_refl eq_refl)
      as (images & d & w' & Hrun & _).
    vm_compute in Hrun. discriminate Hrun.
Qed.

Lemma image_failure_is_absorbed_witness :
  exists (images : nat) (d : gmap nat (option bytes)) (w' : world),
    generate_presentation_slide_images (console := every_line) service_down 0
      (world_of two_slide_outline ∅) = (Ok images, w')
    /\ heap w' !! images = Some (PyImages d)
    /\ sent w' = image_request <$> image_prompts two_slides
    /\ forall (i : nat) (p : json),
         image_prompts two_slides !! i = Some p ->
         image_failure service_down
           (image_request <$> take i (image_prompts two_slides)) p ->
         d !! i = Some None.
Proof.
  apply (image_failure_is_absorbed (console := every_line) service_down
           (world_of two_slide_outline ∅) 0 two_slide_outline two_slides
           eq_refl eq_refl eq_refl (every_line_prints 0 two_slides)).
Defined.

(** C2 as it is stated does not hold: the handler prints the error
    before it records None, and on a console that cannot encode the
    text of the error that [print] raises to the caller. *)
Lemma image_failure_can_escape :
  ~ (forall (console : Console)
            (generate_content : list request -> request ->
                                res GenerateContentResponse)
            (w : world) (outline : nat) (o : json) (slides : list json),
       heap w !! outline = Some (PyJson o) ->
       getitem o (lit "slides") = Ok (JArr slides) ->
       forallb slide_readable slides = true ->
       exists (images : nat) (d : gmap nat (option bytes)) (w' : world),
         generate_presentation_slide_images (console := console)
           generate_content outline w = (Ok images, w')
         /\ heap w' !! images = Some (PyImages d)
         /\ sent w' = sent w ++ (image_request <$> image_prompts slides)
         /\ forall (i : nat) (p : json),
              image_prompts slides !! i = Some p ->
              image_failure generate_content
                (sent w ++ (image_request <$> take i (image_prompts slides)))
                p ->
              d !! i = Some None).
Proof.
  intros Hclaim.
  destruct (Hclaim no_error_lines service_down (world_of two_slide_outline ∅)
              0 two_slide_outline two_slides eq_refl eq_refl eq_refl)
    as (images & d & w' & Hrun & _).
  vm_compute in Hrun. discriminate Hrun.
Qed.

Lemma first_inline_part_is_recorded_witness :
  exists (images : nat) (d : gmap nat (option bytes)) (w' : world),
    generate_presentation_slide_images (console := every_line) service_up 0
      (world_of two_slide_outline ∅) = (Ok images, w')
    /\ heap w' !! images = Some (PyImages d)
    /\ (forall (pre : list Part) (part : Part) (blob : Blob) (post : list Part),
          text_then_image = pre ++ part :: post ->
          Forall (fun q => inline_data q = None) pre ->
          inline_data part = Some blob ->
          d !! 1 = Some (data blob))
    /\ (Forall (fun q => inline_data q = None) text_then_image ->
        d !! 1 = Some None).
Proof.
  apply (first_inline_part_is_recorded (console := every_line) service_up
           (world_of two_slide_outline ∅) 0 two_slide_outline two_slides
           1 (JStr (lit "a picture")) image_response text_then_image
           eq_refl eq_refl eq_refl (every_line_prints 0 two_slides)
           eq_refl eq_refl eq_refl).
Defined.

Lemma missing_field_escapes_the_try_witness :
  exists (key : str) (w' : world) (d : gmap nat (option bytes)),
    generate_presentation_slide_images (console := every_line) service_up 0
      (world_of second_untitled_outline ∅) = (Raise (KeyError (JStr key)), w')
    /\ (key = lit "image_prompt" \/ key = lit "slide_title")
    /\ sent w' = [image_request (JStr (lit "a picture"))]
    /\ heap w' !! 2 = Some (PyImages d)
    /\ d !! 1 = None.
Proof.
  apply (missing_field_escapes_the_try (console := every_line) service_up
           (world_of second_untitled_outline ∅) 0 second_untitled_outline
           [sample_slide "One"] [(lit "image_prompt", JStr (lit "a picture"))] []
           eq_refl eq_refl eq_refl (every_line_prints 0 [sample_slide "One"])
           eq_refl).
Defined.


Lemma five_slides_one_without_picture_witness :
  exists (prs : presentation) (w' : world),
    create_presentation_file (console := every_line) every_image every_file
      0 1 (lit "deck.pptx") (world_of five_slide_outline five_images)
      = (Ok tt, w')
    /\ files w' !! lit "deck.pptx" = Some prs
    /\ length (slides prs) = 6
    /\ layout <$> slides prs = [0; 1; 1; 1; 1; 1]
    /\ has_picture <$> drop 1 (slides prs) = [true; true; false; true; true].
Proof.
  apply (five_slides_one_without_picture (console := every_line)
           every_image every_file
           (world_of five_slide_outline five_images) 0 1 (lit "deck.pptx")
           five_slide_outline (lit "Deck")
           (sample_slide "One") (sample_slide "Two") (sample_slide "Three")
           (sample_slide "Four") (sample_slide "Five") five_images);
    try reflexivity.
  intros i Hlt Hne. exists png.
  destruct i as [|[|[|[|[|i]]]]]; try (split; reflexivity).
  - exfalso. apply Hne. reflexivity.
  - exfalso. lia.
Defined.



Lemma fenced_outline_decodes_witness :
  decode one_slide_text = Ok (JObj one_slide_items)
  /\ clean_json_text (fenced true one_slide_text)
     = strip_by json_ws one_slide_text
  /\ decode (clean_json_text (fenced true one_slide_text))
     = decode one_slide_text
  /\ fst (generate_presentation_slide_text (console := utf8_console)
            service_fenced decode (lit "Topic") 1 empty_world)
     = Ok (JObj one_slide_items).
Proof.
  split; [vm_compute; reflexivity|].
  apply (fenced_outline_decodes (console := utf8_console) service_fenced
           decode decode_strip
           decode_braces true one_slide_text one_slide_items (lit "Topic") 1
           fenced_response empty_world);
    [vm_compute; reflexivity|reflexivity|reflexivity].
Defined.

(** * More of the code *)

(** ** The cleaning of the response text *)

Lemma strip_by_is_bounded (p : N -> bool) (s : str) : bounded p (strip_by p s).
Proof.
  unfold strip_by, rstrip_by.
  destruct (lstrip_by_split p s) as (_ & _ & _ & Hhead).
  set (u := lstrip_by p s) in *.
  destruct (lstrip_by_split p (rev u)) as (r & Hr & _ & Hlast).
  split; [|now rewrite rev_involutive].
  apply (f_equal (@rev N)) in Hr. rewrite rev_involutive, rev_app_distr in Hr.
  destruct (rev (lstrip_by p (rev u))) as [|c x]; [exact I|].
  rewrite Hr in Hhead. exact Hhead.
Qed.

(** X2.  The three strips only trim: the cleaned text is a run of the
    response text, with something cut off before and after it and
    nothing changed inside, and neither of its ends is white space. *)
Theorem clean_json_text_only_trims (text : str) :
  (exists l r : str, text = l ++ clean_json_text text ++ r)
  /\ bounded py_isspace (clean_json_text text).
Proof.
  split; [|apply strip_by_is_bounded].
  unfold clean_json_text, py_strip, py_strip_chars.
  destruct (strip_by_split (in_chars (lit "`")) text) as (l1 & r1 & H1 & _).
  set (t1 := strip_by (in_chars (lit "`")) text) in *.
  destruct (strip_by_split (in_chars (lit "json")) t1) as (l2 & r2 & H2 & _).
  set (t2 := strip_by (in_chars (lit "json")) t1) in *.
  destruct (strip_by_split py_isspace t2) as (l3 & r3 & H3 & _).
  exists (l1 ++ l2 ++ l3), (r3 ++ r2 ++ r1).
  rewrite H1 at 1. rewrite H2 at 1. rewrite H3 at 1.
  now rewrite <- !app_assoc.
Qed.

(** X3.  A text that is an object between its braces, with JSON white
    space around it at most and no fence, comes out of the three strips
    as the object alone. *)
Theorem clean_json_text_plain (text body : str) :
  strip_by json_ws text = 123%N :: body ++ [125%N] ->
  clean_json_text text = strip_by json_ws text.
Proof.
  intros Hcore.
  destruct (strip_by_split json_ws text) as (l & r & Htext & Hl & Hr).
  rewrite Hcore in Htext.
  assert (Hkeep : forall p, keeps_json p -> strip_by p text = text).
  { intros p Hp. rewrite <- (app_nil_l text) at 1.
    rewrite <- (app_nil_r text) at 1.
    apply strip_by_bounded; [constructor..|].
    rewrite Htext. now apply bounded_braced. }
  unfold clean_json_text, py_strip_chars.
  rewrite (Hkeep _ keeps_json_backtick), (Hkeep _ keeps_json_tag), Hcore.
  unfold py_strip. rewrite Htext.
  apply strip_by_bounded.
  - eapply List.Forall_impl; [apply json_ws_isspace|exact Hl].
  - eapply List.Forall_impl; [apply json_ws_isspace|exact Hr].
  - split; [reflexivity|]. simpl. rewrite rev_app_distr. reflexivity.
Qed.

Lemma clean_json_text_plain_witness :
  strip_by json_ws one_slide_text
  = 123%N :: removelast (tl (strip_by json_ws one_slide_text)) ++ [125%N]
  /\ clean_json_text one_slide_text = strip_by json_ws one_slide_text.
Proof.
  split; [vm_compute; reflexivity|].
  apply (clean_json_text_plain one_slide_text
           (removelast (tl (strip_by json_ws one_slide_text)))).
  vm_compute. reflexivity.
Defined.

Lemma strip_by_fixed (p : N -> bool) (s : str) :
  bounded p s -> strip_by p s = s.
Proof.
  intros Hs. rewrite <- (app_nil_l s) at 1. rewrite <- (app_nil_r s) at 1.
  apply strip_by_bounded; [constructor..|exact Hs].
Qed.

Lemma bounded_ends (p : N -> bool) (a b : N) (s : str) :
  p a = false -> p b = false -> bounded p (a :: s ++ [b]).
Proof.
  intros Ha Hb. split; [exact Ha|]. simpl. now rewrite rev_app_distr.
Qed.

(** The cleaned text when white space follows the closing fence: the
    fence is still there. *)
Lemma clean_json_text_fence_then_space (tagged : bool) (text body tail : str) :
  strip_by json_ws text = 123%N :: body ++ [125%N] ->
  tail <> [] ->
  Forall (fun c => json_ws c = true) tail ->
  exists r : str,
    Forall (fun c => json_ws c = true) r
    /\ clean_json_text (fenced tagged text ++ tail)
       = 123%N :: (body ++ [125%N] ++ r ++ [96; 96]%N) ++ [96%N].
Proof.
  intros Hcore Htail Hws.
  destruct (strip_by_split json_ws text) as (l & r & Htext & Hl & Hr).
  rewrite Hcore in Htext. exists r. split; [exact Hr|].
  destruct (exists_last Htail) as (tail' & z & ->).
  assert (Hz : json_ws z = true).
  { apply Forall_app in Hws as [_ Hz]. now inversion Hz. }
  assert (Hend : forall (p : N -> bool) (x : str),
            keeps_json p ->
            match x ++ tail' ++ [z] with
            | [] => True | c :: _ => p c = false end ->
            bounded p (x ++ tail' ++ [z])).
  { intros p x (Hp & _ & _) Hhead. split; [exact Hhead|].
    rewrite !rev_app_distr. simpl. now apply Hp. }
  assert (Hhead : forall (p : N -> bool) (x : str),
            keeps_json p ->
            match text ++ x with [] => True | c :: _ => p c = false end).
  { intros p x (Hp & Hopen & _). rewrite Htext.
    destruct Hl as [|c l Hc _]; simpl; auto. }
  assert (Hstep1 : py_strip_chars (lit "`") (fenced tagged text ++ tail' ++ [z])
                   = (if tagged then lit "json" else [])
                     ++ text ++ fence ++ tail' ++ [z]).
  { unfold fenced, py_strip_chars.
    replace ((fence ++ (if tagged then lit "json" else []) ++ text ++ fence)
             ++ tail' ++ [z])
      with (fence ++ ((if tagged then lit "json" else [])
                      ++ (text ++ fence) ++ tail' ++ [z]) ++ [])
      by (rewrite app_nil_r, <- !app_assoc; reflexivity).
    rewrite strip_by_bounded; [now rewrite <- !app_assoc|repeat constructor..|].
    rewrite app_assoc. apply Hend; [apply keeps_json_backtick|].
    destruct tagged; [reflexivity|]. cbn [app]. rewrite <- app_assoc.
    apply Hhead, keeps_json_backtick. }
  assert (Hstep2 : py_strip_chars (lit "json")
                     ((if tagged then lit "json" else [])
                      ++ text ++ fence ++ tail' ++ [z])
                   = text ++ fence ++ tail' ++ [z]).
  { unfold py_strip_chars.
    replace ((if tagged then lit "json" else []) ++ text ++ fence ++ tail' ++ [z])
      with ((if tagged then lit "json" else [])
            ++ ((text ++ fence) ++ tail' ++ [z]) ++ [])
      by (rewrite app_nil_r, <- !app_assoc; reflexivity).
    rewrite strip_by_bounded; [now rewrite <- !app_assoc| |constructor|].
    - destruct tagged; repeat constructor.
    - apply Hend; [apply keeps_json_tag|]. rewrite <- app_assoc.
      apply Hhead, keeps_json_tag. }
  unfold clean_json_text. rewrite Hstep1, Hstep2. unfold py_strip.
  replace (text ++ fence ++ tail' ++ [z])
    with (l ++ (123%N :: (body ++ [125%N] ++ r ++ [96; 96]%N) ++ [96%N])
            ++ tail' ++ [z])
    by (rewrite Htext; unfold fence; cbn; rewrite <- !app_assoc; cbn;
        rewrite <- !app_assoc; reflexivity).
  apply strip_by_bounded.
  - eapply List.Forall_impl; [apply json_ws_isspace|exact Hl].
  - eapply List.Forall_impl; [apply json_ws_isspace|exact Hws].
  - now apply bounded_ends.
Qed.

Section FenceThenSpace.

Variable json_loads : str -> res json.

(** The text of an object is, JSON white space apart, between braces. *)
Hypothesis json_loads_braces :
  forall (s : str) (items : list (str * json)),
  json_loads s = Ok (JObj items) ->
  exists body : str, strip_by json_ws s = 123%N :: body ++ [125%N].

(** X4.  When white space (a line feed, say) follows the closing fence,
    the first strip stops at it and the closing fence stays: the cleaned
    text ends with the fence, and a decoder that reads an object only
    from a text between braces gives no object for it. *)
Theorem space_after_the_fence_defeats_cleaning (tagged : bool)
    (text body tail : str) :
  strip_by json_ws text = 123%N :: body ++ [125%N] ->
  tail <> [] ->
  Forall (fun c => json_ws c = true) tail ->
  (exists x : str, clean_json_text (fenced tagged text ++ tail) = x ++ fence)
  /\ forall items : list (str * json),
       json_loads (clean_json_text (fenced tagged text ++ tail))
       <> Ok (JObj items).
Proof.
  intros Hcore Htail Hws.
  destruct (clean_json_text_fence_then_space tagged text body tail
              Hcore Htail Hws) as (r & Hr & Hclean).
  split.
  - exists (123%N :: body ++ [125%N] ++ r). rewrite Hclean.
    change fence with ([96; 96]%N ++ [96%N]). same_list.
  - intros items Hloads.
    destruct (json_loads_braces _ _ Hloads) as [body' Hbraces].
    rewrite Hclean in Hbraces.
    rewrite strip_by_fixed in Hbraces by now apply bounded_ends.
    injection Hbraces as Hbraces.
    apply (f_equal (@rev N)) in Hbraces. rewrite !rev_app_distr in Hbraces.
    discriminate Hbraces.
Qed.

End FenceThenSpace.

Lemma space_after_the_fence_defeats_cleaning_witness :
  (exists x : str,
     clean_json_text (fenced true one_slide_text ++ [10%N]) = x ++ fence)
  /\ forall items : list (str * json),
       decode (clean_json_text (fenced true one_slide_text ++ [10%N]))
       <> Ok (JObj items).
Proof.
  apply (space_after_the_fence_defeats_cleaning decode decode_braces true
           one_slide_text
           (removelast (tl (strip_by json_ws one_slide_text))) [10%N]).
  - vm_compute. reflexivity.
  - discriminate.
  - repeat constructor.
Defined.

(** ** Outline generation raises at its prints only *)

(** X1.  No error of the service or of the decoder escapes
    [generate_presentation_slide_text]: whatever they do, the function
    returns, or one of its two prints raises the error of the console.
    Either way the heap and the files are as they were.  With a console
    that can encode the heading and the failure line it returns: it has
    sent the one outline request and printed its heading first. *)
Theorem outline_generation_raises_only_at_print {console : Console}
    (generate_content : list request -> request -> res GenerateContentResponse)
    (json_loads : str -> res json) (topic : str) (num_slides : Z) (w : world) :
  let run := generate_presentation_slide_text generate_content json_loads
               topic num_slides w in
  ((exists v : json, fst run = Ok v) \/ fst run = Raise UnicodeEncodeError)
  /\ heap (snd run) = heap w
  /\ files (snd run) = files w
  /\ (encodes (LogGeneratingOutline topic) = true ->
      (forall e : exn, encodes (LogOutlineFailed e) = true) ->
      exists (v : json) (out : list log_line),
        run = (Ok v,
               {| heap := heap w;
                  sent := sent w ++ [outline_request topic num_slides];
                  stdout := stdout w ++ LogGeneratingOutline topic :: out;
                  files := files w |})).
Proof.
  intros run. subst run. unfold generate_presentation_slide_text.
  rewrite run_bind.
  destruct (encodes (LogGeneratingOutline topic)) eqn:Hheading.
  2:{ rewrite print_fails by exact Hheading.
      split; [now right|]. split; [reflexivity|].
      split; [reflexivity|]. discriminate. }
  rewrite print_run by exact Hheading. rewrite run_try_except.
  unfold outline_attempt. rewrite run_bind.
  unfold client_generate_content. cbn [sent with_stdout].
  fold (outline_request topic num_slides).
  assert (Hhandler : forall (e : exn) (w1 : world),
    let run := (print (LogOutlineFailed e);; mret JNull) w1 in
    ((exists v : json, fst run = Ok v) \/ fst run = Raise UnicodeEncodeError)
    /\ heap (snd run) = heap w1
    /\ files (snd run) = files w1
    /\ (encodes (LogOutlineFailed e) = true ->
        run = (Ok JNull, with_stdout (stdout w1 ++ [LogOutlineFailed e]) w1))).
  { intros e w1. cbv zeta. rewrite run_bind. unfold print, printable.
    destruct (encodes (LogOutlineFailed e)).
    - split; [left; now exists JNull|]. repeat split.
    - split; [now right|]. split; [reflexivity|]. split; [reflexivity|].
      discriminate. }
  assert (Hfailed : forall e : exn,
    let w1 := with_sent (sent w ++ [outline_request topic num_slides])
                (with_stdout (stdout w ++ [LogGeneratingOutline topic]) w) in
    let run := (print (LogOutlineFailed e);; mret JNull) w1 in
    ((exists v : json, fst run = Ok v) \/ fst run = Raise UnicodeEncodeError)
    /\ heap (snd run) = heap w
    /\ files (snd run) = files w
    /\ (true = true ->
        (forall e : exn, encodes (LogOutlineFailed e) = true) ->
        exists (v : json) (out : list log_line),
          run = (Ok v,
                 {| heap := heap w;
                    sent := sent w ++ [outline_request topic num_slides];
                    stdout := stdout w ++ LogGeneratingOutline topic :: out;
                    files := files w |}))).
  { intros e w1 run. destruct (Hhandler e w1) as (Hres & Hheap & Hfiles & Hok).
    split; [exact Hres|]. split; [exact Hheap|]. split; [exact Hfiles|].
    intros _ Hline. exists JNull, [LogOutlineFailed e].
    subst run. rewrite (Hok (Hline e)). subst w1.
    unfold with_stdout, with_sent. cbn [heap sent stdout files].
    now rewrite <- app_assoc. }
  destruct (generate_content (sent w) (outline_request topic num_slides))
    as [response|e]; [|apply Hfailed].
  rewrite run_bind, run_lift.
  destruct (first_part_text response) as [text|e]; cbn [fmap res_fmap];
    [|apply Hfailed].
  rewrite run_lift.
  destruct (json_loads (clean_json_text text)) as [v|e]; [|apply Hfailed].
  split; [left; now exists v|]. split; [reflexivity|]. split; [reflexivity|].
  intros _ _. exists v, []. reflexivity.
Qed.

Lemma outline_generation_raises_only_at_print_witness :
  let run := generate_presentation_slide_text (console := utf8_console)
               service_down no_decoder (lit "Topic") 1 empty_world in
  ((exists v : json, fst run = Ok v) \/ fst run = Raise UnicodeEncodeError)
  /\ heap (snd run) = ∅
  /\ files (snd run) = ∅
  /\ exists (v : json) (out : list log_line),
       run = (Ok v,
              {| heap := ∅;
                 sent := [outline_request (lit "Topic") 1];
                 stdout := LogGeneratingOutline (lit "Topic") :: out;
                 files := ∅ |}).
Proof.
  destruct (outline_generation_raises_only_at_print (console := utf8_console)
              service_down no_decoder (lit "Topic") 1 empty_world)
    as (Hres & Hheap & Hfiles & Hok).
  split; [exact Hres|]. split; [exact Hheap|]. split; [exact Hfiles|].
  apply Hok; [vm_compute; reflexivity|intros e; reflexivity].
Defined.

(** ** Image generation: the slides and the heap *)

(** X5.  When the outline has no 'slides', or a value there that cannot
    be iterated, [generate_presentation_slide_images] raises that error
    to its caller before any request: nothing is sent, and the dict it
    made is empty. *)
Theorem images_need_the_slides {console : Console}
    (generate_content : list request -> request -> res GenerateContentResponse)
    (w : world) (outline : nat) (o : json) (e : exn) :
  heap w !! outline = Some (PyJson o) ->
  (getitem o (lit "slides") ≫= py_iter) = Raise e ->
  exists w' : world,
    generate_presentation_slide_images generate_content outline w
      = (Raise e, w')
    /\ sent w' = sent w
    /\ files w' = files w
    /\ heap w' = <[fresh (dom (heap w)) := PyImages ∅]> (heap w).
Proof.
  intros Ho Hslides. unfold generate_presentation_slide_images.
  assert (Hne : fresh (dom (heap w)) ≠ outline).
  { intros Heq. apply (is_fresh (dom (heap w))). rewrite Heq.
    apply elem_of_dom. eauto. }
  rewrite run_bind. unfold new_object at 1.
  rewrite run_bind, print_run by reflexivity.
  rewrite run_bind. unfold subscript. rewrite run_bind.
  unfold load_json at 1. cbn [heap with_heap with_stdout].
  rewrite lookup_insert_ne by exact Hne. rewrite Ho. rewrite run_lift.
  destruct (getitem o (lit "slides")) as [slides|e'].
  - cbn [mbind res_bind] in Hslides. rewrite run_bind, run_lift, Hslides.
    eexists. split; [reflexivity|]. repeat split.
  - injection Hslides as ->. eexists. split; [reflexivity|]. repeat split.
Qed.

Lemma images_need_the_slides_witness :
  exists w' : world,
    generate_presentation_slide_images (console := utf8_console) service_up 0
      (world_of outline_without_slides ∅)
      = (Raise (KeyError (JStr (lit "slides"))), w')
    /\ sent w' = []
    /\ files w' = ∅
    /\ heap w' = <[2 := PyImages ∅]> (heap (world_of outline_without_slides ∅)).
Proof.
  apply (images_need_the_slides (console := utf8_console) service_up
           (world_of outline_without_slides ∅) 0 outline_without_slides
           (KeyError (JStr (lit "slides"))));
    reflexivity.
Defined.

Lemma touches_only_ret (l : nat) {A : Type} (a : A) :
  touches_only l (mret a : M A).
Proof. intros w. split; reflexivity. Qed.

Lemma touches_only_lift (l : nat) {A : Type} (r : res A) :
  touches_only l (lift r).
Proof. intros w. split; reflexivity. Qed.

Lemma touches_only_print {console : Console} (l : nat) (line : log_line) :
  touches_only l (print line).
Proof. intros w. unfold print. destruct (printable line); now split. Qed.

Lemma touches_only_bind (l : nat) {A B : Type} (m : M A) (f : A -> M B) :
  touches_only l m -> (forall a : A, touches_only l (f a)) ->
  touches_only l (m ≫= f).
Proof.
  intros Hm Hf w. rewrite run_bind. destruct (Hm w) as [Hfiles Hheap].
  destruct (m w) as [[a|e] w1]; simpl in *; [|now split].
  destruct (Hf a w1) as [Hfiles' Hheap']. split.
  - now rewrite Hfiles'.
  - intros l' Hl'. now rewrite Hheap', Hheap.
Qed.

Lemma touches_only_try_except (l : nat) {A : Type} (body : M A)
    (handler : exn -> M A) :
  touches_only l body -> (forall e : exn, touches_only l (handler e)) ->
  touches_only l (try_except body handler).
Proof.
  intros Hbody Hhandler w. rewrite run_try_except.
  destruct (Hbody w) as [Hfiles Hheap].
  destruct (body w) as [[a|e] w1]; simpl in *; [now split|].
  destruct (Hhandler e w1) as [Hfiles' Hheap']. split.
  - now rewrite Hfiles'.
  - intros l' Hl'. now rewrite Hheap', Hheap.
Qed.

Lemma touches_only_load_json (l l0 : nat) : touches_only l (load_json l0).
Proof.
  intros w. unfold load_json. destruct (heap w !! l0) as [[]|]; now split.
Qed.

Lemma touches_only_images_setitem (l i : nat) (v : option bytes) :
  touches_only l (images_setitem l i v).
Proof.
  intros w. unfold images_setitem. rewrite run_bind. unfold load_images.
  destruct (heap w !! l) as [[|d]|]; try now split.
  split; [reflexivity|]. intros l' Hl'. cbn. now apply lookup_insert_ne.
Qed.

Lemma touches_only_for_enumerate (l : nat) {A : Type} (items : list A)
    (body : nat -> A -> M unit) :
  (forall (i : nat) (x : A), touches_only l (body i x)) ->
  forall i : nat, touches_only l (for_enumerate i items body).
Proof.
  intros Hbody. induction items as [|x items IH]; intros i; cbn [for_enumerate].
  - apply touches_only_ret.
  - apply touches_only_bind; [apply Hbody|]. intros _. apply IH.
Qed.

Section ImageFrame.

Context {console : Console}.
Variable generate_content :
  list request -> request -> res GenerateContentResponse.

Lemma touches_only_client_generate_content (l : nat) (r : request) :
  touches_only l (client_generate_content generate_content r).
Proof. intros w. split; reflexivity. Qed.

Lemma touches_only_scan_parts (images i : nat) (ps : list Part) :
  touches_only images (scan_parts images i ps).
Proof.
  induction ps as [|part ps IH]; cbn [scan_parts].
  - apply touches_only_images_setitem.
  - destruct (inline_data part); [apply touches_only_images_setitem|exact IH].
Qed.

Lemma touches_only_image_for_slide (images i : nat) (slide : json) :
  touches_only images (image_for_slide generate_content images i slide).
Proof.
  unfold image_for_slide.
  apply touches_only_bind; [apply touches_only_lift|]. intros image_prompt.
  apply touches_only_bind; [apply touches_only_lift|]. intros slide_title.
  apply touches_only_bind; [apply touches_only_print|]. intros _.
  apply touches_only_try_except.
  - unfold image_attempt.
    apply touches_only_bind; [apply touches_only_client_generate_content|].
    intros response.
    apply touches_only_bind; [apply touches_only_lift|]. intros ps.
    apply touches_only_scan_parts.
  - intros e. apply touches_only_bind; [apply touches_only_print|].
    intros _. apply touches_only_images_setitem.
Qed.

(** X6.  Whatever its argument holds and whether it returns or raises,
    [generate_presentation_slide_images] writes no file and leaves every
    object the heap had as it was: the only object it changes is the
    dict it made. *)
Theorem image_generation_keeps_the_heap (outline : nat) (w : world) :
  let w' := snd (generate_presentation_slide_images generate_content
                   outline w) in
  files w' = files w /\ heap w ⊆ heap w'.
Proof.
  intros w'. subst w'. unfold generate_presentation_slide_images.
  rewrite run_bind. unfold new_object at 1. cbv beta iota zeta.
  set (images := fresh (dom (heap w))).
  set (w0 := with_heap (<[images := PyImages ∅]> (heap w)) w).
  match goal with |- context [snd (?m w0)] =>
    assert (Hrest : touches_only images m)
  end.
  { apply touches_only_bind; [apply touches_only_print|]. intros _.
    apply touches_only_bind.
    { unfold subscript.
      apply touches_only_bind; [apply touches_only_load_json|].
      intros o. apply touches_only_lift. }
    intros slides.
    apply touches_only_bind; [apply touches_only_lift|]. intros items.
    apply touches_only_bind; [|intros _; apply touches_only_ret].
    apply touches_only_for_enumerate. intros i x.
    apply touches_only_image_for_slide. }
  destruct (Hrest w0) as [Hfiles Hheap]. split; [exact Hfiles|].
  apply map_subseteq_spec. intros l x Hl.
  assert (Hne : l ≠ images).
  { intros ->. apply (is_fresh (dom (heap w))). apply elem_of_dom. eauto. }
  refine (eq_trans (Hheap l Hne) _). subst w0. cbn [heap with_heap].
  now rewrite lookup_insert_ne by (intros Heq; now apply Hne).
Qed.

End ImageFrame.

(** ** Assembly: what a failure leaves behind *)

Lemma quiet_run {A : Type} (m : M A) (w : world) :
  quiet m -> m w = (fst (m w), w).
Proof. intros Hm. specialize (Hm w). destruct (m w). simpl in *. now subst. Qed.

Lemma quiet_ret {A : Type} (a : A) : quiet (mret a : M A).
Proof. intros w. reflexivity. Qed.

Lemma quiet_raise {A : Type} (e : exn) : quiet (raise e : M A).
Proof. intros w. reflexivity. Qed.

Lemma quiet_lift {A : Type} (r : res A) : quiet (lift r).
Proof. intros w. reflexivity. Qed.

Lemma quiet_bind {A B : Type} (m : M A) (f : A -> M B) :
  quiet m -> (forall a : A, quiet (f a)) -> quiet (m ≫= f).
Proof.
  intros Hm Hf w. rewrite run_bind, (quiet_run m w Hm).
  destruct (fst (m w)) as [a|e]; [apply Hf|reflexivity].
Qed.

Lemma quiet_load_json (l : nat) : quiet (load_json l).
Proof. intros w. unfold load_json. now destruct (heap w !! l) as [[]|]. Qed.

Lemma quiet_load_images (l : nat) : quiet (load_images l).
Proof. intros w. unfold load_images. now destruct (heap w !! l) as [[]|]. Qed.

Lemma quiet_fold_enumerate {A St : Type} (l : list A)
    (body : nat -> A -> St -> M St) :
  (forall (i : nat) (x : A) (s : St), quiet (body i x s)) ->
  forall (i : nat) (s : St), quiet (fold_enumerate i l s body).
Proof.
  intros Hbody. induction l as [|x l IH]; intros i s; cbn [fold_enumerate].
  - apply quiet_ret.
  - apply quiet_bind; [apply Hbody|]. intros s'. apply IH.
Qed.

Create HintDb quiet.

#[export] Hint Resolve quiet_ret quiet_raise quiet_lift quiet_load_json
  quiet_load_images : quiet.

(** Breaks a statement into its steps, each of them quiet. *)
Ltac quiet_steps :=
  repeat first
    [ apply quiet_bind; [|intros ?]
    | apply quiet_fold_enumerate; intros ? ? ?
    | match goal with
      | |- quiet (if ?b then _ else _) => destruct b
      | |- quiet (match ?x with Some _ => _ | None => _ end) => destruct x
      end
    | solve [auto with quiet] ].

Lemma quiet_subscript (l : nat) (key : str) : quiet (subscript l key).
Proof. unfold subscript. quiet_steps. Qed.

Lemma quiet_title_slide (outline : nat) : quiet (title_slide outline).
Proof.
  unfold title_slide. quiet_steps; try apply quiet_subscript; quiet_steps.
Qed.

Section AllOrNothing.

Context {console : Console}.
Variable image_ok : bytes -> bool.
Variable can_save : gmap str presentation -> str -> bool.

Lemma quiet_content_slide (images : nat) (prs : presentation) (i : nat)
    (slide_data : json) :
  quiet (content_slide image_ok images prs i slide_data).
Proof. unfold content_slide, images_contains, images_getitem. quiet_steps. Qed.

(** X7.  Whatever its arguments hold, [create_presentation_file] ends in
    one of three ways.  It returns, having written the one file of the
    given name and printed the one line, the heap and the requests sent
    untouched.  Or it raises and leaves the world exactly as it was (no
    file, no line printed).  Or the closing [print] raises, on a console
    that cannot encode the file name: then the file is written and
    nothing is printed. *)
Theorem assembly_fails_clean_or_at_the_print (outline images : nat)
    (output_filename : str) (w : world) :
  match create_presentation_file image_ok can_save outline images
          output_filename w with
  | (Ok _, w') =>
      encodes (LogSaved output_filename) = true
      /\ exists prs : presentation,
           w' = {| heap := heap w; sent := sent w;
                   stdout := stdout w ++ [LogSaved output_filename];
                   files := <[output_filename := prs]> (files w) |}
  | (Raise e, w') =>
      w' = w
      \/ (e = UnicodeEncodeError
          /\ encodes (LogSaved output_filename) = false
          /\ exists prs : presentation,
               w' = {| heap := heap w; sent := sent w; stdout := stdout w;
                       files := <[output_filename := prs]> (files w) |})
  end.
Proof.
  unfold create_presentation_file.
  rewrite run_bind, (quiet_run _ w (quiet_title_slide outline)).
  destruct (fst (title_slide outline w)) as [slide|e]; [|now left].
  rewrite run_bind, (quiet_run _ w (quiet_subscript outline (lit "slides"))).
  destruct (fst (subscript outline (lit "slides") w)) as [slides|e];
    [|now left].
  rewrite run_bind, run_lift.
  destruct (py_iter slides) as [items|e]; [|now left].
  rewrite run_bind.
  match goal with |- context [fold_enumerate ?i ?l ?s ?body w] =>
    rewrite (quiet_run (fold_enumerate i l s body) w);
      [destruct (fst (fold_enumerate i l s body w)) as [prs|e]; [|now left]|]
  end.
  - rewrite run_bind. unfold save.
    destruct (can_save (files w) output_filename); [|now left].
    unfold print, printable.
    destruct (encodes (LogSaved output_filename)) eqn:Hline.
    + split; [reflexivity|]. exists prs. reflexivity.
    + right. split; [reflexivity|]. split; [reflexivity|].
      exists prs. reflexivity.
  - apply quiet_fold_enumerate. intros i x s.
    apply quiet_bind; [apply quiet_content_slide|]. intros s'. apply quiet_ret.
Qed.

End AllOrNothing.

(** ** Assembly: the deck and the dict of images *)

Section AssemblyMore.

Context {console : Console}.
Variable image_ok : bytes -> bool.
Variable can_save : gmap str presentation -> str -> bool.

(** The content slide of a well-formed slide object: the slide of the
    data model, with the picture when the image decodes; an image that
    does not decode is the one thing that can go wrong. *)
Lemma content_slide_of_spec_ok (image : option (option bytes))
    (prs : presentation) (slide_data : json) :
  slide_spec_ok slide_data = true ->
  content_slide_of image_ok image prs slide_data =
  match image with
  | Some (Some blob) =>
      if image_ok blob
      then Ok (expected_content_slide (slide_width prs) slide_data (Some blob))
      else Raise UnidentifiedImageError
  | _ => Ok (expected_content_slide (slide_width prs) slide_data None)
  end.
Proof.
  intros Hok. destruct image as [[blob|]|].
  - destruct (image_ok blob) eqn:Hblob.
    + now rewrite (content_slide_of_ok image_ok _ prs slide_data Hok).
    + pose proof (content_slide_of_ok (fun _ => true) (Some (Some blob))
                    prs slide_data Hok eq_refl) as Hslide.
      unfold content_slide_of in *.
      repeat match type of Hslide with
      | (match ?r with Ok _ => _ | Raise _ => _ end) = _ =>
          destruct r; [cbn [mbind res_bind] in *|discriminate Hslide]
      | (?r ≫= _) = _ =>
          destruct r; [cbn [mbind res_bind] in *|discriminate Hslide]
      end.
      unfold add_picture. now rewrite Hblob.
  - now rewrite (content_slide_of_ok image_ok _ prs slide_data Hok).
  - now rewrite (content_slide_of_ok image_ok _ prs slide_data Hok).
Qed.

Lemma content_slide_of_layout (image : option (option bytes))
    (prs : presentation) (slide_data : json) (s : slide) :
  content_slide_of image_ok image prs slide_data = Ok s -> layout s = 1.
Proof.
  unfold content_slide_of. intros Hs.
  repeat match type of Hs with
  | (?r ≫= _) = _ =>
      destruct r; [cbn [mbind res_bind] in Hs|discriminate Hs]
  end.
  destruct image as [[blob|]|]; try (injection Hs as <-; reflexivity).
  unfold add_picture in Hs. destruct (image_ok blob); [|discriminate Hs].
  injection Hs as <-. reflexivity.
Qed.

Lemma content_slides_of_layouts (d : gmap nat (option bytes))
    (items : list json) :
  forall (i : nat) (prs prs' : presentation),
  content_slides_of image_ok d i items prs = Ok prs' ->
  layout <$> slides prs' = (layout <$> slides prs) ++ replicate (length items) 1.
Proof.
  induction items as [|slide_data items IH]; intros i prs prs' Hrun.
  - injection Hrun as <-. simpl. now rewrite app_nil_r.
  - cbn [content_slides_of] in Hrun.
    destruct (content_slide_of image_ok (d !! i) prs slide_data) as [s|e] eqn:Hs;
      [|discriminate Hrun].
    cbn [mbind res_bind] in Hrun. rewrite (IH _ _ _ Hrun).
    unfold add_slide. cbn [slides length replicate].
    rewrite fmap_app, <- app_assoc. cbn [fmap list_fmap app].
    now rewrite (content_slide_of_layout _ _ _ _ Hs).
Qed.

(** X8.  Whenever [create_presentation_file] returns, the deck it wrote
    has the title slide, on the title layout, and after it one slide on
    the content layout for every item the loop drew from
    [outline['slides']], however many there are. *)
Theorem deck_has_one_slide_per_item (outline images : nat)
    (output_filename : str) (o : json) (d : gmap nat (option bytes))
    (w w' : world) :
  heap w !! outline = Some (PyJson o) ->
  heap w !! images = Some (PyImages d) ->
  create_presentation_file image_ok can_save outline images output_filename w
    = (Ok tt, w') ->
  exists (prs : presentation) (items : list json),
    files w' !! output_filename = Some prs
    /\ (getitem o (lit "slides") ≫= py_iter) = Ok items
    /\ layout <$> slides prs = 0 :: replicate (length items) 1
    /\ length (slides prs) = S (length items).
Proof.
  intros Ho Hd Hrun.
  rewrite (create_presentation_file_run _ _ _ _ _ o d w Ho Hd) in Hrun.
  destruct (assemble image_ok o d) as [prs|e] eqn:Hprs; [|discriminate Hrun].
  destruct (can_save (files w) output_filename); [|discriminate Hrun].
  destruct (encodes (LogSaved output_filename)); [|discriminate Hrun].
  injection Hrun as <-. unfold assemble in Hprs.
  destruct (title_slide_of o) as [first|e] eqn:Hfirst; [|discriminate Hprs].
  cbn [mbind res_bind] in Hprs.
  destruct (getitem o (lit "slides")) as [v|e]; [|discriminate Hprs].
  cbn [mbind res_bind] in Hprs |- *.
  destruct (py_iter v) as [items|e]; [|discriminate Hprs].
  cbn [mbind res_bind] in Hprs.
  pose proof (content_slides_of_layouts _ _ _ _ _ Hprs) as Hlayouts.
  assert (Hzero : layout first = 0).
  { unfold title_slide_of in Hfirst.
    repeat match type of Hfirst with
    | (?r ≫= _) = _ =>
        destruct r; [cbn [mbind res_bind] in Hfirst|discriminate Hfirst]
    end.
    injection Hfirst as <-. reflexivity. }
  cbn in Hlayouts. rewrite Hzero in Hlayouts.
  exists prs, items. split; [apply lookup_insert_eq|]. split; [reflexivity|].
  split; [exact Hlayouts|].
  apply (f_equal (@length nat)) in Hlayouts.
  rewrite length_fmap in Hlayouts. rewrite Hlayouts. simpl.
  now rewrite length_replicate.
Qed.

(** X9.  For an outline with a string title and well-formed slides, a
    dict whose images for those slides decode, and a file that can be
    written, the file holds exactly the deck of the design: the title
    slide, then for each slide the header band, the title box, the
    bullet box and, where the dict has an image for its index, the
    picture.  The call returns after it has printed the closing line;
    on a console that cannot encode the file name that [print] raises,
    the deck being stored all the same. *)
Theorem well_formed_outline_deck (outline images : nat)
    (output_filename : str) (o : json) (title : str) (items : list json)
    (d : gmap nat (option bytes)) (w : world) :
  heap w !! outline = Some (PyJson o) ->
  heap w !! images = Some (PyImages d) ->
  getitem o (lit "title") = Ok (JStr title) ->
  getitem o (lit "slides") = Ok (JArr items) ->
  forallb slide_spec_ok items = true ->
  images_decodable image_ok d (length items) = true ->
  can_save (files w) output_filename = true ->
  create_presentation_file image_ok can_save outline images output_filename w
  = if encodes (LogSaved output_filename)
    then (Ok tt,
          {| heap := heap w; sent := sent w;
             stdout := stdout w ++ [LogSaved output_filename];
             files := <[output_filename := expected_presentation title items d]>
                        (files w) |})
    else (Raise UnicodeEncodeError,
          {| heap := heap w; sent := sent w; stdout := stdout w;
             files := <[output_filename := expected_presentation title items d]>
                        (files w) |}).
Proof.
  intros Ho Hd Htitle Hslides Hok Himages Hsave.
  rewrite (create_presentation_file_run _ _ _ _ _ o d w Ho Hd).
  rewrite (assemble_ok image_ok o d title items Htitle Hslides Hok Himages).
  now rewrite Hsave.
Qed.

Lemma content_slides_of_ext (d1 d2 : gmap nat (option bytes))
    (items : list json) :
  forall (i : nat) (prs : presentation),
  (forall j : nat, j < length items ->
     default None (d1 !! (i + j)) = default None (d2 !! (i + j))) ->
  content_slides_of image_ok d1 i items prs
  = content_slides_of image_ok d2 i items prs.
Proof.
  induction items as [|slide_data items IH]; intros i prs Hsame;
    [reflexivity|].
  cbn [content_slides_of].
  assert (Hhead : content_slide_of image_ok (d1 !! i) prs slide_data
                  = content_slide_of image_ok (d2 !! i) prs slide_data).
  { specialize (Hsame 0). rewrite Nat.add_0_r in Hsame.
    specialize (Hsame ltac:(simpl; lia)).
    unfold content_slide_of.
    destruct (d1 !! i) as [[b1|]|], (d2 !! i) as [[b2|]|]; simpl in Hsame;
      try discriminate Hsame; try reflexivity.
    now injection Hsame as ->. }
  rewrite Hhead.
  destruct (content_slide_of image_ok (d2 !! i) prs slide_data); [|reflexivity].
  cbn [mbind res_bind]. apply IH. intros j Hj.
  replace (S i + j) with (i + S j) by lia. apply Hsame. simpl. lia.
Qed.

(** X10.  The deck depends on the dict of images only through what it
    holds for the indices of the slides, a missing key counting as
    None: two dicts that agree there give the same outcome and the same
    file, whatever else they hold. *)
Theorem only_the_images_of_the_slides_count (outline images1 images2 : nat)
    (output_filename : str) (o : json) (items : list json)
    (d1 d2 : gmap nat (option bytes)) (w : world) :
  heap w !! outline = Some (PyJson o) ->
  heap w !! images1 = Some (PyImages d1) ->
  heap w !! images2 = Some (PyImages d2) ->
  (getitem o (lit "slides") ≫= py_iter) = Ok items ->
  (forall i : nat, i < length items ->
     default None (d1 !! i) = default None (d2 !! i)) ->
  create_presentation_file image_ok can_save outline images1 output_filename w
  = create_presentation_file image_ok can_save outline images2 output_filename w.
Proof.
  intros Ho Hd1 Hd2 Hitems Hsame.
  rewrite (create_presentation_file_run _ _ _ _ _ o d1 w Ho Hd1).
  rewrite (create_presentation_file_run _ _ _ _ _ o d2 w Ho Hd2).
  assert (Hassemble : assemble image_ok o d1 = assemble image_ok o d2).
  { unfold assemble. destruct (title_slide_of o); [|reflexivity].
    cbn [mbind res_bind].
    destruct (getitem o (lit "slides")) as [v|e]; [|reflexivity].
    cbn [mbind res_bind] in Hitems |- *. rewrite Hitems.
    cbn [mbind res_bind]. now apply content_slides_of_ext. }
  now rewrite Hassemble.
Qed.

Lemma content_slides_of_bad_image (d : gmap nat (option bytes))
    (items : list json) :
  forall (i j : nat) (blob : bytes) (prs : presentation),
  forallb slide_spec_ok items = true ->
  j < length items ->
  d !! (i + j) = Some (Some blob) ->
  image_ok blob = false ->
  content_slides_of image_ok d i items prs = Raise UnidentifiedImageError.
Proof.
  induction items as [|slide_data items IH]; intros i j blob prs Hall Hj Hd Hbad.
  - simpl in Hj. lia.
  - simpl in Hall. apply andb_true_iff in Hall as [Hok Hall].
    cbn [content_slides_of].
    rewrite (content_slide_of_spec_ok _ prs slide_data Hok).
    destruct j as [|j].
    + rewrite Nat.add_0_r in Hd. now rewrite Hd, Hbad.
    + assert (Hrest : forall prs', content_slides_of image_ok d (S i) items prs'
                                   = Raise UnidentifiedImageError).
      { intros prs'. apply (IH (S i) j blob); try assumption.
        - simpl in Hj. lia.
        - now replace (S i + j) with (i + S j) by lia. }
      destruct (d !! i) as [[b|]|]; cbn [mbind res_bind]; try apply Hrest.
      destruct (image_ok b); cbn [mbind res_bind]; [apply Hrest|reflexivity].
Qed.

(** X11.  One image of the dict that does not decode aborts the whole
    assembly: for a well-formed outline, the call raises the image
    library's error and writes nothing, however good the other images
    are. *)
Theorem undecodable_image_aborts_assembly (outline images : nat)
    (output_filename : str) (o : json) (title : str) (items : list json)
    (d : gmap nat (option bytes)) (i : nat) (blob : bytes) (w : world) :
  heap w !! outline = Some (PyJson o) ->
  heap w !! images = Some (PyImages d) ->
  getitem o (lit "title") = Ok (JStr title) ->
  getitem o (lit "slides") = Ok (JArr items) ->
  forallb slide_spec_ok items = true ->
  i < length items ->
  d !! i = Some (Some blob) ->
  image_ok blob = false ->
  create_presentation_file image_ok can_save outline images output_filename w
  = (Raise UnidentifiedImageError, w).
Proof.
  intros Ho Hd Htitle Hslides Hok Hi Hblob Hbad.
  rewrite (create_presentation_file_run _ _ _ _ _ o d w Ho Hd).
  unfold assemble. rewrite (title_slide_of_ok o title Htitle).
  cbn [mbind res_bind]. rewrite Hslides. cbn [mbind res_bind py_iter].
  now rewrite (content_slides_of_bad_image d items 0 i blob _ Hok Hi Hblob Hbad).
Qed.

Lemma content_slides_of_app (d : gmap nat (option bytes)) (pre rest : list json) :
  forall (i : nat) (prs : presentation),
  content_slides_of image_ok d i (pre ++ rest) prs
  = content_slides_of image_ok d i pre prs
      ≫= content_slides_of image_ok d (i + length pre) rest.
Proof.
  induction pre as [|x pre IH]; intros i prs.
  - cbn. now rewrite Nat.add_0_r.
  - cbn [app content_slides_of length].
    destruct (content_slide_of image_ok (d !! i) prs x); [|reflexivity].
    cbn [mbind res_bind]. rewrite IH.
    now replace (i + S (length pre)) with (S i + length pre) by lia.
Qed.

(** X12.  A slide object that lacks 'slide_title', or has a string there
    and lacks 'key_points', is found out only when assembly reaches it:
    the call raises the KeyError for that field and writes nothing, the
    slides before it notwithstanding. *)
Theorem slide_without_a_field_aborts_assembly (outline images : nat)
    (output_filename : str) (o : json) (title : str)
    (pre : list json) (kvs : list (str * json)) (post : list json)
    (key : str) (d : gmap nat (option bytes)) (w : world) :
  heap w !! outline = Some (PyJson o) ->
  heap w !! images = Some (PyImages d) ->
  getitem o (lit "title") = Ok (JStr title) ->
  getitem o (lit "slides") = Ok (JArr (pre ++ JObj kvs :: post)) ->
  forallb slide_spec_ok pre = true ->
  images_decodable image_ok d (length pre) = true ->
  (dict_get (lit "slide_title") kvs = None /\ key = lit "slide_title")
  \/ (is_str (default JNull (dict_get (lit "slide_title") kvs)) = true
      /\ dict_get (lit "key_points") kvs = None /\ key = lit "key_points") ->
  create_presentation_file image_ok can_save outline images output_filename w
  = (Raise (KeyError (JStr key)), w).
Proof.
  intros Ho Hd Htitle Hslides Hpre Himages Hmissing.
  rewrite (create_presentation_file_run _ _ _ _ _ o d w Ho Hd).
  unfold assemble. rewrite (title_slide_of_ok o title Htitle).
  cbn [mbind res_bind]. rewrite Hslides. cbn [mbind res_bind py_iter].
  rewrite content_slides_of_app.
  rewrite (content_slides_of_ok image_ok d pre 0 _ Hpre)
    by (intros j Hj; now apply (images_decodable_at image_ok d (length pre))).
  cbn [mbind res_bind content_slides_of]. unfold content_slide_of.
  destruct Hmissing as [[Hst ->]|(Hstr & Hkp & ->)].
  - cbn [getitem]. now rewrite Hst.
  - cbn [getitem].
    destruct (dict_get (lit "slide_title") kvs) as [[| | | |t| |]|];
      try discriminate Hstr.
    cbn [mbind res_bind as_str on_paragraph0 new_text_frame paragraphs].
    now rewrite Hkp.
Qed.

End AssemblyMore.

Lemma deck_has_one_slide_per_item_witness :
  exists (prs : presentation) (items : list json),
    files (snd (create_presentation_file (console := utf8_console) png_only every_file 0 1
                  (lit "deck.pptx")
                  (world_of two_slide_outline {[1 := Some png]})))
      !! lit "deck.pptx" = Some prs
    /\ (getitem two_slide_outline (lit "slides") ≫= py_iter) = Ok items
    /\ layout <$> slides prs = 0 :: replicate (length items) 1
    /\ length (slides prs) = S (length items).
Proof.
  apply (deck_has_one_slide_per_item (console := utf8_console) png_only every_file 0 1
           (lit "deck.pptx") two_slide_outline {[1 := Some png]}
           (world_of two_slide_outline {[1 := Some png]}));
    reflexivity.
Defined.

Lemma well_formed_outline_deck_witness :
  create_presentation_file (console := utf8_console) png_only every_file 0 1 (lit "deck.pptx")
    (world_of two_slide_outline {[1 := Some png]})
  = (Ok tt,
     {| heap := heap (world_of two_slide_outline {[1 := Some png]});
        sent := [];
        stdout := [LogSaved (lit "deck.pptx")];
        files := {[lit "deck.pptx" :=
                     expected_presentation (lit "Deck") two_slides
                       {[1 := Some png]}]} |}).
Proof.
  apply (well_formed_outline_deck (console := utf8_console) png_only every_file 0 1 (lit "deck.pptx")
           two_slide_outline (lit "Deck") two_slides {[1 := Some png]}
           (world_of two_slide_outline {[1 := Some png]}));
    reflexivity.
Defined.

Lemma only_the_images_of_the_slides_count_witness :
  create_presentation_file (console := utf8_console) png_only every_file 0 1 (lit "deck.pptx")
    (world_of_two two_slide_outline {[1 := Some png]}
       {[0 := None; 1 := Some png; 7 := Some not_an_image]})
  = create_presentation_file (console := utf8_console) png_only every_file 0 2 (lit "deck.pptx")
    (world_of_two two_slide_outline {[1 := Some png]}
       {[0 := None; 1 := Some png; 7 := Some not_an_image]}).
Proof.
  apply (only_the_images_of_the_slides_count (console := utf8_console) png_only every_file 0 1 2
           (lit "deck.pptx") two_slide_outline two_slides
           {[1 := Some png]}
           {[0 := None; 1 := Some png; 7 := Some not_an_image]});
    try reflexivity.
  intros [|[|i]] Hi; [reflexivity|reflexivity|simpl in Hi; lia].
Defined.

Lemma undecodable_image_aborts_assembly_witness :
  create_presentation_file (console := utf8_console) png_only every_file 0 1 (lit "deck.pptx")
    (world_of two_slide_outline {[0 := Some png; 1 := Some not_an_image]})
  = (Raise UnidentifiedImageError,
     world_of two_slide_outline {[0 := Some png; 1 := Some not_an_image]}).
Proof.
  apply (undecodable_image_aborts_assembly (console := utf8_console) png_only every_file 0 1
           (lit "deck.pptx") two_slide_outline (lit "Deck") two_slides
           {[0 := Some png; 1 := Some not_an_image]} 1 not_an_image);
    try reflexivity.
  simpl. lia.
Defined.

Lemma slide_without_a_field_aborts_assembly_witness :
  create_presentation_file (console := utf8_console) png_only every_file 0 1 (lit "deck.pptx")
    (world_of pointless_outline {[0 := Some png]})
  = (Raise (KeyError (JStr (lit "key_points"))),
     world_of pointless_outline {[0 := Some png]}).
Proof.
  apply (slide_without_a_field_aborts_assembly (console := utf8_console) png_only every_file 0 1
           (lit "deck.pptx") pointless_outline (lit "Deck")
           [sample_slide "One"]
           [(lit "slide_title", JStr (lit "Two"));
            (lit "image_prompt", JStr (lit "a picture"))] []
           (lit "key_points") {[0 := Some png]});
    try reflexivity.
  right. repeat split.
Defined.

(** ** The main block, end to end *)

Lemma getitem_truthy (o : json) (key : str) (v : json) :
  getitem o key = Ok v -> py_truthy o = true.
Proof.
  destruct o as [| | | | | |kvs]; try discriminate.
  destruct kvs as [|kv kvs]; [discriminate|]. intros _.
  apply negb_true_iff, bool_decide_eq_false. simpl. lia.
Qed.

Lemma images_decodable_intro (image_ok : bytes -> bool)
    (d : gmap nat (option bytes)) (n : nat) :
  (forall i : nat, i < n ->
     match d !! i with
     | Some (Some blob) => image_ok blob
     | _ => true
     end = true) ->
  images_decodable image_ok d n = true.
Proof.
  intros Hall. unfold images_decodable. apply forallb_forall.
  intros i Hi. apply in_seq in Hi. apply Hall. lia.
Qed.

Section MainBlock.

Context {console : Console}.
Variable generate_content :
  list request -> request -> res GenerateContentResponse.
Variable json_loads : str -> res json.
Variable image_ok : bytes -> bool.
Variable can_save : gmap str presentation -> str -> bool.

Variable topic : str.
Variable num_slides : Z.
Variable w : world.

(** The outline request is answered with a text that decodes to [o]. *)
Variable response : GenerateContentResponse.
Variable text : str.
Variable o : json.
Hypothesis outline_answered :
  generate_content (sent w) (outline_request topic num_slides) = Ok response.
Hypothesis outline_text : first_part_text response = Ok text.
Hypothesis outline_decoded : json_loads (clean_json_text text) = Ok o.

Lemma outline_decoded_run :
  generate_presentation_slide_text generate_content json_loads
    topic num_slides w =
  if encodes (LogGeneratingOutline topic)
  then (Ok o,
        {| heap := heap w;
           sent := sent w ++ [outline_request topic num_slides];
           stdout := stdout w ++ [LogGeneratingOutline topic];
           files := files w |})
  else (Raise UnicodeEncodeError, w).
Proof.
  unfold generate_presentation_slide_text.
  rewrite run_bind. unfold print at 1, printable at 1.
  destruct (encodes (LogGeneratingOutline topic)); [|reflexivity].
  rewrite run_try_except.
  unfold outline_attempt. rewrite run_bind.
  unfold client_generate_content. cbn [sent with_stdout].
  fold (outline_request topic num_slides). rewrite outline_answered.
  rewrite run_bind, run_lift, outline_text. cbn [fmap res_fmap].
  rewrite run_lift, outline_decoded. reflexivity.
Qed.

(** The main block for a truthy outline: the outline is bound to a new
    object and handed to the two functions. *)
Lemma pipeline_run_truthy :
  encodes (LogGeneratingOutline topic) = true ->
  py_truthy o = true ->
  pipeline generate_content json_loads image_ok can_save topic num_slides w =
  (slide_images ← generate_presentation_slide_images generate_content
                    (fresh (dom (heap w)));
   create_presentation_file image_ok can_save (fresh (dom (heap w)))
     slide_images (lit "AI_Presentation.pptx"))
    {| heap := <[fresh (dom (heap w)) := PyJson o]> (heap w);
       sent := sent w ++ [outline_request topic num_slides];
       stdout := stdout w ++ [LogGeneratingOutline topic];
       files := files w |}.
Proof.
  intros Hheading Htruthy. unfold pipeline.
  rewrite run_bind, outline_decoded_run, Hheading, Htruthy.
  rewrite run_bind. reflexivity.
Qed.

Lemma heap_grows (l : nat) (x : pyobj) (h h' : gmap nat pyobj) :
  l = fresh (dom h) -> <[l := x]> h ⊆ h' -> h ⊆ h'.
Proof.
  intros -> Hsub. etransitivity; [|exact Hsub].
  apply insert_subseteq. apply not_elem_of_dom, is_fresh.
Qed.

(** The images stage, for an outline whose slides the loop can read,
    and the two objects the assembler then finds on the heap. *)
Lemma images_stage (items : list json) :
  getitem o (lit "slides") = Ok (JArr items) ->
  forallb slide_readable items = true ->
  image_lines_printable 0 items ->
  let outline := fresh (dom (heap w)) in
  let d := recorded_images generate_content
             (sent w ++ [outline_request topic num_slides]) 0
             (image_prompts items) ∅ in
  exists (images : nat) (out : list log_line),
    let w2 := {| heap := <[images := PyImages d]>
                           (<[outline := PyJson o]> (heap w));
                 sent := sent w ++ outline_request topic num_slides
                           :: (image_request <$> image_prompts items);
                 stdout := stdout w ++ out;
                 files := files w |} in
    generate_presentation_slide_images generate_content outline
      {| heap := <[outline := PyJson o]> (heap w);
         sent := sent w ++ [outline_request topic num_slides];
         stdout := stdout w ++ [LogGeneratingOutline topic];
         files := files w |} = (Ok images, w2)
    /\ heap w2 !! outline = Some (PyJson o)
    /\ heap w2 !! images = Some (PyImages d)
    /\ heap w ⊆ heap w2.
Proof.
  intros Hslides Hreadable Hlines outline d.
  match goal with |- context [generate_presentation_slide_images _ _ ?w1] =>
    destruct (generate_presentation_slide_images_run generate_content
                outline o items w1 (lookup_insert_eq _ _ _) Hslides Hreadable
                Hlines)
      as [out Hrun];
    set (images := fresh (dom (heap w1))) in *;
    assert (Hne : images ≠ outline)
  end.
  { intros Heq. apply (is_fresh (dom (<[outline := PyJson o]> (heap w)))).
    change (images ∈ dom (<[outline := PyJson o]> (heap w))).
    rewrite Heq. apply elem_of_dom. rewrite lookup_insert_eq. eauto. }
  exists images, (LogGeneratingOutline topic :: out).
  cbn [heap sent stdout files] in Hrun |- *.
  rewrite Hrun. split; [|split; [|split]].
  - fold d. rewrite <- !app_assoc. reflexivity.
  - rewrite lookup_insert_ne by exact Hne. apply lookup_insert_eq.
  - apply lookup_insert_eq.
  - apply (heap_grows outline (PyJson o)); [reflexivity|].
    apply insert_subseteq. apply not_elem_of_dom. apply is_fresh.
Qed.

(** X13.  The main block, end to end.  When the outline request is
    answered with a text that decodes to an outline with a string title
    and slides that have their three fields, the console can encode the
    lines of the run, the images recorded for the slides decode and the
    file can be written, the run returns: it has sent the outline
    request and then one image request per slide, in the order of the
    slides, and 'AI_Presentation.pptx' holds the deck of the design with
    the images that were recorded. *)
Theorem pipeline_builds_the_deck (title : str) (items : list json) :
  getitem o (lit "title") = Ok (JStr title) ->
  getitem o (lit "slides") = Ok (JArr items) ->
  forallb slide_readable items = true ->
  forallb slide_spec_ok items = true ->
  encodes (LogGeneratingOutline topic) = true ->
  image_lines_printable 0 items ->
  encodes (LogSaved (lit "AI_Presentation.pptx")) = true ->
  images_decodable image_ok
    (recorded_images generate_content
       (sent w ++ [outline_request topic num_slides]) 0
       (image_prompts items) ∅) (length items) = true ->
  can_save (files w) (lit "AI_Presentation.pptx") = true ->
  exists w' : world,
    pipeline generate_content json_loads image_ok can_save topic num_slides w
      = (Ok tt, w')
    /\ sent w' = sent w ++ outline_request topic num_slides
                   :: (image_request <$> image_prompts items)
    /\ files w' = <[lit "AI_Presentation.pptx" :=
                      expected_presentation title items
                        (recorded_images generate_content
                           (sent w ++ [outline_request topic num_slides]) 0
                           (image_prompts items) ∅)]> (files w)
    /\ heap w ⊆ heap w'.
Proof.
  intros Htitle Hslides Hreadable Hok Hheading Hlines Hclosing Himages Hsave.
  rewrite (pipeline_run_truthy Hheading (getitem_truthy _ _ _ Htitle)).
  destruct (images_stage items Hslides Hreadable Hlines)
    as (images & out & Hrun & Ho & Hd & Hsub).
  rewrite run_bind, Hrun.
  rewrite (create_presentation_file_run _ _ _ _ _ o _ _ Ho Hd).
  rewrite (assemble_ok image_ok o _ title items Htitle Hslides Hok Himages).
  cbn [files]. rewrite Hsave, Hclosing.
  eexists. split; [reflexivity|]. cbn [sent files heap].
  split; [reflexivity|]. split; [reflexivity|exact Hsub].
Qed.

(** X14.  Images are optional: when every image turn fails, and the
    console can encode the lines of the run, the deck is written all
    the same, whatever the image library can decode, with every slide
    of the outline and no picture. *)
Theorem pipeline_without_images (title : str) (items : list json) :
  getitem o (lit "title") = Ok (JStr title) ->
  getitem o (lit "slides") = Ok (JArr items) ->
  forallb slide_readable items = true ->
  forallb slide_spec_ok items = true ->
  encodes (LogGeneratingOutline topic) = true ->
  image_lines_printable 0 items ->
  encodes (LogSaved (lit "AI_Presentation.pptx")) = true ->
  (forall (history : list request) (image_prompt : json),
     image_failure generate_content history image_prompt) ->
  can_save (files w) (lit "AI_Presentation.pptx") = true ->
  exists w' : world,
    pipeline generate_content json_loads image_ok can_save topic num_slides w
      = (Ok tt, w')
    /\ sent w' = sent w ++ outline_request topic num_slides
                   :: (image_request <$> image_prompts items)
    /\ files w' = <[lit "AI_Presentation.pptx" :=
                      expected_presentation title items ∅]> (files w).
Proof.
  intros Htitle Hslides Hreadable Hok Hheading Hlines Hclosing Hfail Hsave.
  rewrite (pipeline_run_truthy Hheading (getitem_truthy _ _ _ Htitle)).
  destruct (images_stage items Hslides Hreadable Hlines)
    as (images & out & Hrun & Ho & Hd & _).
  rewrite run_bind, Hrun.
  set (d := recorded_images generate_content
              (sent w ++ [outline_request topic num_slides]) 0
              (image_prompts items) ∅) in *.
  assert (Hnone : forall i : nat, i < length items -> d !! i = Some None).
  { intros i Hi.
    destruct (lookup_lt_is_Some_2 (image_prompts items) i) as [p Hp];
      [unfold image_prompts; now rewrite length_fmap|].
    pose proof (recorded_images_lookup generate_content (image_prompts items)
                  (sent w ++ [outline_request topic num_slides]) 0 ∅ i p Hp)
      as Hlookup.
    cbn [Nat.add] in Hlookup. fold d in Hlookup. rewrite Hlookup.
    f_equal. unfold recorded_image.
    match goal with |- context [generate_content ?h (image_request p)] =>
      specialize (Hfail h p); unfold image_failure in Hfail;
      destruct (generate_content h (image_request p)) as [r|e]; [|reflexivity]
    end.
    destruct (first_parts r); [contradiction|reflexivity]. }
  rewrite (create_presentation_file_run _ _ _ _ _ o d _ Ho Hd).
  rewrite (assemble_ok image_ok o d title items Htitle Hslides Hok).
  2: { apply images_decodable_intro. intros i Hi. now rewrite (Hnone i Hi). }
  cbn [files]. rewrite Hsave, Hclosing.
  eexists. split; [reflexivity|]. cbn [sent files].
  split; [reflexivity|]. f_equal.
  unfold expected_presentation. do 2 f_equal.
  unfold expected_content_slides. apply imap_ext. intros i x Hx.
  cbn [Nat.add]. rewrite (Hnone i) by (now apply lookup_lt_Some in Hx).
  reflexivity.
Qed.

(** X15.  An outline that decodes to something falsy, such as an empty
    object, an empty list, zero or null, stops the main block as a
    failure does, and without a word: one request, no image, no file.
    (A console that cannot encode the topic stops the run before that,
    at its first line.) *)
Theorem falsy_outline_halts_the_pipeline :
  py_truthy o = false ->
  pipeline generate_content json_loads image_ok can_save topic num_slides w
  = if encodes (LogGeneratingOutline topic)
    then (Ok tt,
          {| heap := heap w;
             sent := sent w ++ [outline_request topic num_slides];
             stdout := stdout w ++ [LogGeneratingOutline topic];
             files := files w |})
    else (Raise UnicodeEncodeError, w).
Proof.
  intros Hfalsy. unfold pipeline.
  rewrite run_bind, outline_decoded_run.
  destruct (encodes (LogGeneratingOutline topic)); [|reflexivity].
  now rewrite Hfalsy.
Qed.

(** X16.  A truthy outline without slides to iterate, be it a list, a
    number, a string, an object without 'slides' or with a number there,
    is not caught by anything: the main block raises the error of
    [outline['slides']] or of the iteration, after the outline request
    and before any image request, and writes no file.  (A console that
    cannot encode the topic stops the run before the request, at its
    first line.) *)
Theorem outline_without_slides_crashes_the_pipeline (e : exn) :
  py_truthy o = true ->
  (getitem o (lit "slides") ≫= py_iter) = Raise e ->
  exists w' : world,
    pipeline generate_content json_loads image_ok can_save topic num_slides w
      = (Raise (if encodes (LogGeneratingOutline topic) then e
                else UnicodeEncodeError), w')
    /\ sent w' = (if encodes (LogGeneratingOutline topic)
                  then sent w ++ [outline_request topic num_slides]
                  else sent w)
    /\ files w' = files w.
Proof.
  intros Htruthy Hslides.
  destruct (encodes (LogGeneratingOutline topic)) eqn:Hheading.
  2:{ exists w. unfold pipeline.
      rewrite run_bind, outline_decoded_run, Hheading. repeat split. }
  rewrite (pipeline_run_truthy Hheading Htruthy).
  rewrite run_bind. unfold generate_presentation_slide_images.
  set (outline := fresh (dom (heap w))).
  rewrite run_bind. unfold new_object at 1. cbv beta iota zeta.
  cbn [heap with_heap].
  set (images := fresh (dom (<[outline := PyJson o]> (heap w)))).
  assert (Hne : images ≠ outline).
  { intros Heq. apply (is_fresh (dom (<[outline := PyJson o]> (heap w)))).
    fold images. rewrite Heq. apply elem_of_dom.
    rewrite lookup_insert_eq. eauto. }
  rewrite run_bind, print_run by reflexivity.
  rewrite run_bind. unfold subscript. rewrite run_bind.
  unfold load_json at 1. cbn [heap with_heap with_stdout].
  rewrite lookup_insert_ne by exact Hne. rewrite lookup_insert_eq.
  rewrite run_lift.
  destruct (getitem o (lit "slides")) as [slides|e'].
  - cbn [mbind res_bind] in Hslides. rewrite run_bind, run_lift, Hslides.
    eexists. split; [reflexivity|]. split; reflexivity.
  - injection Hslides as ->. eexists. split; [reflexivity|].
    split; reflexivity.
Qed.

(** X17.  A file that cannot be written is found out last: on a console
    that can encode the lines printed until then, the main block raises
    OSError after it has sent the outline request and every image
    request, and the files are as they were. *)
Theorem unwritable_file_crashes_the_pipeline (title : str)
    (items : list json) :
  getitem o (lit "title") = Ok (JStr title) ->
  getitem o (lit "slides") = Ok (JArr items) ->
  forallb slide_readable items = true ->
  forallb slide_spec_ok items = true ->
  encodes (LogGeneratingOutline topic) = true ->
  image_lines_printable 0 items ->
  images_decodable image_ok
    (recorded_images generate_content
       (sent w ++ [outline_request topic num_slides]) 0
       (image_prompts items) ∅) (length items) = true ->
  can_save (files w) (lit "AI_Presentation.pptx") = false ->
  exists w' : world,
    pipeline generate_content json_loads image_ok can_save topic num_slides w
      = (Raise OSError, w')
    /\ sent w' = sent w ++ outline_request topic num_slides
                   :: (image_request <$> image_prompts items)
    /\ files w' = files w.
Proof.
  intros Htitle Hslides Hreadable Hok Hheading Hlines Himages Hsave.
  rewrite (pipeline_run_truthy Hheading (getitem_truthy _ _ _ Htitle)).
  destruct (images_stage items Hslides Hreadable Hlines)
    as (images & out & Hrun & Ho & Hd & _).
  rewrite run_bind, Hrun.
  rewrite (create_presentation_file_run _ _ _ _ _ o _ _ Ho Hd).
  rewrite (assemble_ok image_ok o _ title items Htitle Hslides Hok Himages).
  cbn [files]. rewrite Hsave.
  eexists. split; [reflexivity|]. split; reflexivity.
Qed.

End MainBlock.

Lemma utf8_prints_one_slide :
  image_lines_printable (console := utf8_console) 0 [sample_slide "One"].
Proof.
  intros [|i] slide Hslide; [|discriminate Hslide].
  injection Hslide as <-. split; [reflexivity|]. intros e. reflexivity.
Qed.

Lemma pipeline_builds_the_deck_witness :
  exists w' : world,
    pipeline (console := utf8_console) (outline_then_images (fenced true one_slide_text)) decode
      png_only every_file (lit "Topic") 1 empty_world = (Ok tt, w')
    /\ sent w' = [outline_request (lit "Topic") 1;
                  image_request (JStr (lit "a picture"))]
    /\ files w' = {[lit "AI_Presentation.pptx" :=
                      expected_presentation (lit "Deck") [sample_slide "One"]
                        {[0 := Some png]}]}
    /\ heap empty_world ⊆ heap w'.
Proof.
  apply (pipeline_builds_the_deck (console := utf8_console)
           (outline_then_images (fenced true one_slide_text)) decode
           png_only every_file (lit "Topic") 1 empty_world
           (text_response (fenced true one_slide_text))
           (fenced true one_slide_text) (JObj one_slide_items)
           eq_refl eq_refl ltac:(vm_compute; reflexivity)
           (lit "Deck") [sample_slide "One"]);
    try reflexivity.
  exact utf8_prints_one_slide.
Defined.

Lemma pipeline_without_images_witness :
  exists w' : world,
    pipeline (console := utf8_console) (outline_only (fenced true one_slide_text)) decode
      no_image every_file (lit "Topic") 1 empty_world = (Ok tt, w')
    /\ sent w' = [outline_request (lit "Topic") 1;
                  image_request (JStr (lit "a picture"))]
    /\ files w' = {[lit "AI_Presentation.pptx" :=
                      expected_presentation (lit "Deck") [sample_slide "One"]
                        ∅]}.
Proof.
  apply (pipeline_without_images (console := utf8_console)
           (outline_only (fenced true one_slide_text)) decode
           no_image every_file (lit "Topic") 1 empty_world
           (text_response (fenced true one_slide_text))
           (fenced true one_slide_text) (JObj one_slide_items)
           eq_refl eq_refl ltac:(vm_compute; reflexivity)
           (lit "Deck") [sample_slide "One"]
           eq_refl eq_refl eq_refl eq_refl eq_refl utf8_prints_one_slide
           eq_refl (fun _ _ => I) eq_refl).
Defined.

Lemma falsy_outline_halts_the_pipeline_witness :
  pipeline (console := utf8_console) (outline_then_images (lit "{}")) decode png_only every_file
    (lit "Topic") 1 empty_world
  = (Ok tt,
     {| heap := ∅;
        sent := [outline_request (lit "Topic") 1];
        stdout := [LogGeneratingOutline (lit "Topic")];
        files := ∅ |}).
Proof.
  apply (falsy_outline_halts_the_pipeline (console := utf8_console)
           (outline_then_images (lit "{}")) decode png_only every_file
           (lit "Topic") 1 empty_world (text_response (lit "{}")) (lit "{}")
           (JObj []) eq_refl eq_refl ltac:(vm_compute; reflexivity));
    reflexivity.
Defined.

Lemma outline_without_slides_crashes_the_pipeline_witness :
  exists w' : world,
    pipeline (console := utf8_console) (outline_then_images (lit "[1]")) decode png_only every_file
      (lit "Topic") 1 empty_world = (Raise TypeError, w')
    /\ sent w' = [outline_request (lit "Topic") 1]
    /\ files w' = ∅.
Proof.
  apply (outline_without_slides_crashes_the_pipeline (console := utf8_console)
           (outline_then_images (lit "[1]")) decode png_only every_file
           (lit "Topic") 1 empty_world (text_response (lit "[1]")) (lit "[1]")
           (JArr [JInt 1]) eq_refl eq_refl ltac:(vm_compute; reflexivity)
           TypeError);
    reflexivity.
Defined.

Lemma unwritable_file_crashes_the_pipeline_witness :
  exists w' : world,
    pipeline (console := utf8_console) (outline_then_images (fenced true one_slide_text)) decode
      png_only read_only_disk (lit "Topic") 1 empty_world
      = (Raise OSError, w')
    /\ sent w' = [outline_request (lit "Topic") 1;
                  image_request (JStr (lit "a picture"))]
    /\ files w' = ∅.
Proof.
  apply (unwritable_file_crashes_the_pipeline (console := utf8_console)
           (outline_then_images (fenced true one_slide_text)) decode
           png_only read_only_disk (lit "Topic") 1 empty_world
           (text_response (fenced true one_slide_text))
           (fenced true one_slide_text) (JObj one_slide_items)
           eq_refl eq_refl ltac:(vm_compute; reflexivity)
           (lit "Deck") [sample_slide "One"]);
    try reflexivity.
  exact utf8_prints_one_slide.
Defined.

(** ** What the image loop prints *)

Section ImageLog.

Context {console : Console}.
Variable generate_content :
  list request -> request -> res GenerateContentResponse.

Lemma image_for_slide_stdout (images i : nat) (slide : json)
    (d : gmap nat (option bytes)) (w : world) :
  heap w !! images = Some (PyImages d) ->
  has_field (lit "image_prompt") slide = true ->
  has_field (lit "slide_title") slide = true ->
  encodes (LogProcessingSlide (i + 1) (field (lit "slide_title") slide))
    = true ->
  (forall e : exn, encodes (LogImageError (i + 1) e) = true) ->
  stdout (snd (image_for_slide generate_content images i slide w))
  = stdout w ++ image_log generate_content (sent w) i [slide].
Proof.
  intros Hd Hp Ht Hline Herr. unfold image_for_slide.
  rewrite run_bind. unfold lift at 1.
  rewrite (has_field_getitem _ _ Hp).
  rewrite run_bind. unfold lift at 1.
  rewrite (has_field_getitem _ _ Ht).
  rewrite run_bind, print_run by exact Hline.
  rewrite run_try_except. unfold image_attempt.
  rewrite run_bind. unfold client_generate_content. cbn [sent with_stdout].
  cbn [image_log]. rewrite app_nil_r.
  fold (image_request (field (lit "image_prompt") slide)).
  destruct (generate_content (sent w)
              (image_request (field (lit "image_prompt") slide)))
    as [response|e].
  - rewrite run_bind. unfold lift at 1.
    destruct (first_parts response) as [ps|e].
    + rewrite (scan_parts_run _ _ _ d) by exact Hd. reflexivity.
    + rewrite run_bind, print_run by exact (Herr e).
      rewrite (images_setitem_run _ _ _ d) by exact Hd.
      cbn. now rewrite <- app_assoc.
  - rewrite run_bind, print_run by exact (Herr e).
    rewrite (images_setitem_run _ _ _ d) by exact Hd.
    cbn. now rewrite <- app_assoc.
Qed.

Lemma image_loop_stdout (images : nat) (slides : list json) :
  forall (k : nat) (d : gmap nat (option bytes)) (w : world),
  heap w !! images = Some (PyImages d) ->
  forallb slide_readable slides = true ->
  image_lines_printable k slides ->
  stdout (snd (for_enumerate k slides
                 (image_for_slide generate_content images) w))
  = stdout w ++ image_log generate_content (sent w) k slides.
Proof.
  induction slides as [|slide slides IH]; intros k d w Hd Hall Hlines.
  - simpl. now rewrite app_nil_r.
  - simpl in Hall. apply andb_true_iff in Hall as [Hslide Hall].
    apply andb_true_iff in Hslide as [Hp Ht].
    apply image_lines_printable_cons in Hlines as [[Hline Herr] Hlines].
    pose proof (image_for_slide_stdout images k slide d w Hd Hp Ht Hline Herr)
      as Hout.
    destruct (image_for_slide_run generate_content images k slide d w Hd Hp Ht
                Hline Herr)
      as [out1 Hrun].
    rewrite Hrun in Hout. cbn [snd stdout] in Hout.
    apply app_inv_head in Hout. subst out1.
    cbn [for_enumerate]. rewrite run_bind, Hrun.
    erewrite IH; [|apply lookup_insert_eq|exact Hall|exact Hlines].
    cbn [stdout sent]. rewrite <- app_assoc.
    cbn [image_log]. now rewrite app_nil_r.
Qed.

Lemma image_log_progress (slides : list json) :
  forall (history : list request) (k : nat),
  List.filter is_progress_line (image_log generate_content history k slides)
  = imap (fun i slide =>
            LogProcessingSlide (k + i + 1) (field (lit "slide_title") slide))
      slides.
Proof.
  induction slides as [|slide slides IH]; intros history k; [reflexivity|].
  cbn [image_log imap]. rewrite List.filter_app, IH.
  rewrite Nat.add_0_r.
  assert (Hhead :
    forall errs : list log_line,
      (errs = [] \/ exists e, errs = [LogImageError (k + 1) e]) ->
      List.filter is_progress_line
        (LogProcessingSlide (k + 1) (field (lit "slide_title") slide) :: errs)
      = [LogProcessingSlide (k + 1) (field (lit "slide_title") slide)]).
  { intros errs [->|[e ->]]; reflexivity. }
  rewrite Hhead.
  - cbn [app]. f_equal. apply imap_ext. intros i x _. cbn.
    f_equal. lia.
  - destruct (generate_content history _) as [response|e]; [|eauto].
    destruct (first_parts response) as [ps|e]; eauto.
Qed.

Lemma image_log_errors (slides : list json) :
  forall (history : list request) (k n : nat),
  (exists e : exn,
     LogImageError n e ∈ image_log generate_content history k slides)
  <-> exists (i : nat) (p : json),
        n = k + i + 1
        /\ image_prompts slides !! i = Some p
        /\ image_failure generate_content
             (history ++ (image_request <$> take i (image_prompts slides))) p.
Proof.
  induction slides as [|slide slides IH]; intros history k n.
  - split.
    + intros [e He]. now apply elem_of_nil in He.
    + intros (i & p & _ & Hp & _). discriminate Hp.
  - cbn [image_log]. split.
    + intros [e He]. apply elem_of_app in He as [He|He].
      * apply elem_of_cons in He as [He|He]; [discriminate He|].
        exists 0, (field (lit "image_prompt") slide).
        cbn [take fmap list_fmap]. rewrite app_nil_r.
        unfold image_failure.
        destruct (generate_content history
                    (image_request (field (lit "image_prompt") slide)))
          as [response|e'].
        -- destruct (first_parts response) as [ps|e''].
           ++ now apply elem_of_nil in He.
           ++ apply list_elem_of_singleton in He. injection He as -> _.
              split; [lia|]. split; [reflexivity|exact I].
        -- apply list_elem_of_singleton in He. injection He as -> _.
           split; [lia|]. split; [reflexivity|exact I].
      * destruct (proj1 (IH _ _ _) (ex_intro _ e He)) as (i & p & -> & Hp & Hf).
        exists (S i), p. split; [lia|]. split; [exact Hp|].
        cbn [image_prompts fmap list_fmap take]. fold (image_prompts slides).
        now rewrite <- app_assoc in Hf.
    + intros (i & p & -> & Hp & Hf). destruct i as [|i].
      * change (Some (field (lit "image_prompt") slide) = Some p) in Hp.
        injection Hp as <-.
        cbn [take fmap list_fmap] in Hf. rewrite app_nil_r in Hf.
        unfold image_failure in Hf. rewrite Nat.add_0_r.
        destruct (generate_content history
                    (image_request (field (lit "image_prompt") slide)))
          as [response|e'].
        -- destruct (first_parts response) as [ps|e'']; [destruct Hf|].
           exists e''. apply elem_of_app. left. apply elem_of_cons. right.
           apply list_elem_of_singleton. reflexivity.
        -- exists e'. apply elem_of_app. left. apply elem_of_cons. right.
           apply list_elem_of_singleton. reflexivity.
      * destruct (proj2 (IH (history ++ [image_request
                                           (field (lit "image_prompt") slide)])
                           (S k) (S k + i + 1))) as [e He].
        { exists i, p. split; [reflexivity|]. split; [exact Hp|].
          cbn [image_prompts fmap list_fmap take] in Hf.
          fold (image_prompts slides) in Hf.
          now rewrite <- app_assoc. }
        exists e. apply elem_of_app. right.
        now replace (k + S i + 1) with (S k + i + 1) by lia.
Qed.

(** X18.  What the image loop prints, for slides it can read and on a
    console that can encode their lines: the heading, then for each
    slide in turn a progress line with the number of the slide, counted
    from one, and its title; and an error line, with that number, for
    exactly the turns that fail. *)
Theorem image_loop_log (outline : nat) (o : json) (slides : list json)
    (w : world) :
  heap w !! outline = Some (PyJson o) ->
  getitem o (lit "slides") = Ok (JArr slides) ->
  forallb slide_readable slides = true ->
  image_lines_printable 0 slides ->
  exists out : list log_line,
    stdout (snd (generate_presentation_slide_images generate_content
                   outline w))
    = stdout w ++ LogGeneratingImages :: out
    /\ List.filter is_progress_line out
       = imap (fun i slide =>
                 LogProcessingSlide (i + 1) (field (lit "slide_title") slide))
           slides
    /\ forall n : nat,
         (exists e : exn, LogImageError n e ∈ out)
         <-> exists (i : nat) (p : json),
               n = i + 1
               /\ image_prompts slides !! i = Some p
               /\ image_failure generate_content
                    (sent w ++ (image_request <$> take i (image_prompts slides)))
                    p.
Proof.
  intros Ho Hslides Hall Hlines.
  exists (image_log generate_content (sent w) 0 slides).
  split; [|split].
  - unfold generate_presentation_slide_images.
    assert (Hne : fresh (dom (heap w)) ≠ outline).
    { intros Heq. apply (is_fresh (dom (heap w))). rewrite Heq.
      apply elem_of_dom. eauto. }
    set (images := fresh (dom (heap w))) in *.
    rewrite run_bind. unfold new_object at 1. fold images.
    rewrite run_bind, print_run by reflexivity.
    rewrite run_bind. unfold subscript. rewrite run_bind.
    unfold load_json at 1. cbn [heap with_heap with_stdout].
    rewrite lookup_insert_ne by exact Hne. rewrite Ho.
    unfold lift at 1. rewrite Hslides.
    rewrite run_bind. unfold lift at 1. cbn [py_iter].
    rewrite run_bind.
    match goal with |- context [for_enumerate _ _ _ ?w1] =>
      pose proof (image_loop_stdout images slides 0 ∅ w1
                    (lookup_insert_eq _ _ _) Hall Hlines) as Hout;
      destruct (image_loop_run generate_content images slides 0 ∅ w1
                  (lookup_insert_eq _ _ _) Hall Hlines) as [out Hloop]
    end.
    rewrite Hloop in Hout |- *.
    unfold with_stdout, with_heap in Hout |- *.
    cbn [mret M_ret snd stdout sent] in Hout |- *.
    apply app_inv_head in Hout. subst out.
    rewrite <- app_assoc. reflexivity.
  - rewrite image_log_progress. apply imap_ext. intros i x _. reflexivity.
  - intros n. apply (image_log_errors slides (sent w) 0 n).
Qed.

End ImageLog.

Lemma image_loop_log_witness :
  exists out : list log_line,
    stdout (snd (generate_presentation_slide_images (console := every_line)
                   service_down 0 (world_of two_slide_outline ∅)))
    = [] ++ LogGeneratingImages :: out
    /\ List.filter is_progress_line out
       = imap (fun i slide =>
                 LogProcessingSlide (i + 1) (field (lit "slide_title") slide))
           two_slides
    /\ forall n : nat,
         (exists e : exn, LogImageError n e ∈ out)
         <-> exists (i : nat) (p : json),
               n = i + 1
               /\ image_prompts two_slides !! i = Some p
               /\ image_failure service_down
                    ([] ++ (image_request <$> take i (image_prompts two_slides)))
                    p.
Proof.
  apply (image_loop_log (console := every_line) service_down 0
           two_slide_outline two_slides (world_of two_slide_outline ∅)
           eq_refl eq_refl eq_refl (every_line_prints 0 two_slides)).
Defined.

(** ** Lines the console cannot encode *)

Section UnprintableLines.

Context {console : Console}.
Variable generate_content :
  list request -> request -> res GenerateContentResponse.

(** The loop up to a slide, the slides before it being ones it can read
    and print. *)
Lemma image_loop_reaches (outline : nat) (o : json) (pre : list json)
    (slide : json) (post : list json) (w : world) :
  heap w !! outline = Some (PyJson o) ->
  getitem o (lit "slides") = Ok (JArr (pre ++ slide :: post)) ->
  forallb slide_readable pre = true ->
  image_lines_printable 0 pre ->
  exists out : list log_line,
    generate_presentation_slide_images generate_content outline w =
    (for_enumerate (length pre) (slide :: post)
       (image_for_slide generate_content (fresh (dom (heap w)))) ;;
     mret (fresh (dom (heap w))))
      {| heap := <[fresh (dom (heap w)) :=
                     PyImages (recorded_images generate_content (sent w) 0
                                 (image_prompts pre) ∅)]> (heap w);
         sent := sent w ++ (image_request <$> image_prompts pre);
         stdout := stdout w ++ out;
         files := files w |}.
Proof.
  intros Ho Hslides Hpre Hlines. unfold generate_presentation_slide_images.
  assert (Hne : fresh (dom (heap w)) ≠ outline).
  { intros Heq. apply (is_fresh (dom (heap w))). rewrite Heq.
    apply elem_of_dom. eauto. }
  set (images := fresh (dom (heap w))) in *.
  rewrite run_bind. unfold new_object at 1. fold images.
  rewrite run_bind, print_run by reflexivity.
  rewrite run_bind. unfold subscript. rewrite run_bind.
  unfold load_json at 1. cbn [heap with_heap with_stdout].
  rewrite lookup_insert_ne by exact Hne. rewrite Ho.
  unfold lift at 1. rewrite Hslides.
  rewrite run_bind. unfold lift at 1. cbn [py_iter].
  rewrite run_bind, for_enumerate_app, run_bind.
  match goal with |- context [for_enumerate _ pre _ ?w1] =>
    destruct (image_loop_run generate_content images pre 0 ∅ w1)
      as [out Hloop]; [apply lookup_insert_eq | exact Hpre | exact Hlines |]
  end.
  rewrite Hloop. exists (LogGeneratingImages :: out).
  cbn [Nat.add heap sent stdout files with_heap with_stdout].
  rewrite insert_insert_eq, <- app_assoc. rewrite !run_bind. reflexivity.
Qed.

(** X19.  The progress line of a slide is printed before its [try]: when
    the console cannot encode it (the title holds a lone surrogate, or a
    character outside the code page), the function raises the error of
    the [print] to its caller.  No request is sent for that slide or
    any later one, and the slide gets no entry in the dict. *)
Theorem unprintable_title_stops_the_loop (outline : nat) (o : json)
    (pre : list json) (slide : json) (post : list json) (w : world) :
  heap w !! outline = Some (PyJson o) ->
  getitem o (lit "slides") = Ok (JArr (pre ++ slide :: post)) ->
  forallb slide_readable pre = true ->
  image_lines_printable 0 pre ->
  slide_readable slide = true ->
  encodes (LogProcessingSlide (length pre + 1)
             (field (lit "slide_title") slide)) = false ->
  exists (w' : world) (d : gmap nat (option bytes)),
    generate_presentation_slide_images generate_content outline w
      = (Raise UnicodeEncodeError, w')
    /\ sent w' = sent w ++ (image_request <$> image_prompts pre)
    /\ files w' = files w
    /\ heap w' !! fresh (dom (heap w)) = Some (PyImages d)
    /\ d !! length pre = None.
Proof.
  intros Ho Hslides Hpre Hlines Hslide Hline.
  destruct (image_loop_reaches outline o pre slide post w Ho Hslides Hpre
              Hlines) as [out Hrun].
  rewrite Hrun. apply andb_true_iff in Hslide as [Hp Ht].
  rewrite run_bind. cbn [for_enumerate].
  rewrite run_bind. unfold image_for_slide at 1.
  rewrite run_bind, run_lift, (has_field_getitem _ _ Hp).
  rewrite run_bind, run_lift, (has_field_getitem _ _ Ht).
  rewrite run_bind, print_fails by exact Hline.
  eexists _, _. split; [reflexivity|]. cbn [sent files heap].
  split; [reflexivity|]. split; [reflexivity|].
  split; [apply lookup_insert_eq|].
  apply eq_None_not_Some. rewrite recorded_images_keys.
  unfold image_prompts. rewrite length_fmap. lia.
Qed.


End UnprintableLines.

Lemma unprintable_title_stops_the_loop_witness :
  exists (w' : world) (d : gmap nat (option bytes)),
    generate_presentation_slide_images (console := utf8_console) service_up 0
      (world_of surrogate_outline ∅) = (Raise UnicodeEncodeError, w')
    /\ sent w' = [image_request (JStr (lit "a picture"))]
    /\ files w' = ∅
    /\ heap w' !! 2 = Some (PyImages d)
    /\ d !! 1 = None.
Proof.
  apply (unprintable_title_stops_the_loop (console := utf8_console)
           service_up 0 surrogate_outline [sample_slide "One"]
           surrogate_slide [] (world_of surrogate_outline ∅)
           eq_refl eq_refl eq_refl utf8_prints_one_slide eq_refl eq_refl).
Defined.

